(** * Page Rules client binding (pagerules.go): a shallow embedding

    The file follows the source top to bottom, after the parts of Go's
    library the source calls:

    - [Bytes], [Utf8], [Strconv]: byte classes, [unicode/utf8] as far as
      [strconv.Unquote] needs it, [strconv.Unquote] and
      [strconv.ParseInt];
    - [Json]: the validity scanner of [encoding/json] ([checkValid]) and
      [json.Unmarshal] into a [string] and into an [int], on the text;
    - [MaybeInt.UnmarshalJSON], the flexible integer decoder;
    - the types of the source and the six operations of the [API] type,
      each as the tree of the calls it makes ([api.makeRequest], then
      [json.Unmarshal]), with a way to run a tree against a transport
      and a decoder;
    - the struct encoder and decoder of [encoding/json], as the tags of
      [PageRule] and of the response envelopes drive them, on the tree
      of a JSON text;
    - the vocabulary of the properties, and the properties.

    Go's [string] and [[]byte] are both [String.string], a sequence of
    8-bit [ascii] values.  Go's [int] is a [Z] within the range of 64
    bits.  An [error] that is [nil] is [None]. *)

From Stdlib Require Import ZArith Lia Bool List Ascii String.
Import ListNotations.

Local Open Scope string_scope.
Local Open Scope Z_scope.

(** ** Byte classes *)

Module Bytes.

Definition code (c : ascii) : Z := Z.of_N (N_of_ascii c).

(** [lo <= c && c <= hi] on bytes. *)
Definition between (lo hi c : ascii) : bool :=
  (code lo <=? code c) && (code c <=? code hi).

Definition is_digit (c : ascii) : bool := between "0" "9" c.

Definition is_digit19 (c : ascii) : bool := between "1" "9" c.

Definition is_hex (c : ascii) : bool :=
  between "0" "9" c || between "a" "f" c || between "A" "F" c.

(** The value of a decimal digit, [c - '0']. *)
Definition digit_val (c : ascii) : Z := code c - code "0".

(** The double quote, the single quote, the back quote and the
    backslash. *)
Definition dquote : ascii := ascii_of_nat 34.
Definition squote : ascii := ascii_of_nat 39.
Definition bquote : ascii := ascii_of_nat 96.
Definition bslash : ascii := ascii_of_nat 92.

(** [byte(z)]: the low eight bits. *)
Definition byte_of (z : Z) : ascii := ascii_of_N (Z.to_N (z mod 256)).

Definition tab : ascii := ascii_of_nat 9.
Definition lf : ascii := ascii_of_nat 10.
Definition cr : ascii := ascii_of_nat 13.

(** [strings.ContainsRune]-like test on a byte. *)
Fixpoint contains (s : string) (c : ascii) : bool :=
  match s with
  | EmptyString => false
  | String d s' => Ascii.eqb d c || contains s' c
  end.

(** A text made of decimal digits only. *)
Fixpoint all_digits (s : string) : bool :=
  match s with
  | EmptyString => true
  | String c s' => is_digit c && all_digits s'
  end.

End Bytes.

(** ** unicode/utf8 *)

Module Utf8.
Import Bytes.

Definition RuneError : Z := 65533.
Definition MaxRune : Z := 1114111.
Definition RuneSelf : Z := 128.
Definition surrogateMin : Z := 55296.
Definition surrogateMax : Z := 57343.

(** An entry of the table [first]: [as], [xx], or a size with the
    accepted range of the second byte. *)
Inductive firstInfo : Type :=
| fAscii
| fInvalid
| fLead (size : nat) (lo hi : Z).

(** The table [first] together with [acceptRanges]. *)
Definition first (b : Z) : firstInfo :=
  if b <? 128 then fAscii
  else if b <? 194 then fInvalid
  else if b <? 224 then fLead 2 128 191
  else if b =? 224 then fLead 3 160 191
  else if b <? 237 then fLead 3 128 191
  else if b =? 237 then fLead 3 128 159
  else if b <? 240 then fLead 3 128 191
  else if b =? 240 then fLead 4 144 191
  else if b <? 244 then fLead 4 128 191
  else if b =? 244 then fLead 4 128 143
  else fInvalid.

(** Continuation byte: [locb <= b <= hicb]. *)
Definition is_cont (b : Z) : bool := (128 <=? b) && (b <=? 191).

(** [utf8.DecodeRuneInString]: the rune and its width in bytes. *)
Definition DecodeRuneInString (s : string) : Z * nat :=
  match s with
  | EmptyString => (RuneError, 0%nat)
  | String c0 t0 =>
      let s0 := code c0 in
      match first s0 with
      | fAscii => (s0, 1%nat)
      | fInvalid => (RuneError, 1%nat)
      | fLead sz lo hi =>
          if (String.length s <? sz)%nat then (RuneError, 1%nat)
          else
            match t0 with
            | EmptyString => (RuneError, 1%nat)
            | String c1 t1 =>
                let s1 := code c1 in
                if (s1 <? lo) || (hi <? s1) then (RuneError, 1%nat)
                else if (sz <=? 2)%nat
                then (Z.lor (Z.shiftl (Z.land s0 31) 6) (Z.land s1 63), 2%nat)
                else
                  match t1 with
                  | EmptyString => (RuneError, 1%nat)
                  | String c2 t2 =>
                      let s2 := code c2 in
                      if negb (is_cont s2) then (RuneError, 1%nat)
                      else if (sz <=? 3)%nat
                      then (Z.lor (Z.shiftl (Z.land s0 15) 12)
                              (Z.lor (Z.shiftl (Z.land s1 63) 6)
                                 (Z.land s2 63)), 3%nat)
                      else
                        match t2 with
                        | EmptyString => (RuneError, 1%nat)
                        | String c3 _ =>
                            let s3 := code c3 in
                            if negb (is_cont s3) then (RuneError, 1%nat)
                            else (Z.lor (Z.shiftl (Z.land s0 7) 18)
                                    (Z.lor (Z.shiftl (Z.land s1 63) 12)
                                       (Z.lor (Z.shiftl (Z.land s2 63) 6)
                                          (Z.land s3 63))), 4%nat)
                        end
                  end
            end
      end
  end.

(** [s[n:]]. *)
Fixpoint drop (n : nat) (s : string) : string :=
  match n, s with
  | O, _ => s
  | S n', String _ s' => drop n' s'
  | S _, EmptyString => EmptyString
  end.

(** [utf8.ValidString]: every position decodes without an encoding
    error.  [fuel] bounds the number of runes, [String.length s] is
    enough. *)
Fixpoint ValidString_fuel (fuel : nat) (s : string) : bool :=
  match s with
  | EmptyString => true
  | String _ _ =>
      match fuel with
      | O => false
      | S fuel' =>
          let '(r, size) := DecodeRuneInString s in
          if (r =? RuneError) && (size =? 1)%nat then false
          else ValidString_fuel fuel' (drop size s)
      end
  end.

Definition ValidString (s : string) : bool :=
  ValidString_fuel (String.length s) s.

(** [utf8.ValidRune]. *)
Definition ValidRune (r : Z) : bool :=
  ((0 <=? r) && (r <? surrogateMin))
  || ((surrogateMax <? r) && (r <=? MaxRune)).

(** [utf8.AppendRune] on an empty buffer: the encoding of [r]. *)
Definition EncodeRune (r : Z) : string :=
  let three (r : Z) :=
    String (byte_of (Z.lor 224 (Z.shiftr r 12)))
      (String (byte_of (Z.lor 128 (Z.land (Z.shiftr r 6) 63)))
         (String (byte_of (Z.lor 128 (Z.land r 63))) EmptyString)) in
  (* uint32(r) *)
  let i := r mod 4294967296 in
  if i <=? 127 then String (byte_of r) EmptyString
  else if i <=? 2047
  then String (byte_of (Z.lor 192 (Z.shiftr r 6)))
         (String (byte_of (Z.lor 128 (Z.land r 63))) EmptyString)
  else if (MaxRune <? i) || ((surrogateMin <=? i) && (i <=? surrogateMax))
  then three RuneError
  else if i <=? 65535 then three r
  else String (byte_of (Z.lor 240 (Z.shiftr r 18)))
         (String (byte_of (Z.lor 128 (Z.land (Z.shiftr r 12) 63)))
            (String (byte_of (Z.lor 128 (Z.land (Z.shiftr r 6) 63)))
               (String (byte_of (Z.lor 128 (Z.land r 63))) EmptyString))).

End Utf8.

(** ** strconv *)

Module Strconv.
Import Bytes.

(** [ErrSyntax] and [ErrRange]. *)
Inductive Err : Type := ErrSyntax | ErrRange.

Definition maxUint64 : Z := 18446744073709551615.

(** The loop of [ParseUint(s, 10, 64)] over the bytes left, [n] being
    the value read so far.  At base 10 a letter is a digit value of ten
    or more and an underscore is no digit: both are syntax errors. *)
Fixpoint ParseUint_loop (s : string) (n : Z) : Z * option Err :=
  match s with
  | EmptyString => (n, None)
  | String c rest =>
      if is_digit c then
        let d := digit_val c in
        (* cutoff = maxUint64/10 + 1 *)
        if n >=? maxUint64 / 10 + 1 then (maxUint64, Some ErrRange)
        else
          let n := n * 10 in
          (* uint64 addition *)
          let n1 := (n + d) mod 18446744073709551616 in
          if (n1 <? n) || (n1 >? maxUint64) then (maxUint64, Some ErrRange)
          else ParseUint_loop rest n1
      else (0, Some ErrSyntax)
  end.

(** [ParseUint(s, 10, 64)]. *)
Definition ParseUint (s : string) : Z * option Err :=
  match s with
  | EmptyString => (0, Some ErrSyntax)
  | _ => ParseUint_loop s 0
  end.

(** [ParseInt(s, 10, 64)]. *)
Definition ParseInt (s : string) : Z * option Err :=
  match s with
  | EmptyString => (0, Some ErrSyntax)
  | String c rest =>
      let '(neg, s1) :=
        if Ascii.eqb c "+" then (false, rest)
        else if Ascii.eqb c "-" then (true, rest)
        else (false, s) in
      let '(un, err) := ParseUint s1 in
      match err with
      | Some ErrSyntax => (0, Some ErrSyntax)
      | _ =>
          let cutoff := 9223372036854775808 in
          if negb neg && (un >=? cutoff) then (cutoff - 1, Some ErrRange)
          else if neg && (un >? cutoff) then (- cutoff, Some ErrRange)
          else (if neg then - un else un, None)
      end
  end.

(** [unhex]. *)
Definition unhex (b : ascii) : option Z :=
  if between "0" "9" b then Some (code b - code "0")
  else if between "a" "f" b then Some (code b - code "a" + 10)
  else if between "A" "F" b then Some (code b - code "A" + 10)
  else None.

(** [n] hexadecimal digits at the head of [s]: their value (from [v])
    and the rest. *)
Fixpoint read_hex (n : nat) (s : string) (v : Z) : option (Z * string) :=
  match n with
  | O => Some (v, s)
  | S n' =>
      match s with
      | EmptyString => None
      | String c rest =>
          match unhex c with
          | None => None
          | Some x => read_hex n' rest (Z.lor (Z.shiftl v 4) x)
          end
      end
  end.

(** Two more octal digits after the first one. *)
Fixpoint read_oct (n : nat) (s : string) (v : Z) : option (Z * string) :=
  match n with
  | O => Some (v, s)
  | S n' =>
      match s with
      | EmptyString => None
      | String c rest =>
          let x := code c - code "0" in
          if (x <? 0) || (x >? 7) then None
          else read_oct n' rest (Z.lor (Z.shiftl v 3) x)
      end
  end.

(** [unquoteChar(s, quote)]: value, multibyte and tail, or [None] for
    [ErrSyntax].  A rune of more than 31 bits is out of range as it is
    when it wraps around. *)
Definition unquoteChar (s : string) (quote : ascii)
  : option (Z * bool * string) :=
  match s with
  | EmptyString => None
  | String c t =>
      if Ascii.eqb c quote
         && (Ascii.eqb quote squote || Ascii.eqb quote dquote)
      then None
      else if code c >=? Utf8.RuneSelf
      then let '(r, size) := Utf8.DecodeRuneInString s in
           Some (r, true, Utf8.drop size s)
      else if negb (Ascii.eqb c bslash) then Some (code c, false, t)
      else
        match t with
        | EmptyString => None
        | String c s =>
            if Ascii.eqb c "a" then Some (7, false, s)
            else if Ascii.eqb c "b" then Some (8, false, s)
            else if Ascii.eqb c "f" then Some (12, false, s)
            else if Ascii.eqb c "n" then Some (10, false, s)
            else if Ascii.eqb c "r" then Some (13, false, s)
            else if Ascii.eqb c "t" then Some (9, false, s)
            else if Ascii.eqb c "v" then Some (11, false, s)
            else if Ascii.eqb c "x" then
              match read_hex 2 s 0 with
              | None => None
              | Some (v, s) => Some (v, false, s)
              end
            else if Ascii.eqb c "u" || Ascii.eqb c "U" then
              match read_hex (if Ascii.eqb c "u" then 4 else 8) s 0 with
              | None => None
              | Some (v, s) =>
                  if Utf8.ValidRune v then Some (v, true, s) else None
              end
            else if between "0" "7" c then
              match read_oct 2 s (code c - code "0") with
              | None => None
              | Some (v, s) => if v >? 255 then None else Some (v, false, s)
              end
            else if Ascii.eqb c bslash then Some (code bslash, false, s)
            else if Ascii.eqb c squote || Ascii.eqb c dquote then
              if Ascii.eqb c quote then Some (code c, false, s) else None
            else None
        end
  end.

(** [index(s, c)]. *)
Fixpoint index (s : string) (c : ascii) : option nat :=
  match s with
  | EmptyString => None
  | String d s' =>
      if Ascii.eqb d c then Some O
      else match index s' c with
           | Some i => Some (S i)
           | None => None
           end
  end.

(** [s[:n]]. *)
Fixpoint take (n : nat) (s : string) : string :=
  match n, s with
  | S n', String c s' => String c (take n' s')
  | _, _ => EmptyString
  end.

(** The loop of [unquote] over a text with escape sequences: the
    buffer and the input left where the loop stops, or [None] for
    [ErrSyntax].  Each turn consumes a byte at least, so
    [String.length s] is fuel enough. *)
Fixpoint unquote_loop (fuel : nat) (quote : ascii) (s buf : string)
  : option (string * string) :=
  match s with
  | EmptyString => Some (buf, s)
  | String c _ =>
      if Ascii.eqb c quote then Some (buf, s)
      else
        match fuel with
        | O => None
        | S fuel' =>
            match unquoteChar s quote with
            | None => None
            | Some (r, multibyte, rem) =>
                if Ascii.eqb c lf then None
                else
                  let buf :=
                    if (r <? Utf8.RuneSelf) || negb multibyte
                    then buf ++ String (byte_of r) EmptyString
                    else buf ++ Utf8.EncodeRune r in
                  if Ascii.eqb quote squote then Some (buf, rem)
                  else unquote_loop fuel' quote rem buf
            end
        end
  end.

(** [unquote(in, true)]: [(out, rem, err)]. *)
Definition unquote (s : string) : string * string * option Err :=
  match s with
  | EmptyString => (EmptyString, s, Some ErrSyntax)
  | String quote EmptyString => (EmptyString, s, Some ErrSyntax)
  | String quote rest =>
      match index rest quote with
      | None => (EmptyString, s, Some ErrSyntax)
      | Some e =>
          (* in[:end] is the opening quote, [body] and the quote found *)
          let body := take e rest in
          let rem := Utf8.drop (S e) rest in
          if Ascii.eqb quote bquote then
            if negb (contains body cr) then (body, rem, None)
            else
              ((fix strip (b : string) : string :=
                  match b with
                  | EmptyString => EmptyString
                  | String c b' =>
                      if Ascii.eqb c cr then strip b' else String c (strip b')
                  end) body, rem, None)
          else if Ascii.eqb quote dquote || Ascii.eqb quote squote then
            let simple :=
              negb (contains body bslash) && negb (contains body lf)
              && (if Ascii.eqb quote dquote then Utf8.ValidString body
                  else
                    let '(r, n) := Utf8.DecodeRuneInString body in
                    (n =? e)%nat
                    && (negb (r =? Utf8.RuneError) || negb (n =? 1)%nat)) in
            if simple then (body, rem, None)
            else
              match unquote_loop (String.length rest) quote rest EmptyString with
              | None => (EmptyString, s, Some ErrSyntax)
              | Some (buf, String c rem') =>
                  if Ascii.eqb c quote then (buf, rem', None)
                  else (EmptyString, s, Some ErrSyntax)
              | Some (_, EmptyString) => (EmptyString, s, Some ErrSyntax)
              end
          else (EmptyString, s, Some ErrSyntax)
      end
  end.

(** [Unquote]. *)
Definition Unquote (s : string) : string * option Err :=
  let '(out, rem, err) := unquote s in
  match rem with
  | String _ _ => (EmptyString, Some ErrSyntax)
  | EmptyString => (out, err)
  end.

End Strconv.

(** ** encoding/json: scanner and scalar decoding *)

Module Json.
Import Bytes.

(** *** scanner.go *)

(** [isSpace]. *)
Definition isSpace (c : ascii) : bool :=
  (code c <=? code " ")
  && (Ascii.eqb c " " || Ascii.eqb c tab || Ascii.eqb c cr || Ascii.eqb c lf).

(** The values a step function returns. *)
Inductive opcode : Type :=
| scanContinue | scanBeginLiteral | scanBeginObject | scanObjectKey
| scanObjectValue | scanEndObject | scanBeginArray | scanArrayValue
| scanEndArray | scanSkipSpace | scanEnd | scanError.

(** The entries of the [parseState] stack. *)
Inductive pstate : Type := parseObjectKey | parseObjectValue | parseArrayValue.

(** The step functions, named as in the source; the scanner's [step]
    field holds one of them. *)
Inductive stepfn : Type :=
| stateBeginValueOrEmpty | stateBeginValue | stateBeginStringOrEmpty
| stateBeginString | stateEndValue | stateEndTop
| stateInString | stateInStringEsc | stateInStringEscU
| stateInStringEscU1 | stateInStringEscU12 | stateInStringEscU123
| stateNeg | state1 | state0 | stateDot | stateDot0
| stateE | stateESign | stateE0
| stateT | stateTr | stateTru
| stateF | stateFa | stateFal | stateFals
| stateN | stateNu | stateNul
| stateError.

(** [SyntaxError]: the message is kept in its parts. *)
Inductive SyntaxError : Type :=
| InvalidCharacter (c : ascii) (context : string) (offset : Z)
| UnexpectedEnd (offset : Z).

(** The scanner.  [parseState] is kept with its top (Go's last element)
    at the head of the list. *)
Record scanner : Type := mkScanner {
  step : stepfn;
  endTop : bool;
  parseState : list pstate;
  err : option SyntaxError;
  bytes : Z
}.

Definition maxNestingDepth : Z := 10000.

Definition set_step (s : scanner) (f : stepfn) : scanner :=
  mkScanner f (endTop s) (parseState s) (err s) (bytes s).

Definition set_top (s : scanner) (p : pstate) : scanner :=
  mkScanner (step s) (endTop s) (p :: tl (parseState s)) (err s) (bytes s).

(** [s.error(c, context)]. *)
Definition error (s : scanner) (c : ascii) (context : string)
  : scanner * opcode :=
  (mkScanner stateError (endTop s) (parseState s)
     (Some (InvalidCharacter c context (bytes s))) (bytes s),
   scanError).

(** [reset]. *)
Definition reset : scanner := mkScanner stateBeginValue false [] None 0.

(** [pushParseState]. *)
Definition pushParseState (s : scanner) (c : ascii) (newParseState : pstate)
  (successState : opcode) : scanner * opcode :=
  let s1 := mkScanner (step s) (endTop s) (newParseState :: parseState s)
              (err s) (bytes s) in
  if Z.of_nat (List.length (parseState s1)) <=? maxNestingDepth
  then (s1, successState)
  else error s1 c "exceeded max depth".

(** [popParseState]. *)
Definition popParseState (s : scanner) : scanner :=
  let ps := tl (parseState s) in
  match ps with
  | [] => mkScanner stateEndTop true ps (err s) (bytes s)
  | _ :: _ => mkScanner stateEndValue (endTop s) ps (err s) (bytes s)
  end.

Definition do_stateEndTop (s : scanner) (c : ascii) : scanner * opcode :=
  if negb (isSpace c)
  then (fst (error s c "after top-level value"), scanEnd)
  else (s, scanEnd).

Definition do_stateEndValue (s : scanner) (c : ascii) : scanner * opcode :=
  match parseState s with
  | [] =>
      do_stateEndTop (mkScanner stateEndTop true [] (err s) (bytes s)) c
  | ps :: _ =>
      if isSpace c then (set_step s stateEndValue, scanSkipSpace)
      else
        match ps with
        | parseObjectKey =>
            if Ascii.eqb c ":"
            then (set_step (set_top s parseObjectValue) stateBeginValue,
                  scanObjectKey)
            else error s c "after object key"
        | parseObjectValue =>
            if Ascii.eqb c ","
            then (set_step (set_top s parseObjectKey) stateBeginString,
                  scanObjectValue)
            else if Ascii.eqb c "}"
            then (popParseState s, scanEndObject)
            else error s c "after object key:value pair"
        | parseArrayValue =>
            if Ascii.eqb c ","
            then (set_step s stateBeginValue, scanArrayValue)
            else if Ascii.eqb c "]"
            then (popParseState s, scanEndArray)
            else error s c "after array element"
        end
  end.

Definition do_stateBeginValue (s : scanner) (c : ascii) : scanner * opcode :=
  if isSpace c then (s, scanSkipSpace)
  else if Ascii.eqb c "{"
  then pushParseState (set_step s stateBeginStringOrEmpty) c
         parseObjectKey scanBeginObject
  else if Ascii.eqb c "["
  then pushParseState (set_step s stateBeginValueOrEmpty) c
         parseArrayValue scanBeginArray
  else if Ascii.eqb c dquote then (set_step s stateInString, scanBeginLiteral)
  else if Ascii.eqb c "-" then (set_step s stateNeg, scanBeginLiteral)
  else if Ascii.eqb c "0" then (set_step s state0, scanBeginLiteral)
  else if Ascii.eqb c "t" then (set_step s stateT, scanBeginLiteral)
  else if Ascii.eqb c "f" then (set_step s stateF, scanBeginLiteral)
  else if Ascii.eqb c "n" then (set_step s stateN, scanBeginLiteral)
  else if is_digit19 c then (set_step s state1, scanBeginLiteral)
  else error s c "looking for beginning of value".

Definition do_stateBeginString (s : scanner) (c : ascii) : scanner * opcode :=
  if isSpace c then (s, scanSkipSpace)
  else if Ascii.eqb c dquote then (set_step s stateInString, scanBeginLiteral)
  else error s c "looking for beginning of object key string".

Definition do_state0 (s : scanner) (c : ascii) : scanner * opcode :=
  if Ascii.eqb c "." then (set_step s stateDot, scanContinue)
  else if Ascii.eqb c "e" || Ascii.eqb c "E"
  then (set_step s stateE, scanContinue)
  else do_stateEndValue s c.

Definition do_stateESign (s : scanner) (c : ascii) : scanner * opcode :=
  if is_digit c then (set_step s stateE0, scanContinue)
  else error s c "in exponent of numeric literal".

(** One more byte of a literal name: [want] moves to [next]. *)
Definition expect (s : scanner) (c want : ascii) (next : stepfn)
  (context : string) : scanner * opcode :=
  if Ascii.eqb c want then (set_step s next, scanContinue)
  else error s c context.

(** [s.step(s, c)]: the dispatch on the current step function. *)
Definition run_step (s : scanner) (c : ascii) : scanner * opcode :=
  match step s with
  | stateBeginValueOrEmpty =>
      if isSpace c then (s, scanSkipSpace)
      else if Ascii.eqb c "]" then do_stateEndValue s c
      else do_stateBeginValue s c
  | stateBeginValue => do_stateBeginValue s c
  | stateBeginStringOrEmpty =>
      if isSpace c then (s, scanSkipSpace)
      else if Ascii.eqb c "}"
      then do_stateEndValue (set_top s parseObjectValue) c
      else do_stateBeginString s c
  | stateBeginString => do_stateBeginString s c
  | stateEndValue => do_stateEndValue s c
  | stateEndTop => do_stateEndTop s c
  | stateInString =>
      if Ascii.eqb c dquote then (set_step s stateEndValue, scanContinue)
      else if Ascii.eqb c bslash then (set_step s stateInStringEsc, scanContinue)
      else if code c <? 32 then error s c "in string literal"
      else (s, scanContinue)
  | stateInStringEsc =>
      if Ascii.eqb c "b" || Ascii.eqb c "f" || Ascii.eqb c "n"
         || Ascii.eqb c "r" || Ascii.eqb c "t" || Ascii.eqb c bslash
         || Ascii.eqb c "/" || Ascii.eqb c dquote
      then (set_step s stateInString, scanContinue)
      else if Ascii.eqb c "u" then (set_step s stateInStringEscU, scanContinue)
      else error s c "in string escape code"
  | stateInStringEscU =>
      if is_hex c then (set_step s stateInStringEscU1, scanContinue)
      else error s c "in \u hexadecimal character escape"
  | stateInStringEscU1 =>
      if is_hex c then (set_step s stateInStringEscU12, scanContinue)
      else error s c "in \u hexadecimal character escape"
  | stateInStringEscU12 =>
      if is_hex c then (set_step s stateInStringEscU123, scanContinue)
      else error s c "in \u hexadecimal character escape"
  | stateInStringEscU123 =>
      if is_hex c then (set_step s stateInString, scanContinue)
      else error s c "in \u hexadecimal character escape"
  | stateNeg =>
      if Ascii.eqb c "0" then (set_step s state0, scanContinue)
      else if is_digit19 c then (set_step s state1, scanContinue)
      else error s c "in numeric literal"
  | state1 =>
      if is_digit c then (set_step s state1, scanContinue)
      else do_state0 s c
  | state0 => do_state0 s c
  | stateDot =>
      if is_digit c then (set_step s stateDot0, scanContinue)
      else error s c "after decimal point in numeric literal"
  | stateDot0 =>
      if is_digit c then (s, scanContinue)
      else if Ascii.eqb c "e" || Ascii.eqb c "E"
      then (set_step s stateE, scanContinue)
      else do_stateEndValue s c
  | stateE =>
      if Ascii.eqb c "+" || Ascii.eqb c "-"
      then (set_step s stateESign, scanContinue)
      else do_stateESign s c
  | stateESign => do_stateESign s c
  | stateE0 =>
      if is_digit c then (s, scanContinue) else do_stateEndValue s c
  | stateT => expect s c "r" stateTr "in literal true (expecting 'r')"
  | stateTr => expect s c "u" stateTru "in literal true (expecting 'u')"
  | stateTru => expect s c "e" stateEndValue "in literal true (expecting 'e')"
  | stateF => expect s c "a" stateFa "in literal false (expecting 'a')"
  | stateFa => expect s c "l" stateFal "in literal false (expecting 'l')"
  | stateFal => expect s c "s" stateFals "in literal false (expecting 's')"
  | stateFals => expect s c "e" stateEndValue "in literal false (expecting 'e')"
  | stateN => expect s c "u" stateNu "in literal null (expecting 'u')"
  | stateNu => expect s c "l" stateNul "in literal null (expecting 'l')"
  | stateNul => expect s c "l" stateEndValue "in literal null (expecting 'l')"
  | stateError => (s, scanError)
  end.

(** [eof]: the scanner and whether the input ended well. *)
Definition eof (s : scanner) : option SyntaxError :=
  match err s with
  | Some e => Some e
  | None =>
      if endTop s then None
      else
        let s1 := fst (run_step s " ") in
        if endTop s1 then None
        else match err s1 with
             | Some e => Some e
             | None => Some (UnexpectedEnd (bytes s))
             end
  end.

(** The loop of [checkValid], from a scanner that has been reset. *)
Fixpoint checkValid_from (s : scanner) (data : string) : option SyntaxError :=
  match data with
  | EmptyString => eof s
  | String c rest =>
      let s0 := mkScanner (step s) (endTop s) (parseState s) (err s)
                  (bytes s + 1) in
      let '(s1, op) := run_step s0 c in
      match op with
      | scanError => err s1
      | _ => checkValid_from s1 rest
      end
  end.

(** [checkValid]: [None] is Go's [nil] error. *)
Definition checkValid (data : string) : option SyntaxError :=
  checkValid_from reset data.

(** *** decode.go, for the two scalar targets the source uses *)

(** What [json.Unmarshal] returns when it is not [nil].  [Panic] stands
    for the decoder's phase panic, which [checkValid] rules out. *)
Inductive Error : Type :=
| Syntax (e : SyntaxError)
| UnmarshalTypeError (Value : string) (Type_ : string)
| Panic.

(** [scanWhile(scanSkipSpace)]: the input from its first byte that is
    not a space. *)
Fixpoint skipSpace (data : string) : string :=
  match data with
  | EmptyString => EmptyString
  | String c rest => if isSpace c then skipSpace rest else data
  end.

(** The number case of [rescanLiteral]: the bytes of the literal after
    its first one. *)
Fixpoint rescanNumber (data : string) : string :=
  match data with
  | EmptyString => EmptyString
  | String c rest =>
      if is_digit c || Ascii.eqb c "." || Ascii.eqb c "e" || Ascii.eqb c "E"
         || Ascii.eqb c "+" || Ascii.eqb c "-"
      then String c (rescanNumber rest)
      else EmptyString
  end.

(** [json.Unmarshal(data, &js)] for [var js string], as far as its
    error goes: the source tests the error and drops [js].  A string
    literal is stored, [null] leaves a string alone, anything else is a
    type error. *)
Definition Unmarshal_string_err (data : string) : option Error :=
  match checkValid data with
  | Some e => Some (Syntax e)
  | None =>
      match skipSpace data with
      | EmptyString => Some Panic
      | String c _ =>
          if Ascii.eqb c "[" then Some (UnmarshalTypeError "array" "string")
          else if Ascii.eqb c "{"
          then Some (UnmarshalTypeError "object" "string")
          else if Ascii.eqb c "n" then None
          else if Ascii.eqb c "t" || Ascii.eqb c "f"
          then Some (UnmarshalTypeError "bool" "string")
          else if Ascii.eqb c dquote then None
          else Some (UnmarshalTypeError "number" "string")
      end
  end.

(** [json.Unmarshal(data, &v)] for [var v int]: the value of [v]
    afterwards ([v0] before) and the error.  [null] leaves an [int]
    alone; a number literal goes through [strconv.ParseInt] at 64 bits,
    after which [OverflowInt] has nothing left to refuse for an [int] of
    64 bits.  On any error [v] is as it was. *)
Definition Unmarshal_int (data : string) (v0 : Z) : Z * option Error :=
  match checkValid data with
  | Some e => (v0, Some (Syntax e))
  | None =>
      match skipSpace data with
      | EmptyString => (v0, Some Panic)
      | String c rest =>
          if Ascii.eqb c "[" then (v0, Some (UnmarshalTypeError "array" "int"))
          else if Ascii.eqb c "{"
          then (v0, Some (UnmarshalTypeError "object" "int"))
          else if Ascii.eqb c "n" then (v0, None)
          else if Ascii.eqb c "t" || Ascii.eqb c "f"
          then (v0, Some (UnmarshalTypeError "bool" "int"))
          else if Ascii.eqb c dquote
          then (v0, Some (UnmarshalTypeError "string" "int"))
          else
            let item := String c (rescanNumber rest) in
            match Strconv.ParseInt item with
            | (n, None) => (n, None)
            | (_, Some _) =>
                (v0, Some (UnmarshalTypeError ("number " ++ item) "int"))
            end
      end
  end.

End Json.

(** ** Errors *)

(** The [error] values the code of this file deals in.  [Wrap] is
    [errors.Wrap] of [github.com/pkg/errors]; [Opaque] is an error of a
    collaborator, known by its text only. *)
Inductive error : Type :=
| JsonError (e : Json.Error)
| StrconvError (e : Strconv.Err)
| Opaque (text : string)
| Wrap (cause : error) (message : string).

(** ** MaybeInt *)

(** [type MaybeInt int]. *)
Definition MaybeInt : Type := Z.

(** The range of [int] where it has 64 bits. *)
Definition minInt : Z := - 9223372036854775808.
Definition maxInt : Z := 9223372036854775807.

(** [func (f *MaybeInt) UnmarshalJSON(rawData []byte) (err error)]: the
    value of [*f] after the call ([f] before it) and the error returned. *)
Definition MaybeInt_UnmarshalJSON (rawData : string) (f : MaybeInt)
  : MaybeInt * option error :=
  let v := 0 in
  let data := rawData in
  (* err = json.Unmarshal([]byte(data), &v); *f = MaybeInt(v); return err *)
  let finish (data : string) :=
    let '(v, err) := Json.Unmarshal_int data v in
    (v, option_map JsonError err) in
  (* If the value is quoted, remove quotes *)
  match Json.Unmarshal_string_err rawData with
  | None =>
      match Strconv.Unquote rawData with
      | (_, Some err) => (f, Some (StrconvError err))
      | (data, None) => finish data
      end
  | Some _ => finish data
  end.

(** A text between double quotes. *)
Definition quoted (s : string) : string :=
  String Bytes.dquote (s ++ String Bytes.dquote EmptyString).

(** [strconv.FormatInt(n, 10)], the canonical decimal digits of [n]: the
    digits of [u] from the most significant one.  [fuel] bounds the
    number of digits. *)
Fixpoint FormatUint_fuel (fuel : nat) (u : Z) : string :=
  match fuel with
  | O => EmptyString
  | S fuel' =>
      if u <? 10 then String (Bytes.byte_of (Bytes.code "0" + u)) EmptyString
      else FormatUint_fuel fuel' (u / 10)
           ++ String (Bytes.byte_of (Bytes.code "0" + u mod 10)) EmptyString
  end.

Definition FormatUint (u : Z) : string :=
  FormatUint_fuel (S (Z.to_nat (Z.log2 u))) u.

Definition FormatInt (n : Z) : string :=
  if n <? 0 then String "-" (FormatUint (- n)) else FormatUint n.

(** ** Data model *)

(** A Go slice: [nil], or a (possibly empty) sequence. *)
Inductive slice (A : Type) : Type :=
| nil_slice
| slice_of (elems : list A).
Arguments nil_slice {A}.
Arguments slice_of {A} elems.

(** The elements of a slice; [nil] has none. *)
Definition elements {A : Type} (s : slice A) : list A :=
  match s with
  | nil_slice => []
  | slice_of l => l
  end.

(** A value of type [interface{}], for the dynamic types that reach a
    [PageRuleAction]: what a caller stores ([int], [string], [bool],
    slices and maps) and what the decoder stores ([float64], [string],
    [bool], [[]interface{}], [map[string]interface{}], [nil]).

    Floating point is not modelled: a [float64] is held as the JSON
    number literal that denotes it.  A map is held as its entries in the
    order of their keys. *)
Unset Elimination Schemes.
Inductive any : Type :=
| anyNil
| anyBool (b : bool)
| anyInt (n : Z)
| anyFloat64 (literal : string)
| anyString (s : string)
| anySlice (elems : list any)
| anyMap (entries : list (string * any)).
Set Elimination Schemes.

(** [PageRuleActions] maps API action IDs to human-readable strings.  A
    Go map, here the list of its entries as the source writes them. *)
Definition PageRuleActions : list (string * string) :=
  [("always_online", "Always Online");
   ("always_use_https", "Always Use HTTPS");
   ("browser_cache_ttl", "Browser Cache TTL");
   ("browser_check", "Browser Integrity Check");
   ("cache_level", "Cache Level");
   ("disable_apps", "Disable Apps");
   ("disable_performance", "Disable Performance");
   ("disable_railgun", "Disable Railgun");
   ("disable_security", "Disable Security");
   ("edge_cache_ttl", "Edge Cache TTL");
   ("email_obfuscation", "Email Obfuscation");
   ("forwarding_url", "Forwarding URL");
   ("ip_geolocation", "IP Geolocation Header");
   ("mirage", "Mirage");
   ("rocket_loader", "Rocker Loader");
   ("security_level", "Security Level");
   ("server_side_exclude", "Server Side Excludes");
   ("smart_errors", "Smart Errors");
   ("ssl", "SSL");
   ("waf", "Web Application Firewall")].

(** [time.Time], by its three fields; the zero value is the zero time. *)
Record Time : Type := mkTime {
  wall : Z;
  ext : Z;
  loc : option string
}.

Definition zeroTime : Time := mkTime 0 0 None.

Module PageRuleTarget.
(** The anonymous struct of the [Constraint] field. *)
Record constraint : Type := mkConstraint {
  Operator : string;
  Value : string
}.

Record t : Type := mk {
  Target : string;
  Constraint : constraint
}.

Definition zero : t := mk "" (mkConstraint "" "").
End PageRuleTarget.

Module PageRuleAction.
Record t : Type := mk {
  ID : string;
  Value : any
}.

Definition zero : t := mk "" anyNil.
End PageRuleAction.

Module PageRule.
Record t : Type := mk {
  ID : string;
  Targets : slice PageRuleTarget.t;
  Actions : slice PageRuleAction.t;
  Priority : MaybeInt;
  Status : string;
  ModifiedOn : Time;
  CreatedOn : Time
}.

(** [PageRule{}]. *)
Definition zero : t := mk "" nil_slice nil_slice 0 "" zeroTime zeroTime.
End PageRule.

Module PageRuleDetailResponse.
Record t : Type := mk {
  Success : bool;
  Errors : slice string;
  Messages : slice string;
  Result : PageRule.t
}.

Definition zero : t := mk false nil_slice nil_slice PageRule.zero.
End PageRuleDetailResponse.

Module PageRulesResponse.
Record t : Type := mk {
  Success : bool;
  Errors : slice string;
  Messages : slice string;
  Result : slice PageRule.t
}.

Definition zero : t := mk false nil_slice nil_slice nil_slice.
End PageRulesResponse.

(** ** The operations *)

(** An operation calls [api.makeRequest] and [json.Unmarshal].  Neither
    is decided here: an operation is a tree of the calls it makes, each
    with the continuation that receives what the call returns.

    [Request method uri params k] is [res, err := api.makeRequest(method,
    uri, params)]; [params] is [None] for Go's [nil].  [DecodeDetail res k]
    and [DecodeList res k] are [err = json.Unmarshal(res, &r)] for a fresh
    [r] of either envelope type; the continuation receives [r] as the
    call left it, and the error. *)
Inductive prog (A : Type) : Type :=
| Ret (a : A)
| Request (method uri : string) (params : option PageRule.t)
    (k : string + error -> prog A)
| DecodeDetail (res : string)
    (k : PageRuleDetailResponse.t * option error -> prog A)
| DecodeList (res : string)
    (k : PageRulesResponse.t * option error -> prog A).
Arguments Ret {A} a.
Arguments Request {A} method uri params k.
Arguments DecodeDetail {A} res k.
Arguments DecodeList {A} res k.

(** The same tree with [f] applied to what it returns. *)
Fixpoint map_prog {A B : Type} (f : A -> B) (p : prog A) : prog B :=
  match p with
  | Ret a => Ret (f a)
  | Request method uri params k =>
      Request method uri params (fun r => map_prog f (k r))
  | DecodeDetail res k => DecodeDetail res (fun r => map_prog f (k r))
  | DecodeList res k => DecodeList res (fun r => map_prog f (k r))
  end.

Module API.
Section Operations.

(** The two message constants are declared in another file of the
    package; the operations are read for any value of them. *)
Variables errMakeRequestError errUnmarshalError : string.

Definition CreatePageRule (zoneID : string) (rule : PageRule.t)
  : prog (PageRule.t * option error) :=
  let uri := "/zones/" ++ zoneID ++ "/pagerules" in
  Request "POST" uri (Some rule) (fun r =>
    match r with
    | inr err => Ret (PageRule.zero, Some (Wrap err errMakeRequestError))
    | inl res =>
        DecodeDetail res (fun '(r, err) =>
          match err with
          | Some err => Ret (PageRule.zero, Some (Wrap err errUnmarshalError))
          | None => Ret (PageRuleDetailResponse.Result r, None)
          end)
    end).

Definition ListPageRules (zoneID : string)
  : prog (slice PageRule.t * option error) :=
  let uri := "/zones/" ++ zoneID ++ "/pagerules" in
  Request "GET" uri None (fun r =>
    match r with
    | inr err => Ret (slice_of [], Some (Wrap err errMakeRequestError))
    | inl res =>
        DecodeList res (fun '(r, err) =>
          match err with
          | Some err => Ret (slice_of [], Some (Wrap err errUnmarshalError))
          | None => Ret (PageRulesResponse.Result r, None)
          end)
    end).

Definition PageRule (zoneID ruleID : string)
  : prog (PageRule.t * option error) :=
  let uri := "/zones/" ++ zoneID ++ "/pagerules/" ++ ruleID in
  Request "GET" uri None (fun r =>
    match r with
    | inr err => Ret (PageRule.zero, Some (Wrap err errMakeRequestError))
    | inl res =>
        DecodeDetail res (fun '(r, err) =>
          match err with
          | Some err => Ret (PageRule.zero, Some (Wrap err errUnmarshalError))
          | None => Ret (PageRuleDetailResponse.Result r, None)
          end)
    end).

Definition ChangePageRule (zoneID ruleID : string) (rule : PageRule.t)
  : prog (PageRule.t * option error) :=
  let uri := "/zones/" ++ zoneID ++ "/pagerules/" ++ ruleID in
  Request "PATCH" uri (Some rule) (fun r =>
    match r with
    | inr err => Ret (PageRule.zero, Some (Wrap err errMakeRequestError))
    | inl res =>
        DecodeDetail res (fun '(r, err) =>
          match err with
          | Some err => Ret (PageRule.zero, Some (Wrap err errUnmarshalError))
          | None => Ret (PageRuleDetailResponse.Result r, None)
          end)
    end).

Definition UpdatePageRule (zoneID ruleID : string) (rule : PageRule.t)
  : prog (PageRule.t * option error) :=
  let uri := "/zones/" ++ zoneID ++ "/pagerules/" ++ ruleID in
  Request "PUT" uri (Some rule) (fun r =>
    match r with
    | inr err => Ret (PageRule.zero, Some (Wrap err errMakeRequestError))
    | inl res =>
        DecodeDetail res (fun '(r, err) =>
          match err with
          | Some err => Ret (PageRule.zero, Some (Wrap err errUnmarshalError))
          | None => Ret (PageRuleDetailResponse.Result r, None)
          end)
    end).

Definition DeletePageRule (zoneID ruleID : string) : prog (option error) :=
  let uri := "/zones/" ++ zoneID ++ "/pagerules/" ++ ruleID in
  Request "DELETE" uri None (fun r =>
    match r with
    | inr err => Ret (Some (Wrap err errMakeRequestError))
    | inl res =>
        DecodeDetail res (fun '(r, err) =>
          match err with
          | Some err => Ret (Some (Wrap err errUnmarshalError))
          | None => Ret None
          end)
    end).

End Operations.
End API.

(** *** Running an operation *)

(** What an operation is called with. *)
Inductive operation : Type :=
| Create (zoneID : string) (rule : PageRule.t)
| List (zoneID : string)
| Get (zoneID ruleID : string)
| Change (zoneID ruleID : string) (rule : PageRule.t)
| Update (zoneID ruleID : string) (rule : PageRule.t)
| Delete (zoneID ruleID : string).

(** What an operation returns beside its error. *)
Inductive value : Type :=
| oneRule (rule : PageRule.t)
| rules (rs : slice PageRule.t)
| noValue.

(** The calls of a run, in the order they were made. *)
Inductive event : Type :=
| requested (method uri : string) (params : option PageRule.t)
| decoded (res : string).

Definition is_request (e : event) : bool :=
  match e with
  | requested _ _ _ => true
  | decoded _ => false
  end.

Definition is_decode (e : event) : bool := negb (is_request e).

Section Run.

Variables errMakeRequestError errUnmarshalError : string.

(** The collaborators: the transport, which may change the world it
    lives in, and [json.Unmarshal] at the two envelope types. *)
Variable World : Type.
Variable makeRequest :
  string -> string -> option PageRule.t -> World -> (string + error) * World.
Variable unmarshalDetail : string -> PageRuleDetailResponse.t * option error.
Variable unmarshalList : string -> PageRulesResponse.t * option error.

(** The value an operation's tree returns in a world, the world after
    it, and the calls made. *)
Fixpoint run {A : Type} (p : prog A) (w : World) : A * World * list event :=
  match p with
  | Ret a => (a, w, [])
  | Request method uri params k =>
      let '(r, w1) := makeRequest method uri params w in
      let '(a, w2, log) := run (k r) w1 in
      (a, w2, requested method uri params :: log)
  | DecodeDetail res k =>
      let '(a, w1, log) := run (k (unmarshalDetail res)) w in
      (a, w1, decoded res :: log)
  | DecodeList res k =>
      let '(a, w1, log) := run (k (unmarshalList res)) w in
      (a, w1, decoded res :: log)
  end.

(** The tree of an operation, its result put in one type. *)
Definition perform (op : operation) : prog (value * option error) :=
  match op with
  | Create zoneID rule =>
      map_prog (fun '(r, err) => (oneRule r, err))
        (API.CreatePageRule errMakeRequestError errUnmarshalError zoneID rule)
  | List zoneID =>
      map_prog (fun '(rs, err) => (rules rs, err))
        (API.ListPageRules errMakeRequestError errUnmarshalError zoneID)
  | Get zoneID ruleID =>
      map_prog (fun '(r, err) => (oneRule r, err))
        (API.PageRule errMakeRequestError errUnmarshalError zoneID ruleID)
  | Change zoneID ruleID rule =>
      map_prog (fun '(r, err) => (oneRule r, err))
        (API.ChangePageRule errMakeRequestError errUnmarshalError
           zoneID ruleID rule)
  | Update zoneID ruleID rule =>
      map_prog (fun '(r, err) => (oneRule r, err))
        (API.UpdatePageRule errMakeRequestError errUnmarshalError
           zoneID ruleID rule)
  | Delete zoneID ruleID =>
      map_prog (fun err => (noValue, err))
        (API.DeletePageRule errMakeRequestError errUnmarshalError
           zoneID ruleID)
  end.

End Run.

(** ** encoding/json: structs *)

(** The scanner and the scalar decoders above work on the text.  Structs
    are encoded to, and decoded from, the tree of a JSON text: an object
    keeps its members in the order of the text, repeated keys included,
    and a number keeps its literal. *)
Unset Elimination Schemes.
Inductive JSON : Type :=
| JNull
| JBool (b : bool)
| JNumber (literal : string)
| JString (s : string)
| JArray (elems : list JSON)
| JObject (members : list (string * JSON)).
Set Elimination Schemes.

(** *** The text of a tree *)

Definition hex_digit (n : Z) : ascii :=
  if n <? 10 then Bytes.byte_of (Bytes.code "0" + n)
  else Bytes.byte_of (Bytes.code "a" + (n - 10)).

(** The encoder's text for one byte below [utf8.RuneSelf] of a string
    (HTML escaping is on by default). *)
Definition appendString_byte (c : ascii) : string :=
  let b := Bytes.code c in
  if Ascii.eqb c Bytes.bslash || Ascii.eqb c Bytes.dquote
  then String Bytes.bslash (String c EmptyString)
  else if b =? 8 then String Bytes.bslash "b"
  else if b =? 12 then String Bytes.bslash "f"
  else if b =? 10 then String Bytes.bslash "n"
  else if b =? 13 then String Bytes.bslash "r"
  else if b =? 9 then String Bytes.bslash "t"
  else if (b <? 32) || Ascii.eqb c "<" || Ascii.eqb c ">" || Ascii.eqb c "&"
  then String Bytes.bslash
         (String "u" (String "0" (String "0"
            (String (hex_digit (Z.shiftr b 4))
               (String (hex_digit (Z.land b 15)) EmptyString)))))
  else String c EmptyString.

(** [appendString]: the text between the quotes.  Invalid UTF-8 is
    written as U+FFFD, and U+2028 and U+2029 are escaped. *)
Fixpoint appendString_fuel (fuel : nat) (s : string) : string :=
  match s, fuel with
  | EmptyString, _ => EmptyString
  | _, O => EmptyString
  | String c t, S fuel' =>
      if Bytes.code c <? Utf8.RuneSelf
      then appendString_byte c ++ appendString_fuel fuel' t
      else
        let '(r, size) := Utf8.DecodeRuneInString s in
        if (r =? Utf8.RuneError) && (size =? 1)%nat
        then String Bytes.bslash "ufffd" ++ appendString_fuel fuel' t
        else if (r =? 8232) || (r =? 8233)
        then String Bytes.bslash "u202"
             ++ String (hex_digit (Z.land r 15)) EmptyString
             ++ appendString_fuel fuel' (Utf8.drop size s)
        else Strconv.take size s ++ appendString_fuel fuel' (Utf8.drop size s)
  end.

Definition appendString (s : string) : string :=
  quoted (appendString_fuel (String.length s) s).

(** [strings.Join]. *)
Fixpoint join (sep : string) (l : list string) : string :=
  match l with
  | [] => EmptyString
  | [x] => x
  | x :: r => x ++ sep ++ join sep r
  end.

(** The compact text of a tree.  It stands for the bytes of a value in
    the input, which is what the decoder hands to an [UnmarshalJSON]
    method: the tree does not keep how a string literal was escaped or
    where spaces stood, and the text is taken to be the one the encoder
    writes. *)
Fixpoint render (j : JSON) : string :=
  match j with
  | JNull => "null"
  | JBool true => "true"
  | JBool false => "false"
  | JNumber literal => literal
  | JString s => appendString s
  | JArray elems => "[" ++ join "," (List.map render elems) ++ "]"
  | JObject members =>
      "{" ++ join ","
               (List.map (fun m => appendString (fst m) ++ ":" ++ render (snd m))
                  members)
          ++ "}"
  end.

(** *** The interfaces [json.Marshaler] and [json.Unmarshaler] *)

(** [MarshalJSON() ([]byte, error)], the bytes given as their tree. *)
Class Marshaler (A : Type) : Type :=
  MarshalJSON : A -> JSON + error.

(** [UnmarshalJSON([]byte) error] on a pointer receiver: the value after
    the call and the error. *)
Class Unmarshaler (A : Type) : Type :=
  UnmarshalJSON : string -> A -> A * option error.

#[global] Instance MaybeInt_Unmarshaler : Unmarshaler MaybeInt :=
  MaybeInt_UnmarshalJSON.

(** *** encode.go *)

(** The string that the text written for [s] spells: [appendString]
    writes an escaped U+FFFD for every byte of [s] that is not part of
    valid UTF-8, and escapes that come back as they were for the rest. *)
Fixpoint ToValidUTF8_fuel (fuel : nat) (s : string) : string :=
  match s, fuel with
  | EmptyString, _ => EmptyString
  | _, O => EmptyString
  | String c t, S fuel' =>
      let '(r, size) := Utf8.DecodeRuneInString s in
      if (r =? Utf8.RuneError) && (size =? 1)%nat
      then Utf8.EncodeRune Utf8.RuneError ++ ToValidUTF8_fuel fuel' t
      else Strconv.take size s ++ ToValidUTF8_fuel fuel' (Utf8.drop size s)
  end.

Definition ToValidUTF8 (s : string) : string :=
  ToValidUTF8_fuel (String.length s) s.

(** The encoder on a [string]. *)
Definition encode_string (s : string) : JSON := JString (ToValidUTF8 s).

(** [m[k] = v] on a map held as its entries in key order. *)
Fixpoint map_set {A : Type} (k : string) (v : A) (m : list (string * A))
  : list (string * A) :=
  match m with
  | [] => [(k, v)]
  | (k', v') :: r =>
      match String.compare k k' with
      | Lt => (k, v) :: m
      | Eq => (k, v) :: r
      | Gt => (k', v') :: map_set k v r
      end
  end.

(** The entries of a map sorted by key, as the encoder writes them. *)
Definition sorted_by_key {A : Type} (l : list (string * A)) : list (string * A) :=
  fold_left (fun acc kv => map_set (fst kv) (snd kv) acc) l [].

(** The encoder on an [interface{}]. *)
Fixpoint encode_any (v : any) : JSON :=
  match v with
  | anyNil => JNull
  | anyBool b => JBool b
  | anyInt n => JNumber (FormatInt n)
  | anyFloat64 literal => JNumber literal
  | anyString s => encode_string s
  | anySlice elems => JArray (List.map encode_any elems)
  | anyMap entries =>
      JObject
        (List.map (fun kv => (ToValidUTF8 (fst kv), snd kv))
           (sorted_by_key
              (List.map (fun kv => (fst kv, encode_any (snd kv))) entries)))
  end.

(** What [isEmptyValue] looks at: the kind of a value and, by kind, its
    length or whether it is zero. *)
Inductive rvalue : Type :=
| rString (len : nat)
| rSlice (len : nat)
| rBool (b : bool)
| rInt (n : Z)
| rInterface (isNil : bool)
| rStruct.

(** [isEmptyValue]: a struct is never empty. *)
Definition isEmptyValue (v : rvalue) : bool :=
  match v with
  | rString len | rSlice len => (len =? 0)%nat
  | rBool b => negb b
  | rInt n => n =? 0
  | rInterface isNil => isNil
  | rStruct => false
  end.

(** A field of a struct as the encoder sees it: the name and the
    [omitempty] option of its tag, its value for [isEmptyValue], and its
    encoding. *)
Record field : Type := mkField {
  name : string;
  omitEmpty : bool;
  fieldValue : rvalue;
  encoding : JSON + error
}.

(** The struct encoder: the fields in order, without those that are
    [omitempty] and empty; the first encoding error ends it (Go hands it
    on inside a [MarshalerError]). *)
Fixpoint encode_fields (fs : list field) : list (string * JSON) + error :=
  match fs with
  | [] => inl []
  | f :: rest =>
      if omitEmpty f && isEmptyValue (fieldValue f) then encode_fields rest
      else
        match encoding f with
        | inr e => inr e
        | inl j =>
            match encode_fields rest with
            | inr e => inr e
            | inl members => inl ((name f, j) :: members)
            end
        end
  end.

Definition encode_struct (fs : list field) : JSON + error :=
  match encode_fields fs with
  | inl members => inl (JObject members)
  | inr e => inr e
  end.

(** A slice: [null] when it is [nil]. *)
Definition encode_slice {A : Type} (enc : A -> JSON) (s : slice A) : JSON :=
  match s with
  | nil_slice => JNull
  | slice_of elems => JArray (List.map enc elems)
  end.

Definition slice_len {A : Type} (s : slice A) : nat := List.length (elements s).

Definition encode_PageRuleTarget (t : PageRuleTarget.t) : JSON :=
  JObject
    [("target", encode_string (PageRuleTarget.Target t));
     ("constraint",
      JObject
        [("operator",
          encode_string (PageRuleTarget.Operator (PageRuleTarget.Constraint t)));
         ("value",
          encode_string (PageRuleTarget.Value (PageRuleTarget.Constraint t)))])].

Definition encode_PageRuleAction (a : PageRuleAction.t) : JSON :=
  JObject
    [("id", encode_string (PageRuleAction.ID a));
     ("value", encode_any (PageRuleAction.Value a))].

Section Encode.
Context {Time_Marshaler : Marshaler Time}.

(** The fields of [PageRule] with their tags. *)
Definition PageRule_fields (r : PageRule.t) : list field :=
  [mkField "id" true (rString (String.length (PageRule.ID r)))
     (inl (encode_string (PageRule.ID r)));
   mkField "targets" false (rSlice (slice_len (PageRule.Targets r)))
     (inl (encode_slice encode_PageRuleTarget (PageRule.Targets r)));
   mkField "actions" false (rSlice (slice_len (PageRule.Actions r)))
     (inl (encode_slice encode_PageRuleAction (PageRule.Actions r)));
   mkField "priority" false (rInt (PageRule.Priority r))
     (inl (JNumber (FormatInt (PageRule.Priority r))));
   mkField "status" false (rString (String.length (PageRule.Status r)))
     (inl (encode_string (PageRule.Status r)));
   mkField "modified_on" true rStruct (MarshalJSON (PageRule.ModifiedOn r));
   mkField "created_on" true rStruct (MarshalJSON (PageRule.CreatedOn r))].

(** [json.Marshal(rule)], as a tree: the body of a request
    ([api.makeRequest], which is not in this file, is taken to write its
    [params] with [json.Marshal]). *)
Definition Marshal_PageRule (r : PageRule.t) : JSON + error :=
  encode_struct (PageRule_fields r).

End Encode.

(** The keys of an object, in order. *)
Definition keys (j : JSON) : list string :=
  match j with
  | JObject members => List.map fst members
  | _ => []
  end.

(** *** decode.go *)

(** How the decoding of a value ends: it went through, with the first
    [UnmarshalTypeError] saved on the way if there was one (the decoder
    goes on after such an error and returns it at the end), or it was
    given up on the error of an [UnmarshalJSON] method. *)
Inductive status : Type :=
| Continue (saved : option error)
| Abort (e : error).

(** [saveError]: the first error stays. *)
Definition saveError (saved new : option error) : option error :=
  match saved with
  | Some _ => saved
  | None => new
  end.

Definition typeError (value type_ : string) : status :=
  Continue (Some (JsonError (Json.UnmarshalTypeError value type_))).

(** The [Value] an [UnmarshalTypeError] names for a tree. *)
Definition describe (j : JSON) : string :=
  match j with
  | JNull => "null"
  | JBool _ => "bool"
  | JNumber _ => "number"
  | JString _ => "string"
  | JArray _ => "array"
  | JObject _ => "object"
  end.

(** Into a [string]: [null] leaves it alone. *)
Definition decode_string (j : JSON) (old : string) : string * status :=
  match j with
  | JString s => (s, Continue None)
  | JNull => (old, Continue None)
  | _ => (old, typeError (describe j) "string")
  end.

(** Into a [bool]. *)
Definition decode_bool (j : JSON) (old : bool) : bool * status :=
  match j with
  | JBool b => (b, Continue None)
  | JNull => (old, Continue None)
  | _ => (old, typeError (describe j) "bool")
  end.

(** Into a type with an [UnmarshalJSON] method on its pointer: the
    method gets the text of the value, whatever the value is, [null]
    included; its error ends the decoding. *)
Definition decode_Unmarshaler {A : Type} `{Unmarshaler A} (j : JSON) (old : A)
  : A * status :=
  match UnmarshalJSON (render j) old with
  | (a, None) => (a, Continue None)
  | (a, Some e) => (a, Abort e)
  end.

(** Into an empty [interface{}] ([valueInterface] and the [Interface]
    cases of [literalStore]): whatever the field held is replaced.  A
    number becomes the [float64] its literal denotes (a literal beyond the
    range of [float64], an error in Go, is not told apart). *)
Fixpoint decode_any (j : JSON) : any :=
  match j with
  | JNull => anyNil
  | JBool b => anyBool b
  | JNumber literal => anyFloat64 literal
  | JString s => anyString s
  | JArray elems => anySlice (List.map decode_any elems)
  | JObject members =>
      anyMap
        (sorted_by_key
           (List.map (fun m => (fst m, decode_any (snd m))) members))
  end.

(** The elements of an array into those of a slice: an element that is
    there already is decoded into, a new one starts from [zero]. *)
Fixpoint decode_elems {A : Type} (dec : JSON -> A -> A * status) (zero : A)
  (js : list JSON) (old : list A) (saved : option error) : list A * status :=
  match js with
  | [] => ([], Continue saved)
  | j :: js' =>
      let '(o, old') := match old with
                        | [] => (zero, [])
                        | o :: old' => (o, old')
                        end in
      match dec j o with
      | (a, Abort e) => (a :: old', Abort e)
      | (a, Continue s) =>
          let '(rest, st) := decode_elems dec zero js' old' (saveError saved s) in
          (a :: rest, st)
      end
  end.

(** Into a slice: [null] makes it [nil], an array gives it the array's
    length. *)
Definition decode_slice {A : Type} (dec : JSON -> A -> A * status) (zero : A)
  (type_ : string) (j : JSON) (old : slice A) : slice A * status :=
  match j with
  | JNull => (nil_slice, Continue None)
  | JArray js =>
      let '(l, st) := decode_elems dec zero js (elements old) None in
      (slice_of l, st)
  | _ => (old, typeError (describe j) type_)
  end.

(** [foldName] on the bytes below [utf8.RuneSelf]: the lower case
    letters become upper case.  (Go folds the runes beyond as well; no
    field name of this file has a partner there but by the long s and
    the Kelvin sign, which are left as they are.) *)
Fixpoint foldName (s : string) : string :=
  match s with
  | EmptyString => EmptyString
  | String c t =>
      String (if Bytes.between "a" "z" c
              then Bytes.byte_of (Bytes.code c - 32) else c)
        (foldName t)
  end.

(** The position of the first name for which [test] holds. *)
Fixpoint find_index (test : string -> bool) (names : list string) : option nat :=
  match names with
  | [] => None
  | n :: rest =>
      if test n then Some O
      else match find_index test rest with
           | Some i => Some (S i)
           | None => None
           end
  end.

(** The field a key names: the one of that very name or else the first
    one that is the same but for the case of letters. *)
Definition field_of_key (names : list string) (key : string) : option nat :=
  match find_index (String.eqb key) names with
  | Some i => Some i
  | None => find_index (fun n => String.eqb (foldName n) (foldName key)) names
  end.

(** The members of an object into a struct, one after the other;
    [dec_field] decodes the value of a key into the field it names and
    leaves the struct alone at a key that names none. *)
Fixpoint decode_members {A : Type} (dec_field : string -> JSON -> A -> A * status)
  (members : list (string * JSON)) (a : A) (saved : option error) : A * status :=
  match members with
  | [] => (a, Continue saved)
  | (k, j) :: rest =>
      match dec_field k j a with
      | (a', Abort e) => (a', Abort e)
      | (a', Continue s) => decode_members dec_field rest a' (saveError saved s)
      end
  end.

(** Into a struct: [null] leaves it alone. *)
Definition decode_struct {A : Type} (dec_field : string -> JSON -> A -> A * status)
  (type_ : string) (j : JSON) (old : A) : A * status :=
  match j with
  | JObject members => decode_members dec_field members old None
  | JNull => (old, Continue None)
  | _ => (old, typeError (describe j) type_)
  end.

(** A field set to what decoding into it gives. *)
Definition into {A B : Type} (r : B * status) (set : B -> A) : A * status :=
  (set (fst r), snd r).

Definition decode_constraint : JSON -> PageRuleTarget.constraint
                               -> PageRuleTarget.constraint * status :=
  decode_struct
    (fun key j c =>
       match field_of_key ["operator"; "value"] key with
       | Some 0%nat =>
           into (decode_string j (PageRuleTarget.Operator c))
             (fun x => PageRuleTarget.mkConstraint x (PageRuleTarget.Value c))
       | Some 1%nat =>
           into (decode_string j (PageRuleTarget.Value c))
             (fun x => PageRuleTarget.mkConstraint (PageRuleTarget.Operator c) x)
       | _ => (c, Continue None)
       end)
    "struct { Operator string; Value string }".

Definition decode_PageRuleTarget : JSON -> PageRuleTarget.t
                                   -> PageRuleTarget.t * status :=
  decode_struct
    (fun key j t =>
       match field_of_key ["target"; "constraint"] key with
       | Some 0%nat =>
           into (decode_string j (PageRuleTarget.Target t))
             (fun x => PageRuleTarget.mk x (PageRuleTarget.Constraint t))
       | Some 1%nat =>
           into (decode_constraint j (PageRuleTarget.Constraint t))
             (fun x => PageRuleTarget.mk (PageRuleTarget.Target t) x)
       | _ => (t, Continue None)
       end)
    "cloudflare.PageRuleTarget".

Definition decode_PageRuleAction : JSON -> PageRuleAction.t
                                   -> PageRuleAction.t * status :=
  decode_struct
    (fun key j a =>
       match field_of_key ["id"; "value"] key with
       | Some 0%nat =>
           into (decode_string j (PageRuleAction.ID a))
             (fun x => PageRuleAction.mk x (PageRuleAction.Value a))
       | Some 1%nat =>
           (PageRuleAction.mk (PageRuleAction.ID a) (decode_any j),
            Continue None)
       | _ => (a, Continue None)
       end)
    "cloudflare.PageRuleAction".

Section Decode.
Context {Time_Unmarshaler : Unmarshaler Time}.

Definition decode_PageRule_field (key : string) (j : JSON) (r : PageRule.t)
  : PageRule.t * status :=
  let '(PageRule.mk id targets actions priority st modified created) := r in
  match field_of_key
          ["id"; "targets"; "actions"; "priority"; "status";
           "modified_on"; "created_on"] key with
  | Some 0%nat =>
      into (decode_string j id)
        (fun x => PageRule.mk x targets actions priority st modified created)
  | Some 1%nat =>
      into (decode_slice decode_PageRuleTarget PageRuleTarget.zero
              "[]cloudflare.PageRuleTarget" j targets)
        (fun x => PageRule.mk id x actions priority st modified created)
  | Some 2%nat =>
      into (decode_slice decode_PageRuleAction PageRuleAction.zero
              "[]cloudflare.PageRuleAction" j actions)
        (fun x => PageRule.mk id targets x priority st modified created)
  | Some 3%nat =>
      into (decode_Unmarshaler j priority)
        (fun x => PageRule.mk id targets actions x st modified created)
  | Some 4%nat =>
      into (decode_string j st)
        (fun x => PageRule.mk id targets actions priority x modified created)
  | Some 5%nat =>
      into (decode_Unmarshaler j modified)
        (fun x => PageRule.mk id targets actions priority st x created)
  | Some 6%nat =>
      into (decode_Unmarshaler j created)
        (fun x => PageRule.mk id targets actions priority st modified x)
  | _ => (r, Continue None)
  end.

Definition decode_PageRule : JSON -> PageRule.t -> PageRule.t * status :=
  decode_struct decode_PageRule_field "cloudflare.PageRule".

Definition decode_strings : JSON -> slice string -> slice string * status :=
  decode_slice decode_string EmptyString "[]string".

Definition decode_PageRuleDetailResponse
  : JSON -> PageRuleDetailResponse.t -> PageRuleDetailResponse.t * status :=
  decode_struct
    (fun key j r =>
       let '(PageRuleDetailResponse.mk success errors messages result) := r in
       match field_of_key ["success"; "errors"; "messages"; "result"] key with
       | Some 0%nat =>
           into (decode_bool j success)
             (fun x => PageRuleDetailResponse.mk x errors messages result)
       | Some 1%nat =>
           into (decode_strings j errors)
             (fun x => PageRuleDetailResponse.mk success x messages result)
       | Some 2%nat =>
           into (decode_strings j messages)
             (fun x => PageRuleDetailResponse.mk success errors x result)
       | Some 3%nat =>
           into (decode_PageRule j result)
             (fun x => PageRuleDetailResponse.mk success errors messages x)
       | _ => (r, Continue None)
       end)
    "cloudflare.PageRuleDetailResponse".

Definition decode_PageRulesResponse
  : JSON -> PageRulesResponse.t -> PageRulesResponse.t * status :=
  decode_struct
    (fun key j r =>
       let '(PageRulesResponse.mk success errors messages result) := r in
       match field_of_key ["success"; "errors"; "messages"; "result"] key with
       | Some 0%nat =>
           into (decode_bool j success)
             (fun x => PageRulesResponse.mk x errors messages result)
       | Some 1%nat =>
           into (decode_strings j errors)
             (fun x => PageRulesResponse.mk success x messages result)
       | Some 2%nat =>
           into (decode_strings j messages)
             (fun x => PageRulesResponse.mk success errors x result)
       | Some 3%nat =>
           into (decode_slice decode_PageRule PageRule.zero
                   "[]cloudflare.PageRule" j result)
             (fun x => PageRulesResponse.mk success errors messages x)
       | _ => (r, Continue None)
       end)
    "cloudflare.PageRulesResponse".

(** The error [json.Unmarshal] returns. *)
Definition error_of (st : status) : option error :=
  match st with
  | Continue saved => saved
  | Abort e => Some e
  end.

(** [var r PageRuleDetailResponse; err = json.Unmarshal(res, &r)], [res]
    given as its tree. *)
Definition Unmarshal_PageRuleDetailResponse (res : JSON)
  : PageRuleDetailResponse.t * option error :=
  let '(r, st) :=
    decode_PageRuleDetailResponse res PageRuleDetailResponse.zero in
  (r, error_of st).

Definition Unmarshal_PageRulesResponse (res : JSON)
  : PageRulesResponse.t * option error :=
  let '(r, st) := decode_PageRulesResponse res PageRulesResponse.zero in
  (r, error_of st).

End Decode.

(** ** Vocabulary of the properties *)

(** *** Texts *)

(** A byte of a decimal integer: a digit or the minus sign. *)
Definition num_char (c : ascii) : bool :=
  Bytes.is_digit c || Ascii.eqb c "-".

Fixpoint num_text (s : string) : bool :=
  match s with
  | EmptyString => true
  | String c s' => num_char c && num_text s'
  end.

(** The number a text of digits writes, after the digits that gave [k]. *)
Fixpoint value_acc (s : string) (k : Z) : Z :=
  match s with
  | EmptyString => k
  | String c r => value_acc r (k * 10 + Bytes.digit_val c)
  end.

Fixpoint spaces_only (s : string) : bool :=
  match s with
  | EmptyString => true
  | String c r => Json.isSpace c && spaces_only r
  end.

Fixpoint digits_then_spaces (s : string) : bool :=
  match s with
  | EmptyString => true
  | String c r => if Bytes.is_digit c then digits_then_spaces r else spaces_only s
  end.

Fixpoint digits_prefix (s : string) : string :=
  match s with
  | EmptyString => EmptyString
  | String c r =>
      if Bytes.is_digit c then String c (digits_prefix r) else EmptyString
  end.

(** The digits of a JSON integer and the spaces after them: a zero, or
    digits of which the first is not zero. *)
Definition int_body (s : string) : bool :=
  match s with
  | EmptyString => false
  | String c r =>
      if Ascii.eqb c "0" then spaces_only r
      else Bytes.is_digit19 c && digits_then_spaces r
  end.

(** The integer a text writes after its leading spaces. *)
Definition int_value (s : string) : Z :=
  match Json.skipSpace s with
  | String c r =>
      if Ascii.eqb c "-" then - value_acc (digits_prefix r) 0
      else value_acc (digits_prefix (String c r)) 0
  | EmptyString => 0
  end.

(** Numeric text: a JSON integer literal within the range of [int],
    with JSON spaces before and after it at most. *)
Definition int_text (s : string) : bool :=
  match Json.skipSpace s with
  | String c r => if Ascii.eqb c "-" then int_body r else int_body (String c r)
  | EmptyString => false
  end
  && (minInt <=? int_value s) && (int_value s <=? maxInt).

(** The literal [null], with JSON spaces before and after it at most. *)
Definition null_text (s : string) : bool :=
  match Json.skipSpace s with
  | String c1 (String c2 (String c3 (String c4 r))) =>
      Ascii.eqb c1 "n" && Ascii.eqb c2 "u" && Ascii.eqb c3 "l"
      && Ascii.eqb c4 "l" && spaces_only r
  | _ => false
  end.

(** Whether the contents [strconv.Unquote] finds between the quotes of
    [raw] are numeric text or [null]. *)
Definition contents_accepted (raw : string) : bool :=
  match Strconv.Unquote raw with
  | (data, None) => int_text data || null_text data
  | (_, Some _) => false
  end.

(** *** Operations *)

(** The row of an operation in the table of the specification: method,
    path and body. *)
Definition template (op : operation) : string * string * option PageRule.t :=
  match op with
  | Create zoneID rule =>
      ("POST", "/zones/" ++ zoneID ++ "/pagerules", Some rule)
  | List zoneID =>
      ("GET", "/zones/" ++ zoneID ++ "/pagerules", None)
  | Get zoneID ruleID =>
      ("GET", "/zones/" ++ zoneID ++ "/pagerules/" ++ ruleID, None)
  | Change zoneID ruleID rule =>
      ("PATCH", "/zones/" ++ zoneID ++ "/pagerules/" ++ ruleID, Some rule)
  | Update zoneID ruleID rule =>
      ("PUT", "/zones/" ++ zoneID ++ "/pagerules/" ++ ruleID, Some rule)
  | Delete zoneID ruleID =>
      ("DELETE", "/zones/" ++ zoneID ++ "/pagerules/" ++ ruleID, None)
  end.

Definition template_event (op : operation) : event :=
  let '(method, uri, params) := template op in requested method uri params.

(** The empty result of an operation. *)
Definition empty_value (op : operation) : value :=
  match op with
  | List _ => rules (slice_of [])
  | Delete _ _ => noValue
  | _ => oneRule PageRule.zero
  end.

(** What an operation is run against: the package's two message
    constants, the transport with the world it lives in, and
    [json.Unmarshal] at the two envelope types. *)
Record Env : Type := mkEnv {
  errMakeRequestError : string;
  errUnmarshalError : string;
  World : Type;
  makeRequest :
    string -> string -> option PageRule.t -> World -> (string + error) * World;
  unmarshalDetail : string -> PageRuleDetailResponse.t * option error;
  unmarshalList : string -> PageRulesResponse.t * option error
}.

(** What the transport answers to the request of [op] in [w]. *)
Definition answer (env : Env) (op : operation) (w : World env)
  : (string + error) * World env :=
  let '(method, uri, params) := template op in
  makeRequest env method uri params w.

(** The error of decoding [res] as the envelope [op] expects. *)
Definition decode_error (env : Env) (op : operation) (res : string)
  : option error :=
  match op with
  | List _ => snd (unmarshalList env res)
  | _ => snd (unmarshalDetail env res)
  end.

(** The result field of the envelope decoded from [res]. *)
Definition decoded_value (env : Env) (op : operation) (res : string) : value :=
  match op with
  | List _ => rules (PageRulesResponse.Result (fst (unmarshalList env res)))
  | Delete _ _ => noValue
  | _ => oneRule (PageRuleDetailResponse.Result (fst (unmarshalDetail env res)))
  end.

(** An operation run: its value and error, the world after it and the
    calls it made. *)
Definition exec (env : Env) (op : operation) (w : World env)
  : value * option error * World env * list event :=
  run (World env) (makeRequest env) (unmarshalDetail env) (unmarshalList env)
    (perform (errMakeRequestError env) (errUnmarshalError env) op) w.

(** *** Round trip *)

(** Each key is below all the keys after it, byte by byte. *)
Fixpoint keys_increasing (ks : list string) : bool :=
  match ks with
  | [] => true
  | k :: rest =>
      forallb (fun k' => match String.compare k k' with
                         | Lt => true
                         | _ => false
                         end) rest
      && keys_increasing rest
  end.

(** The values of an [interface{}] that JSON has a form of its own for:
    [nil], a [bool], a [string] of valid UTF-8, and the slices and maps
    of such values.  An [int] is not one of them: JSON has one kind of
    number, which the decoder stores as a [float64].  (A [float64] is
    left out as well, floating point not being modelled.) *)
Fixpoint json_native (v : any) : bool :=
  match v with
  | anyNil => true
  | anyBool _ => true
  | anyInt _ => false
  | anyFloat64 _ => false
  | anyString s => Utf8.ValidString s
  | anySlice elems => forallb json_native elems
  | anyMap entries =>
      keys_increasing (List.map fst entries)
      && forallb (fun kv => Utf8.ValidString (fst kv) && json_native (snd kv))
           entries
  end.

Definition valid_target (t : PageRuleTarget.t) : bool :=
  Utf8.ValidString (PageRuleTarget.Target t)
  && Utf8.ValidString (PageRuleTarget.Operator (PageRuleTarget.Constraint t))
  && Utf8.ValidString (PageRuleTarget.Value (PageRuleTarget.Constraint t)).

Definition valid_action (a : PageRuleAction.t) : bool :=
  Utf8.ValidString (PageRuleAction.ID a) && json_native (PageRuleAction.Value a).

(** A rule as a server writes it: the fields of the request body, the
    priority as a number or as a string of its digits, and the
    identifier and the timestamps the server assigned. *)
Definition server_rule (id : string) (quotedPriority : bool)
  (modified created : JSON) (r : PageRule.t) : JSON :=
  JObject
    [("id", JString id);
     ("targets", encode_slice encode_PageRuleTarget (PageRule.Targets r));
     ("actions", encode_slice encode_PageRuleAction (PageRule.Actions r));
     ("priority",
      if quotedPriority then JString (FormatInt (PageRule.Priority r))
      else JNumber (FormatInt (PageRule.Priority r)));
     ("status", encode_string (PageRule.Status r));
     ("modified_on", modified);
     ("created_on", created)].

(** The detail envelope around a result. *)
Definition detail_envelope (success : bool) (errors : list string)
  (result : JSON) : JSON :=
  JObject
    [("success", JBool success);
     ("errors", JArray (List.map JString errors));
     ("messages", JArray []);
     ("result", result)].

(** *** Collaborators of the closed examples *)

(** The two JSON methods of [time.Time] at the zero time, which is the
    one time the closed examples below deal with: the zero time is
    written as year one, and that text and [null] are read. *)
Definition zeroTimeText : string := "0001-01-01T00:00:00Z".

Definition isZeroTime (t : Time) : bool :=
  (wall t =? 0) && (ext t =? 0)
  && match loc t with None => true | Some _ => false end.

Definition zeroTime_MarshalJSON : Marshaler Time :=
  fun t =>
    if isZeroTime t then inl (JString zeroTimeText)
    else inr (Opaque "a time other than the zero time").

Definition zeroTime_UnmarshalJSON : Unmarshaler Time :=
  fun data t =>
    if String.eqb data "null" then (t, None)
    else if String.eqb data (quoted zeroTimeText) then (zeroTime, None)
    else (t, Some (Opaque "a time other than the zero time")).


(** The same with an action whose value is a [string]. *)
Definition bypassRule : PageRule.t :=
  PageRule.mk ""
    (slice_of
       [PageRuleTarget.mk "url"
          (PageRuleTarget.mkConstraint "matches" "*example.com/images/*")])
    (slice_of [PageRuleAction.mk "cache_level" (anyString "bypass")])
    1 "active" zeroTime zeroTime.

(** A transport that fails, one that answers, and decoders that fail or
    hand out an envelope whose [success] is false. *)
Definition failedEnvelope : PageRuleDetailResponse.t :=
  PageRuleDetailResponse.mk false (slice_of ["rule limit reached"]) nil_slice
    bypassRule.

Definition downEnv : Env :=
  mkEnv "request failed" "response decode failed" unit
    (fun _ _ _ w => (inr (Opaque "connection refused"), w))
    (fun _ => (PageRuleDetailResponse.zero, None))
    (fun _ => (PageRulesResponse.zero, None)).

Definition garbledEnv : Env :=
  mkEnv "request failed" "response decode failed" unit
    (fun _ _ _ w => (inl "<html>", w))
    (fun res => (PageRuleDetailResponse.zero,
                 snd (MaybeInt_UnmarshalJSON res 0)))
    (fun res => (PageRulesResponse.zero,
                 snd (MaybeInt_UnmarshalJSON res 0))).

Definition refusingEnv : Env :=
  mkEnv "request failed" "response decode failed" unit
    (fun _ _ _ w => (inl "{}", w))
    (fun _ => (failedEnvelope, None))
    (fun _ => (PageRulesResponse.mk false (slice_of ["rule limit reached"])
                 nil_slice nil_slice, None)).

(** *** More vocabulary *)

(** A byte of printable ASCII that a string literal holds as it is:
    neither the double quote nor the backslash. *)
Definition plain_char (c : ascii) : bool :=
  (32 <=? Bytes.code c) && (Bytes.code c <? 128)
  && negb (Ascii.eqb c Bytes.dquote) && negb (Ascii.eqb c Bytes.bslash).

Fixpoint plain_text (s : string) : bool :=
  match s with
  | EmptyString => true
  | String c s' => plain_char c && plain_text s'
  end.

(** The keys of the fields of [PageRule] and of the two envelopes, in
    the order of the fields. *)
Definition PageRule_keys : list string :=
  ["id"; "targets"; "actions"; "priority"; "status";
   "modified_on"; "created_on"].

Definition envelope_keys : list string :=
  ["success"; "errors"; "messages"; "result"].

(** Whether [key] names the field at position [i]. *)
Definition names_field (names : list string) (i : nat) (key : string) : bool :=
  match field_of_key names key with
  | Some j => (j =? i)%nat
  | None => false
  end.

(** No member names the field at position [i]. *)
Definition absent (names : list string) (i : nat)
  (members : list (string * JSON)) : bool :=
  forallb (fun m => negb (names_field names i (fst m))) members.

(** No member names the priority or a timestamp of a rule: the fields
    whose type has an [UnmarshalJSON] method. *)
Definition no_method_field (members : list (string * JSON)) : bool :=
  absent PageRule_keys 3 members && absent PageRule_keys 5 members
  && absent PageRule_keys 6 members.



(** A rule of a list as a server writes it: the identifier assigned, how
    the priority is written, the two timestamps, and the rule. *)
Record listed : Type := mkListed {
  listedID : string;
  listedQuoted : bool;
  listedModified : JSON;
  listedCreated : JSON;
  listedRule : PageRule.t
}.

Definition listed_json (e : listed) : JSON :=
  server_rule (listedID e) (listedQuoted e) (listedModified e)
    (listedCreated e) (listedRule e).

(** The list envelope around the rules of a zone. *)
Definition list_envelope (success : bool) (errors : list string)
  (result : JSON) : JSON :=
  JObject
    [("success", JBool success);
     ("errors", JArray (List.map JString errors));
     ("messages", JArray []);
     ("result", result)].

Section Listed.
Context {Time_Unmarshaler : Unmarshaler Time}.

(** A rule a server may write so that it is read back: the priority
    within [int], strings of valid UTF-8, action values JSON has a
    form for, timestamps that [time.Time] reads. *)
Definition readable (e : listed) : bool :=
  let r := listedRule e in
  (minInt <=? PageRule.Priority r) && (PageRule.Priority r <=? maxInt)
  && forallb valid_target (elements (PageRule.Targets r))
  && forallb valid_action (elements (PageRule.Actions r))
  && Utf8.ValidString (PageRule.Status r)
  && match snd (UnmarshalJSON (render (listedModified e)) zeroTime) with
     | None => true
     | Some _ => false
     end
  && match snd (UnmarshalJSON (render (listedCreated e)) zeroTime) with
     | None => true
     | Some _ => false
     end.

(** The rule such an entry is read as. *)
Definition read_back (e : listed) : PageRule.t :=
  let r := listedRule e in
  PageRule.mk (listedID e) (PageRule.Targets r) (PageRule.Actions r)
    (PageRule.Priority r) (PageRule.Status r)
    (fst (UnmarshalJSON (render (listedModified e)) zeroTime))
    (fst (UnmarshalJSON (render (listedCreated e)) zeroTime)).
End Listed.

(** The request a tree starts with. *)
Definition first_request {A : Type} (p : prog A)
  : option (string * string * option PageRule.t) :=
  match p with
  | Request method uri params _ => Some (method, uri, params)
  | _ => None
  end.

(** A decoder that never gives up: it ends with [Continue] on every
    value. *)
Definition goes_on {A : Type} (dec : JSON -> A -> A * status) : Prop :=
  forall j a, exists saved, snd (dec j a) = Continue saved.

(** No byte of [s] is a slash. *)
Fixpoint slash_free (s : string) : bool :=
  match s with
  | EmptyString => true
  | String c s' => negb (Ascii.eqb c "/") && slash_free s'
  end.

(** The path a tree asks for first. *)
Definition request_uri {A : Type} (p : prog A) : string :=
  match first_request p with
  | Some (_, uri, _) => uri
  | None => EmptyString
  end.

(** The zone an operation is called with, and the rule if it is called
    with one. *)
Definition zone_of (op : operation) : string :=
  match op with
  | Create zoneID _ | List zoneID | Get zoneID _ | Change zoneID _ _
  | Update zoneID _ _ | Delete zoneID _ => zoneID
  end.

Definition rule_of (op : operation) : option string :=
  match op with
  | Create _ _ | List _ => None
  | Get _ ruleID | Change _ ruleID _ | Update _ ruleID _ | Delete _ ruleID =>
      Some ruleID
  end.

(** The operations that return a rule. *)
Definition returns_a_rule (op : operation) : bool :=
  match op with
  | Create _ _ | Get _ _ | Change _ _ _ | Update _ _ _ => true
  | List _ | Delete _ _ => false
  end.

(** * Properties *)

(** ** The flexible integer decoder *)

Module DecoderFacts.
Import Bytes.

Ltac ascii_cases c := destruct c as [[] [] [] [] [] [] [] []].

Lemma num_char_plain c :
  num_char c = true ->
  Ascii.eqb c dquote = false /\ Ascii.eqb c bslash = false
  /\ Ascii.eqb c lf = false /\ (code c <? 32) = false
  /\ Utf8.first (code c) = Utf8.fAscii.
Proof.
  ascii_cases c; vm_compute; intros H; try discriminate H; repeat split.
Qed.

Lemma is_digit_num_char c : is_digit c = true -> num_char c = true.
Proof. unfold num_char. intros ->. reflexivity. Qed.

Lemma all_digits_num_text s : all_digits s = true -> num_text s = true.
Proof.
  induction s as [|c s IH]; simpl; [reflexivity|].
  intros H. apply andb_true_iff in H as [Hc Hs].
  rewrite (is_digit_num_char _ Hc), (IH Hs). reflexivity.
Qed.

(** the scanner inside a string literal *)
Lemma checkValid_from_InString s b :
  num_text s = true ->
  Json.checkValid_from (Json.mkScanner Json.stateInString false [] None b)
    (s ++ String dquote EmptyString) = None.
Proof.
  revert b. induction s as [|c s IH]; intros b H.
  - reflexivity.
  - simpl in H. apply andb_true_iff in H as [Hc Hs].
    destruct (num_char_plain c Hc) as (Hq & Hb & _ & Hlt & _).
    cbn [append Json.checkValid_from Json.step Json.endTop Json.parseState Json.err Json.bytes].
    unfold Json.run_step. cbn [Json.step].
    rewrite Hq, Hb. cbn [Json.bytes]. rewrite Hlt.
    apply IH, Hs.
Qed.

Lemma num_char_not_RuneError c : (code c =? Utf8.RuneError) = false.
Proof. ascii_cases c; reflexivity. Qed.

Lemma checkValid_quoted s :
  num_text s = true -> Json.checkValid (quoted s) = None.
Proof.
  intros H.
  change (Json.checkValid (quoted s))
    with (Json.checkValid_from
            (Json.mkScanner Json.stateInString false [] None 1)
            (s ++ String dquote EmptyString)).
  apply checkValid_from_InString, H.
Qed.

Lemma Unmarshal_string_err_quoted s :
  num_text s = true -> Json.Unmarshal_string_err (quoted s) = None.
Proof.
  intros H. unfold Json.Unmarshal_string_err.
  rewrite (checkValid_quoted s H). reflexivity.
Qed.

Section UnquotePlain.
Variable s : string.
Hypothesis Hs : num_text s = true.

Lemma index_plain t :
  num_text t = true ->
  Strconv.index (t ++ String dquote EmptyString) dquote = Some (String.length t).
Proof.
  induction t as [|c t IH]; intros H.
  - reflexivity.
  - simpl in H. apply andb_true_iff in H as [Hc Ht].
    destruct (num_char_plain c Hc) as (Hq & _).
    cbn [append Strconv.index String.length]. rewrite Hq, (IH Ht). reflexivity.
Qed.

Lemma take_app t u : Strconv.take (String.length t) (t ++ u) = t.
Proof.
  induction t as [|c t IH]; cbn [append String.length Strconv.take].
  - destruct u; reflexivity.
  - rewrite IH. reflexivity.
Qed.

Lemma drop_app t c :
  Utf8.drop (S (String.length t)) (t ++ String c EmptyString) = EmptyString.
Proof.
  induction t as [|d t IH]; [reflexivity|].
  cbn [append String.length]. exact IH.
Qed.

Lemma contains_plain t :
  num_text t = true ->
  contains t bslash = false /\ contains t lf = false.
Proof.
  induction t as [|c t IH]; intros H; [split; reflexivity|].
  simpl in H. apply andb_true_iff in H as [Hc Ht].
  destruct (num_char_plain c Hc) as (_ & Hb & Hl & _).
  destruct (IH Ht) as [IH1 IH2].
  cbn [contains]. rewrite Hb, Hl, IH1, IH2. split; reflexivity.
Qed.

Lemma ValidString_fuel_plain t fuel :
  num_text t = true -> (String.length t <= fuel)%nat ->
  Utf8.ValidString_fuel fuel t = true.
Proof.
  revert fuel. induction t as [|c t IH]; intros fuel H Hf.
  - destruct fuel; reflexivity.
  - simpl in H. apply andb_true_iff in H as [Hc Ht].
    destruct (num_char_plain c Hc) as (_ & _ & _ & _ & Hfirst).
    destruct fuel as [|fuel]; [simpl in Hf; lia|].
    cbn [Utf8.ValidString_fuel Utf8.DecodeRuneInString]. rewrite Hfirst.
    rewrite num_char_not_RuneError. cbn [andb Utf8.drop].
    apply IH; [exact Ht | simpl in Hf; lia].
Qed.

Lemma Unquote_quoted : Strconv.Unquote (quoted s) = (s, None).
Proof.
  unfold Strconv.Unquote, Strconv.unquote, quoted.
  destruct (contains_plain s Hs) as [Hb Hl].
  assert (Hv : Utf8.ValidString s = true)
    by (apply ValidString_fuel_plain; [exact Hs | lia]).
  destruct (s ++ String dquote EmptyString) as [|c r] eqn:E.
  - destruct s; discriminate E.
  - rewrite <- E. rewrite (index_plain s Hs), take_app, drop_app.
    change (Ascii.eqb dquote bquote) with false.
    change (Ascii.eqb dquote dquote) with true.
    cbn [orb]. rewrite Hb, Hl, Hv. reflexivity.
Qed.
End UnquotePlain.

Lemma checkValid_from_error s e data :
  Json.step s = Json.stateError -> Json.err s = Some e ->
  Json.checkValid_from s data = Some e.
Proof.
  intros Hstep Herr. destruct data as [|c rest].
  - cbn [Json.checkValid_from]. unfold Json.eof. rewrite Herr. reflexivity.
  - cbn [Json.checkValid_from]. unfold Json.run_step. cbn [Json.step].
    rewrite Hstep. cbn [Json.err]. exact Herr.
Qed.

Lemma digit_after_zero d :
  is_digit d = true ->
  Ascii.eqb d "." = false /\ Ascii.eqb d "e" = false /\ Ascii.eqb d "E" = false
  /\ Json.isSpace d = false.
Proof. ascii_cases d; vm_compute; intros H; try discriminate H; repeat split. Qed.

Lemma checkValid_leading_zero d ds :
  is_digit d = true ->
  Json.checkValid (String "0" (String d ds))
  = Some (Json.InvalidCharacter d "after top-level value" 2).
Proof.
  intros Hd. destruct (digit_after_zero d Hd) as (H1 & H2 & H3 & H4).
  change (Json.checkValid (String "0" (String d ds)))
    with (Json.checkValid_from (Json.mkScanner Json.state0 false [] None 1)
            (String d ds)).
  cbn [Json.checkValid_from Json.step Json.endTop Json.parseState Json.err Json.bytes].
  unfold Json.run_step. cbn [Json.step]. unfold Json.do_state0.
  rewrite H1, H2, H3. cbn [orb]. unfold Json.do_stateEndValue.
  cbn [Json.parseState]. unfold Json.do_stateEndTop. rewrite H4.
  cbn [negb Json.error fst Json.err Json.bytes Json.endTop Json.parseState].
  apply checkValid_from_error; reflexivity.
Qed.

(** C9.  Digits between quotes that start with a zero followed by more
    digits are an error for [MaybeInt.UnmarshalJSON]: the text between the
    quotes is read again as JSON, and a JSON number has no leading zero.
    The target is zero afterwards. *)
Theorem UnmarshalJSON_leading_zero (d : ascii) (ds : string) (f : MaybeInt) :
  is_digit d = true -> all_digits ds = true ->
  MaybeInt_UnmarshalJSON (quoted (String "0" (String d ds))) f
  = (0, Some (JsonError (Json.Syntax
                 (Json.InvalidCharacter d "after top-level value" 2)))).
Proof.
  intros Hd Hds.
  assert (Hn : num_text (String "0" (String d ds)) = true).
  { apply all_digits_num_text. cbn [all_digits]. rewrite Hd, Hds. reflexivity. }
  unfold MaybeInt_UnmarshalJSON. cbv beta zeta.
  rewrite (Unmarshal_string_err_quoted _ Hn), (Unquote_quoted _ Hn).
  unfold Json.Unmarshal_int. rewrite (checkValid_leading_zero d ds Hd).
  reflexivity.
Qed.

Lemma digit_val_range c : is_digit c = true -> 0 <= digit_val c <= 9.
Proof. ascii_cases c; vm_compute; intros H; try discriminate H; split; discriminate. Qed.

Lemma value_acc_ge s : forall k,
  all_digits s = true -> 0 <= k -> k <= value_acc s k.
Proof.
  induction s as [|c s IH]; intros k H Hk; cbn [value_acc]; [lia|].
  simpl in H. apply andb_true_iff in H as [Hc Hs].
  pose proof (digit_val_range c Hc).
  specialize (IH (k * 10 + digit_val c) Hs). lia.
Qed.

Lemma ParseUint_loop_digits s : forall n,
  all_digits s = true -> 0 <= n -> value_acc s n <= Strconv.maxUint64 ->
  Strconv.ParseUint_loop s n = (value_acc s n, None).
Proof.
  induction s as [|c s IH]; intros n H Hn Hmax; [reflexivity|].
  simpl in H. apply andb_true_iff in H as [Hc Hs].
  pose proof (digit_val_range c Hc) as Hd.
  cbn [value_acc] in *.
  pose proof (value_acc_ge s (n * 10 + digit_val c) Hs ltac:(lia)) as Hge.
  cbn [Strconv.ParseUint_loop]. rewrite Hc.
  change (Strconv.maxUint64 / 10 + 1) with 1844674407370955162.
  unfold Strconv.maxUint64 in *.
  destruct (n >=? 1844674407370955162) eqn:E1; [lia|].
  rewrite (Z.mod_small (n * 10 + digit_val c)) by lia.
  destruct (n * 10 + digit_val c <? n * 10) eqn:E2; [lia|].
  destruct (n * 10 + digit_val c >? 18446744073709551615) eqn:E3; [lia|].
  cbn [orb]. apply IH; [exact Hs | lia | lia].
Qed.

Lemma value_acc_app s c k :
  value_acc (s ++ String c EmptyString) k = value_acc s k * 10 + digit_val c.
Proof.
  revert k. induction s as [|d s IH]; intros k; cbn [append value_acc]; [reflexivity|].
  apply IH.
Qed.

Lemma all_digits_app s c :
  all_digits s = true -> is_digit c = true ->
  all_digits (s ++ String c EmptyString) = true.
Proof.
  induction s as [|d s IH]; cbn [append all_digits]; intros H Hc.
  - rewrite Hc. reflexivity.
  - apply andb_true_iff in H as [Hd Hs]. rewrite Hd, (IH Hs Hc). reflexivity.
Qed.

Lemma digit_char d :
  0 <= d <= 9 ->
  is_digit (byte_of (code "0" + d)) = true
  /\ digit_val (byte_of (code "0" + d)) = d
  /\ (1 <= d -> is_digit19 (byte_of (code "0" + d)) = true).
Proof.
  intros H.
  assert (E : d = 0 \/ d = 1 \/ d = 2 \/ d = 3 \/ d = 4 \/ d = 5 \/ d = 6
              \/ d = 7 \/ d = 8 \/ d = 9) by lia.
  repeat (destruct E as [E|E]; [subst d; repeat split; intros; try reflexivity; lia|]).
  subst d; repeat split.
Qed.

(** Shape and value of the digits [FormatUint_fuel] writes. *)
Lemma FormatUint_fuel_spec fuel : forall u,
  0 <= u < 2 ^ Z.of_nat fuel ->
  all_digits (FormatUint_fuel fuel u) = true
  /\ value_acc (FormatUint_fuel fuel u) 0 = u
  /\ (1 <= u -> exists c t, FormatUint_fuel fuel u = String c t
                           /\ is_digit19 c = true).
Proof.
  induction fuel as [|fuel IH]; intros u Hu.
  - cbn in Hu. assert (u = 0) by lia. subst u. repeat split; intros; lia.
  - cbn [FormatUint_fuel].
    destruct (u <? 10) eqn:E.
    + apply Z.ltb_lt in E. destruct (digit_char u ltac:(lia)) as (H1 & H2 & H3).
      cbn [all_digits value_acc]. rewrite H1. repeat split.
      * lia.
      * intros Hp. eexists _, _. split; [reflexivity|]. apply H3, Hp.
    + apply Z.ltb_ge in E.
      assert (Hq : 0 <= u / 10 < 2 ^ Z.of_nat fuel).
      { rewrite Nat2Z.inj_succ, Z.pow_succ_r in Hu by lia.
        split; [apply Z.div_pos; lia|].
        apply Z.div_lt_upper_bound; lia. }
      destruct (IH (u / 10) Hq) as (H1 & H2 & H3).
      pose proof (Z.mod_pos_bound u 10 ltac:(lia)) as Hm.
      destruct (digit_char (u mod 10) ltac:(lia)) as (D1 & D2 & _).
      repeat split.
      * apply all_digits_app; assumption.
      * rewrite value_acc_app, H2, D2.
        pose proof (Z.div_mod u 10 ltac:(lia)). lia.
      * intros _. destruct H3 as (c & t & Ht & Hc).
        { assert (10 <= u) by lia.
          apply (Z.div_le_lower_bound u 10 1); lia. }
        rewrite Ht. cbn [append]. eexists _, _. split; [reflexivity | exact Hc].
Qed.

Lemma FormatUint_spec u :
  0 <= u ->
  all_digits (FormatUint u) = true
  /\ value_acc (FormatUint u) 0 = u
  /\ (1 <= u -> exists c t, FormatUint u = String c t /\ is_digit19 c = true).
Proof.
  intros Hu. apply FormatUint_fuel_spec. split; [exact Hu|].
  rewrite Nat2Z.inj_succ, Z2Nat.id by apply Z.log2_nonneg.
  destruct (Z.eq_dec u 0) as [->|Hne]; [reflexivity|].
  apply Z.log2_spec. lia.
Qed.

Lemma digit_next c :
  is_digit c = true -> is_digit19 c = true \/ c = "0"%char.
Proof. ascii_cases c; vm_compute; intros H; try discriminate H; auto. Qed.

Lemma digit19_first c :
  is_digit19 c = true ->
  is_digit c = true /\ Json.isSpace c = false
  /\ Ascii.eqb c "{" = false /\ Ascii.eqb c "[" = false
  /\ Ascii.eqb c dquote = false /\ Ascii.eqb c "-" = false
  /\ Ascii.eqb c "+" = false
  /\ Ascii.eqb c "0" = false /\ Ascii.eqb c "t" = false
  /\ Ascii.eqb c "f" = false /\ Ascii.eqb c "n" = false.
Proof. ascii_cases c; vm_compute; intros H; try discriminate H; repeat split. Qed.

Lemma checkValid_from_state1 s : forall b,
  all_digits s = true ->
  Json.checkValid_from (Json.mkScanner Json.state1 false [] None b) s = None.
Proof.
  induction s as [|c s IH]; intros b H; [reflexivity|].
  simpl in H. apply andb_true_iff in H as [Hc Hs].
  cbn [Json.checkValid_from Json.step Json.endTop Json.parseState Json.err Json.bytes].
  unfold Json.run_step. cbn [Json.step]. rewrite Hc.
  apply IH, Hs.
Qed.

Lemma rescanNumber_digits s :
  all_digits s = true -> Json.rescanNumber s = s.
Proof.
  induction s as [|c s IH]; intros H; [reflexivity|].
  simpl in H. apply andb_true_iff in H as [Hc Hs].
  cbn [Json.rescanNumber]. rewrite Hc, (IH Hs). reflexivity.
Qed.

(** A non-negative canonical literal: its first digit is not zero. *)
Section Positive.
Variables (c : ascii) (t : string).
Hypothesis Hc : is_digit19 c = true.
Hypothesis Ht : all_digits t = true.

Lemma checkValid_pos : Json.checkValid (String c t) = None.
Proof.
  destruct (digit19_first c Hc) as (_&H1&H2&H3&H4&H5&_&H6&H7&H8&H9).
  unfold Json.checkValid, Json.reset.
  cbn [Json.checkValid_from Json.step Json.endTop Json.parseState Json.err Json.bytes].
  unfold Json.run_step. cbn [Json.step]. unfold Json.do_stateBeginValue.
  rewrite H1, H2, H3, H4, H5, H6, H7, H8, H9, Hc.
  apply checkValid_from_state1, Ht.
Qed.

Lemma Unmarshal_string_err_pos :
  Json.Unmarshal_string_err (String c t)
  = Some (Json.UnmarshalTypeError "number" "string").
Proof.
  destruct (digit19_first c Hc) as (_&H1&H2&H3&H4&H5&_&H6&H7&H8&H9).
  unfold Json.Unmarshal_string_err. rewrite checkValid_pos.
  cbn [Json.skipSpace]. rewrite H1, H2, H3, H4, H7, H8, H9. reflexivity.
Qed.

Lemma Unmarshal_int_pos v0 :
  Json.Unmarshal_int (String c t) v0
  = match Strconv.ParseInt (String c t) with
    | (n, None) => (n, None)
    | (_, Some _) =>
        (v0, Some (Json.UnmarshalTypeError ("number " ++ String c t) "int"))
    end.
Proof.
  destruct (digit19_first c Hc) as (_&H1&H2&H3&H4&H5&_&H6&H7&H8&H9).
  unfold Json.Unmarshal_int. rewrite checkValid_pos.
  cbn [Json.skipSpace]. rewrite H1, H2, H3, H4, H7, H8, H9.
  cbn [orb]. rewrite (rescanNumber_digits t Ht). reflexivity.
Qed.

Lemma ParseInt_pos :
  value_acc (String c t) 0 <= maxInt ->
  Strconv.ParseInt (String c t) = (value_acc (String c t) 0, None).
Proof.
  intros Hv.
  destruct (digit19_first c Hc) as (Hd&_&_&_&_&H5&H5'&_).
  assert (Hall : all_digits (String c t) = true)
    by (cbn [all_digits]; rewrite Hd, Ht; reflexivity).
  pose proof (value_acc_ge _ 0 Hall ltac:(lia)) as Hge.
  unfold Strconv.ParseInt. rewrite H5, H5'. unfold Strconv.ParseUint.
  rewrite (ParseUint_loop_digits _ 0 Hall) by (unfold Strconv.maxUint64, maxInt in *; lia).
  unfold maxInt in Hv.
  destruct (value_acc (String c t) 0 >=? 9223372036854775808) eqn:E; [lia|].
  reflexivity.
Qed.

(** The same digits after a minus sign. *)
Lemma checkValid_neg : Json.checkValid (String "-" (String c t)) = None.
Proof.
  destruct (digit19_first c Hc) as (_&H1&H2&H3&H4&H5&_&H6&H7&H8&H9).
  change (Json.checkValid (String "-" (String c t)))
    with (Json.checkValid_from (Json.mkScanner Json.stateNeg false [] None 1)
            (String c t)).
  cbn [Json.checkValid_from Json.step Json.endTop Json.parseState Json.err Json.bytes].
  unfold Json.run_step. cbn [Json.step]. rewrite H6, Hc.
  apply checkValid_from_state1, Ht.
Qed.

Lemma Unmarshal_string_err_neg :
  Json.Unmarshal_string_err (String "-" (String c t))
  = Some (Json.UnmarshalTypeError "number" "string").
Proof.
  unfold Json.Unmarshal_string_err. rewrite checkValid_neg. reflexivity.
Qed.

Lemma Unmarshal_int_neg v0 :
  Json.Unmarshal_int (String "-" (String c t)) v0
  = match Strconv.ParseInt (String "-" (String c t)) with
    | (n, None) => (n, None)
    | (_, Some _) =>
        (v0, Some (Json.UnmarshalTypeError
                     ("number " ++ String "-" (String c t)) "int"))
    end.
Proof.
  destruct (digit19_first c Hc) as (Hd&_).
  unfold Json.Unmarshal_int. rewrite checkValid_neg.
  cbn [Json.skipSpace].
  change (Json.isSpace "-") with false.
  change (Ascii.eqb "-" "[") with false. change (Ascii.eqb "-" "{") with false.
  change (Ascii.eqb "-" "n") with false. change (Ascii.eqb "-" "t") with false.
  change (Ascii.eqb "-" "f") with false. change (Ascii.eqb "-" dquote) with false.
  cbn [orb].
  cbn [Json.rescanNumber]. rewrite Hd. cbn [orb].
  rewrite (rescanNumber_digits t Ht). reflexivity.
Qed.

Lemma ParseInt_neg :
  value_acc (String c t) 0 <= - minInt ->
  Strconv.ParseInt (String "-" (String c t))
  = (- value_acc (String c t) 0, None).
Proof.
  intros Hv.
  destruct (digit19_first c Hc) as (Hd&_).
  assert (Hall : all_digits (String c t) = true)
    by (cbn [all_digits]; rewrite Hd, Ht; reflexivity).
  pose proof (value_acc_ge _ 0 Hall ltac:(lia)) as Hge.
  unfold Strconv.ParseInt.
  change (Ascii.eqb "-" "+") with false. change (Ascii.eqb "-" "-") with true.
  unfold Strconv.ParseUint.
  rewrite (ParseUint_loop_digits _ 0 Hall) by (unfold Strconv.maxUint64, minInt in *; lia).
  unfold minInt in Hv. cbn [negb andb].
  destruct (value_acc (String c t) 0 >? 9223372036854775808) eqn:E; [lia|].
  reflexivity.
Qed.
End Positive.

Lemma num_text_literal (neg : bool) s :
  all_digits s = true ->
  num_text (if neg then String "-" s else s) = true.
Proof.
  intros H. destruct neg; [cbn [num_text]|]; rewrite (all_digits_num_text s H); reflexivity.
Qed.

Lemma UnmarshalJSON_FormatInt (n : Z) (f : MaybeInt) :
  minInt <= n <= maxInt ->
  MaybeInt_UnmarshalJSON (FormatInt n) f = (n, None)
  /\ MaybeInt_UnmarshalJSON (quoted (FormatInt n)) f = (n, None).
Proof.
  intros Hn. unfold FormatInt.
  destruct (n <? 0) eqn:Eneg.
  - apply Z.ltb_lt in Eneg.
    destruct (FormatUint_spec (- n) ltac:(lia)) as (Hall & Hval & Hshape).
    destruct Hshape as (c & t & E & Hc); [lia|].
    rewrite E in *. cbn [all_digits] in Hall.
    apply andb_true_iff in Hall as [Hd Ht].
    assert (HP : Strconv.ParseInt (String "-" (String c t)) = (n, None)).
    { rewrite (ParseInt_neg c t Hc Ht) by (unfold minInt in *; lia).
      rewrite Hval. f_equal. lia. }
    assert (HN : num_text (String "-" (String c t)) = true).
    { apply (num_text_literal true). cbn [all_digits]. rewrite Hd, Ht. reflexivity. }
    unfold MaybeInt_UnmarshalJSON. cbv beta zeta. split.
    + rewrite (Unmarshal_string_err_neg c t Hc Ht), (Unmarshal_int_neg c t Hc Ht), HP.
      reflexivity.
    + rewrite (Unmarshal_string_err_quoted _ HN), (Unquote_quoted _ HN).
      rewrite (Unmarshal_int_neg c t Hc Ht), HP. reflexivity.
  - apply Z.ltb_ge in Eneg.
    destruct (Z.eq_dec n 0) as [->|Hne]; [split; reflexivity|].
    destruct (FormatUint_spec n ltac:(lia)) as (Hall & Hval & Hshape).
    destruct Hshape as (c & t & E & Hc); [lia|].
    rewrite E in *. cbn [all_digits] in Hall.
    apply andb_true_iff in Hall as [Hd Ht].
    assert (HP : Strconv.ParseInt (String c t) = (n, None)).
    { rewrite (ParseInt_pos c t Hc Ht) by lia. rewrite Hval. reflexivity. }
    assert (HN : num_text (String c t) = true).
    { apply (num_text_literal false). cbn [all_digits]. rewrite Hd, Ht. reflexivity. }
    unfold MaybeInt_UnmarshalJSON. cbv beta zeta. split.
    + rewrite (Unmarshal_string_err_pos c t Hc Ht), (Unmarshal_int_pos c t Hc Ht), HP.
      reflexivity.
    + rewrite (Unmarshal_string_err_quoted _ HN), (Unquote_quoted _ HN).
      rewrite (Unmarshal_int_pos c t Hc Ht), HP. reflexivity.
Qed.

Lemma FormatInt_num_text n : num_text (FormatInt n) = true.
Proof.
  unfold FormatInt. destruct (n <? 0) eqn:E.
  - apply Z.ltb_lt in E.
    destruct (FormatUint_spec (- n) ltac:(lia)) as (Hall & _).
    apply (num_text_literal true), Hall.
  - apply Z.ltb_ge in E.
    destruct (FormatUint_spec n E) as (Hall & _).
    apply (num_text_literal false), Hall.
Qed.

(** C1.  For every integer [n] of Go's [int], [MaybeInt.UnmarshalJSON]
    on the decimal digits of [n] and on the same digits between quotes
    succeeds both times, and both times the target holds [n] afterwards,
    whatever it held before. *)
Theorem UnmarshalJSON_bare_and_quoted (n : Z) (f : MaybeInt) :
  minInt <= n <= maxInt ->
  MaybeInt_UnmarshalJSON (FormatInt n) f = (n, None)
  /\ MaybeInt_UnmarshalJSON (quoted (FormatInt n)) f = (n, None).
Proof. exact (UnmarshalJSON_FormatInt n f). Qed.

Lemma UnmarshalJSON_bare_and_quoted_witness :
  MaybeInt_UnmarshalJSON (FormatInt (-42)) 7 = (-42, None)
  /\ MaybeInt_UnmarshalJSON (quoted (FormatInt (-42))) 7 = (-42, None).
Proof.
  apply UnmarshalJSON_bare_and_quoted. unfold minInt, maxInt. lia.
Defined.

(** After the top-level value only spaces may follow. *)
Lemma checkValid_from_end data : forall st et b,
  st = Json.stateEndValue \/ st = Json.stateEndTop ->
  Json.checkValid_from (Json.mkScanner st et [] None b) data = None ->
  spaces_only data = true.
Proof.
  induction data as [|c r IH]; intros st et b Hst H; [reflexivity|].
  cbn [Json.checkValid_from Json.step Json.endTop Json.parseState Json.err Json.bytes] in H.
  cbn [spaces_only].
  assert (E : Json.run_step (Json.mkScanner st et [] None (b + 1)) c
              = Json.do_stateEndTop
                  (Json.mkScanner Json.stateEndTop
                     (match st with Json.stateEndValue => true | _ => et end)
                     [] None (b + 1)) c).
  { destruct Hst as [-> | ->]; reflexivity. }
  rewrite E in H. clear E. unfold Json.do_stateEndTop in H.
  destruct (Json.isSpace c) eqn:Hc; cbn [negb] in H.
  - cbn [andb]. eapply IH; [right; reflexivity | exact H].
  - cbn [Json.error fst Json.endTop Json.parseState Json.bytes] in H.
    rewrite (checkValid_from_error _ (Json.InvalidCharacter c "after top-level value" (b + 1))) in H
      by reflexivity.
    discriminate H.
Qed.

Lemma number_char_cases c :
  is_digit c = true
  \/ (is_digit c = false
      /\ (Ascii.eqb c "." || Ascii.eqb c "e" || Ascii.eqb c "E"
          || Ascii.eqb c "+" || Ascii.eqb c "-") = true)
  \/ (is_digit c = false /\ Ascii.eqb c "." = false /\ Ascii.eqb c "e" = false
      /\ Ascii.eqb c "E" = false /\ Ascii.eqb c "+" = false
      /\ Ascii.eqb c "-" = false).
Proof. ascii_cases c; vm_compute; intuition congruence. Qed.

(** What may follow the digits of a literal that [ParseInt] accepts. *)
Lemma checkValid_from_int_tail (zero : bool) data : forall b,
  all_digits (Json.rescanNumber data) = true ->
  Json.checkValid_from
    (Json.mkScanner (if zero then Json.state0 else Json.state1) false [] None b)
    data = None ->
  (if zero then spaces_only data else digits_then_spaces data) = true.
Proof.
  induction data as [|c r IH]; intros b Hd H; [destruct zero; reflexivity|].
  cbn [Json.rescanNumber] in Hd.
  cbn [Json.checkValid_from Json.step Json.endTop Json.parseState Json.err Json.bytes] in H.
  destruct (number_char_cases c) as [Hc | [[Hc Hn] | (Hc & H1 & H2 & H3 & H4 & H5)]].
  - rewrite Hc in Hd. cbn [orb all_digits] in Hd. rewrite Hc in Hd. cbn [andb] in Hd.
    destruct zero.
    + exfalso. destruct (digit_after_zero c Hc) as (D1 & D2 & D3 & D4).
      unfold Json.run_step in H. cbn [Json.step] in H. unfold Json.do_state0 in H.
      rewrite D1, D2, D3 in H. cbn [orb] in H.
      unfold Json.do_stateEndValue in H. cbn [Json.parseState] in H.
      unfold Json.do_stateEndTop in H. rewrite D4 in H.
      cbn [negb Json.error fst Json.err Json.bytes Json.endTop Json.parseState] in H.
      rewrite (checkValid_from_error _ (Json.InvalidCharacter c "after top-level value" (b + 1))) in H
        by reflexivity.
      discriminate H.
    + cbn [digits_then_spaces]. rewrite Hc.
      unfold Json.run_step in H. cbn [Json.step] in H. rewrite Hc in H.
      exact (IH _ Hd H).
  - exfalso. rewrite Hc in Hd. cbn [orb] in Hd.
    rewrite Hn in Hd.
    cbn [all_digits] in Hd. rewrite Hc in Hd. discriminate Hd.
  - assert (E : Json.run_step
                  (Json.mkScanner (if zero then Json.state0 else Json.state1)
                     false [] None (b + 1)) c
                = Json.do_stateEndTop
                    (Json.mkScanner Json.stateEndTop true [] None (b + 1)) c).
    { destruct zero; unfold Json.run_step; cbn [Json.step]; rewrite ?Hc;
        unfold Json.do_state0; rewrite H1, H2, H3; reflexivity. }
    rewrite E in H. clear E. unfold Json.do_stateEndTop in H.
    assert (Hgoal : spaces_only (String c r) = true).
    { cbn [spaces_only]. destruct (Json.isSpace c) eqn:Hs; cbn [negb] in H.
      - cbn [andb]. eapply checkValid_from_end; [right; reflexivity | exact H].
      - cbn [Json.error fst Json.endTop Json.parseState Json.bytes] in H.
        rewrite (checkValid_from_error _ (Json.InvalidCharacter c "after top-level value" (b + 1))) in H
          by reflexivity.
        discriminate H. }
    destruct zero; [exact Hgoal|].
    cbn [digits_then_spaces]. rewrite Hc. exact Hgoal.
Qed.

Lemma ParseUint_loop_ok s : forall n v,
  0 <= n ->
  Strconv.ParseUint_loop s n = (v, None) ->
  all_digits s = true /\ v = value_acc s n.
Proof.
  induction s as [|c s IH]; intros n v Hn H.
  - cbn in H. inversion H. subst. split; reflexivity.
  - cbn [Strconv.ParseUint_loop] in H. cbn [all_digits value_acc].
    destruct (is_digit c) eqn:Hc; [|discriminate H].
    pose proof (digit_val_range c Hc) as Hd.
    destruct (n >=? Strconv.maxUint64 / 10 + 1) eqn:E1; [discriminate H|].
    change (Strconv.maxUint64 / 10 + 1) with 1844674407370955162 in E1.
    destruct (Z_lt_le_dec (n * 10 + digit_val c) 18446744073709551616) as [Hlt|Hge].
    + rewrite (Z.mod_small (n * 10 + digit_val c)) in H by lia.
      destruct ((n * 10 + digit_val c <? n * 10)
                || (n * 10 + digit_val c >? Strconv.maxUint64)); [discriminate H|].
      apply IH in H; [|lia]. exact H.
    + exfalso.
      assert (Hm : (n * 10 + digit_val c) mod 18446744073709551616
                   = n * 10 + digit_val c - 18446744073709551616).
      { symmetry. apply (Z.mod_unique _ _ 1); lia. }
      rewrite Hm in H.
      destruct (n * 10 + digit_val c - 18446744073709551616 <? n * 10) eqn:E2;
        [discriminate H | lia].
Qed.

Lemma ParseUint_loop_range s : forall n un,
  Strconv.ParseUint_loop s n = (un, Some Strconv.ErrRange) ->
  un = Strconv.maxUint64.
Proof.
  induction s as [|c s IH]; intros n un H; [discriminate H|].
  cbn [Strconv.ParseUint_loop] in H.
  destruct (is_digit c); [|discriminate H].
  destruct (n >=? Strconv.maxUint64 / 10 + 1); [inversion H; reflexivity|].
  destruct ((_ <? _) || (_ >? _)); [inversion H; reflexivity|].
  exact (IH _ _ H).
Qed.

(** What [ParseInt] accepts: an optional sign and digits, in range. *)
Lemma ParseInt_ok c r v :
  Ascii.eqb c "+" = false ->
  Strconv.ParseInt (String c r) = (v, None) ->
  minInt <= v <= maxInt
  /\ if Ascii.eqb c "-"
     then r <> EmptyString /\ all_digits r = true /\ v = - value_acc r 0
     else all_digits (String c r) = true /\ v = value_acc (String c r) 0.
Proof.
  intros Hplus H. unfold Strconv.ParseInt in H. rewrite Hplus in H.
  destruct (Ascii.eqb c "-") eqn:Hminus.
  - destruct r as [|d r']; [discriminate H|].
    unfold Strconv.ParseUint in H.
    destruct (Strconv.ParseUint_loop (String d r') 0) as [un [[|]|]] eqn:E;
      try discriminate H.
    + apply ParseUint_loop_range in E. subst un. discriminate H.
    + apply ParseUint_loop_ok in E as [Hall Hv]; [|lia].
      pose proof (value_acc_ge _ 0 Hall ltac:(lia)).
      cbn [negb andb] in H.
      destruct (un >? 9223372036854775808) eqn:E2; [discriminate H|].
      inversion H. subst. unfold minInt, maxInt.
      repeat split; try lia; try discriminate; try exact Hall.
  - unfold Strconv.ParseUint in H.
    destruct (Strconv.ParseUint_loop (String c r) 0) as [un [[|]|]] eqn:E;
      try discriminate H.
    + apply ParseUint_loop_range in E. subst un. discriminate H.
    + apply ParseUint_loop_ok in E as [Hall Hv]; [|lia].
      pose proof (value_acc_ge _ 0 Hall ltac:(lia)).
      cbn [negb andb] in H.
      destruct (un >=? 9223372036854775808) eqn:E2; [discriminate H|].
      inversion H. subst. unfold minInt, maxInt.
      repeat split; try lia; exact Hall.
Qed.

Lemma checkValid_from_skip data : forall b,
  Json.checkValid_from (Json.mkScanner Json.stateBeginValue false [] None b) data
  = None ->
  exists b',
    Json.checkValid_from (Json.mkScanner Json.stateBeginValue false [] None b')
      (Json.skipSpace data) = None.
Proof.
  induction data as [|c r IH]; intros b H; [exists b; exact H|].
  cbn [Json.skipSpace]. destruct (Json.isSpace c) eqn:Hc; [|exists b; exact H].
  cbn [Json.checkValid_from Json.step Json.endTop Json.parseState Json.err Json.bytes] in H.
  unfold Json.run_step in H. cbn [Json.step] in H.
  unfold Json.do_stateBeginValue in H. rewrite Hc in H.
  exact (IH _ H).
Qed.

Lemma skipSpace_head data c r :
  Json.skipSpace data = String c r -> Json.isSpace c = false.
Proof.
  induction data as [|d s IH]; cbn [Json.skipSpace]; [discriminate|].
  destruct (Json.isSpace d) eqn:Hd; [exact IH|].
  intros H. inversion H. subst. exact Hd.
Qed.

Lemma rescanNumber_digits_prefix s :
  all_digits (Json.rescanNumber s) = true ->
  Json.rescanNumber s = digits_prefix s.
Proof.
  induction s as [|c s IH]; [reflexivity|].
  cbn [Json.rescanNumber digits_prefix].
  destruct (number_char_cases c) as [Hc | [[Hc Hn] | (Hc & H1 & H2 & H3 & H4 & H5)]].
  - rewrite Hc. cbn [orb all_digits]. rewrite Hc. cbn [andb].
    intros H. rewrite (IH H). reflexivity.
  - rewrite Hc. cbn [orb]. rewrite Hn. cbn [all_digits]. rewrite Hc. discriminate.
  - rewrite Hc, H1, H2, H3, H4, H5. reflexivity.
Qed.

(** One byte of a literal name. *)
Lemma checkValid_from_expect st want next context b c r :
  (forall s, Json.run_step (Json.mkScanner st false [] None s) c
             = Json.expect (Json.mkScanner st false [] None s) c want next context) ->
  Json.checkValid_from (Json.mkScanner st false [] None b) (String c r) = None ->
  c = want
  /\ Json.checkValid_from (Json.mkScanner next false [] None (b + 1)) r = None.
Proof.
  intros Hstep H.
  cbn [Json.checkValid_from Json.step Json.endTop Json.parseState Json.err Json.bytes] in H.
  rewrite Hstep in H. unfold Json.expect in H.
  destruct (Ascii.eqb c want) eqn:E.
  - apply Ascii.eqb_eq in E. split; [exact E | exact H].
  - discriminate H.
Qed.

Lemma checkValid_from_null b rest :
  Json.checkValid_from (Json.mkScanner Json.stateN false [] None b) rest = None ->
  exists r, rest = String "u" (String "l" (String "l" r))
            /\ spaces_only r = true.
Proof.
  intros H.
  destruct rest as [|c1 rest]; [discriminate H|].
  apply (checkValid_from_expect Json.stateN "u" Json.stateNu
           "in literal null (expecting 'u')") in H as [-> H]; [|reflexivity].
  destruct rest as [|c2 rest]; [discriminate H|].
  apply (checkValid_from_expect Json.stateNu "l" Json.stateNul
           "in literal null (expecting 'l')") in H as [-> H]; [|reflexivity].
  destruct rest as [|c3 rest]; [discriminate H|].
  apply (checkValid_from_expect Json.stateNul "l" Json.stateEndValue
           "in literal null (expecting 'l')") in H as [-> H]; [|reflexivity].
  exists rest. split; [reflexivity|].
  eapply checkValid_from_end; [left; reflexivity | exact H].
Qed.

(** The inputs [json.Unmarshal] into an [int] accepts. *)
Lemma Unmarshal_int_ok data v0 v :
  Json.Unmarshal_int data v0 = (v, None) ->
  (null_text data = true /\ v = v0)
  \/ (int_text data = true /\ v = int_value data).
Proof.
  unfold Json.Unmarshal_int, null_text, int_text, int_value.
  destruct (Json.checkValid data) as [e|] eqn:Hcv; [discriminate|].
  apply checkValid_from_skip in Hcv as [b Hcv].
  destruct (Json.skipSpace data) as [|c rest] eqn:Hskip; [discriminate|].
  pose proof (skipSpace_head _ _ _ Hskip) as Hsp.
  destruct (Ascii.eqb c "[") eqn:E1; [discriminate|].
  destruct (Ascii.eqb c "{") eqn:E2; [discriminate|].
  destruct (Ascii.eqb c "n") eqn:E3.
  { intros H. inversion H. subst v. left. split; [|reflexivity].
    apply Ascii.eqb_eq in E3. subst c.
    cbn [Json.checkValid_from Json.step Json.endTop Json.parseState Json.err Json.bytes] in Hcv.
    change (Json.run_step (Json.mkScanner Json.stateBeginValue false [] None (b + 1)) "n")
      with (Json.mkScanner Json.stateN false [] None (b + 1), Json.scanBeginLiteral) in Hcv.
    cbn iota beta in Hcv.
    apply checkValid_from_null in Hcv as (r & -> & Hr).
    rewrite Hr. reflexivity. }
  destruct (Ascii.eqb c "t" || Ascii.eqb c "f") eqn:E4; [discriminate|].
  apply orb_false_iff in E4 as [E4 E5].
  destruct (Ascii.eqb c dquote) eqn:E6; [discriminate|].
  destruct (Strconv.ParseInt (String c (Json.rescanNumber rest))) as [n [e|]] eqn:HP;
    [discriminate|].
  intros H. inversion H. subst n. clear H. right.
  cbn [Json.checkValid_from Json.step Json.endTop Json.parseState Json.err Json.bytes] in Hcv.
  unfold Json.run_step in Hcv. cbn [Json.step] in Hcv.
  unfold Json.do_stateBeginValue in Hcv.
  rewrite Hsp, E1, E2, E3, E4, E5, E6 in Hcv.
  destruct (Ascii.eqb c "-") eqn:Em.
  - (* a minus sign *)
    apply Ascii.eqb_eq in Em. subst c.
    apply ParseInt_ok in HP; [|reflexivity].
    cbn [Ascii.eqb] in HP. change (Ascii.eqb "-" "-") with true in HP.
    destruct HP as (Hrange & Hne & Hall & Hv).
    rewrite (rescanNumber_digits_prefix _ Hall) in Hv.
    cbn iota beta in Hcv. unfold Json.set_step in Hcv.
    cbn [Json.step Json.endTop Json.parseState Json.err Json.bytes] in Hcv.
    destruct rest as [|d r]; [exfalso; apply Hne; reflexivity|].
    assert (Hd : is_digit d = true).
    { cbn [Json.rescanNumber] in Hall, Hne.
      destruct (number_char_cases d) as [Hd | [[Hd Hn] | (Hd & H1 & H2 & H3 & H4 & H5)]].
      - exact Hd.
      - rewrite Hd in Hall. cbn [orb] in Hall. rewrite Hn in Hall.
        cbn [all_digits] in Hall. rewrite Hd in Hall. discriminate Hall.
      - exfalso. apply Hne. rewrite Hd, H1, H2, H3, H4, H5. reflexivity. }
    cbn [Json.rescanNumber] in Hall.
    rewrite Hd in Hall. cbn [orb all_digits] in Hall. rewrite Hd in Hall.
    cbn [andb] in Hall.
    cbn [Json.checkValid_from Json.step Json.endTop Json.parseState Json.err Json.bytes] in Hcv.
    unfold Json.run_step in Hcv. cbn [Json.step] in Hcv.
    assert (Hbody : int_body (String d r) = true).
    { unfold int_body. destruct (Ascii.eqb d "0") eqn:E0.
      - exact (checkValid_from_int_tail true r _ Hall Hcv).
      - destruct (digit_next d Hd) as [H19 | ->]; [|discriminate E0].
        rewrite H19 in Hcv |- *.
        exact (checkValid_from_int_tail false r _ Hall Hcv). }
    rewrite Hbody. rewrite <- Hv. split; [|reflexivity].
    cbn [andb]. apply andb_true_iff. split; apply Z.leb_le; lia.
  - (* digits *)
    apply ParseInt_ok in HP.
    2:{ destruct (Ascii.eqb c "+") eqn:Ep; [|reflexivity].
        apply Ascii.eqb_eq in Ep. subst c. discriminate Hcv. }
    rewrite Em in HP. destruct HP as (Hrange & Hall & Hv).
    cbn [all_digits] in Hall. apply andb_true_iff in Hall as [Hc Hall].
    assert (Hpre : digits_prefix (String c rest) = String c (Json.rescanNumber rest)).
    { cbn [digits_prefix]. rewrite Hc.
      rewrite (rescanNumber_digits_prefix _ Hall). reflexivity. }
    rewrite Hpre, <- Hv.
    assert (Hbody : int_body (String c rest) = true).
    { unfold int_body. destruct (Ascii.eqb c "0") eqn:E0.
      - exact (checkValid_from_int_tail true rest _ Hall Hcv).
      - destruct (digit_next c Hc) as [H19 | ->]; [|discriminate E0].
        rewrite H19 in Hcv |- *.
        exact (checkValid_from_int_tail false rest _ Hall Hcv). }
    rewrite Hbody. split; [|reflexivity].
    cbn [andb]. apply andb_true_iff. split; apply Z.leb_le; lia.
Qed.

Lemma Unmarshal_int_err data v0 v e :
  Json.Unmarshal_int data v0 = (v, Some e) -> v = v0.
Proof.
  unfold Json.Unmarshal_int.
  destruct (Json.checkValid data); [intros H; inversion H; reflexivity|].
  destruct (Json.skipSpace data) as [|c rest]; [intros H; inversion H; reflexivity|].
  repeat match goal with
         | |- (if ?b then _ else _) = _ -> _ =>
             destruct b; [intros H; inversion H; reflexivity|]
         end.
  destruct (Strconv.ParseInt _) as [n [err|]]; intros H; inversion H; reflexivity.
Qed.

Lemma Unmarshal_int_invalid data v0 e :
  Json.checkValid data = Some e ->
  Json.Unmarshal_int data v0 = (v0, Some (Json.Syntax e)).
Proof. intros H. unfold Json.Unmarshal_int. rewrite H. reflexivity. Qed.

Lemma Unmarshal_string_err_null data v0 v :
  Json.Unmarshal_int data v0 = (v, None) -> null_text data = true ->
  Json.Unmarshal_string_err data = None.
Proof.
  unfold Json.Unmarshal_int, Json.Unmarshal_string_err, null_text.
  destruct (Json.checkValid data); [discriminate|].
  destruct (Json.skipSpace data) as [|c1 [|c2 [|c3 [|c4 r]]]]; try discriminate.
  intros _ H. apply andb_true_iff in H as [H _].
  apply andb_true_iff in H as [H _]. apply andb_true_iff in H as [H _].
  apply andb_true_iff in H as [H _]. apply Ascii.eqb_eq in H. subst c1.
  reflexivity.
Qed.

(** C6, as amended.  When [MaybeInt.UnmarshalJSON] fails, the error it
    returns is the one of the step that failed, and the target is left
    as that step leaves it: a failure of [strconv.Unquote] returns before
    the target is assigned, so the target keeps the value it had; a
    failure of the integer parse assigns zero to the target. *)
Theorem UnmarshalJSON_failure (raw : string) (f f' : MaybeInt) (e : error) :
  MaybeInt_UnmarshalJSON raw f = (f', Some e) ->
  (exists se, e = StrconvError se
              /\ Json.Unmarshal_string_err raw = None
              /\ snd (Strconv.Unquote raw) = Some se
              /\ f' = f)
  \/ (exists je data, e = JsonError je
                      /\ (data = raw \/ Strconv.Unquote raw = (data, None))
                      /\ Json.Unmarshal_int data 0 = (0, Some je)
                      /\ f' = 0).
Proof.
  unfold MaybeInt_UnmarshalJSON. cbv beta zeta.
  destruct (Json.Unmarshal_string_err raw) as [se|] eqn:Hs.
  - destruct (Json.Unmarshal_int raw 0) as [v [je|]] eqn:Hi; cbn [option_map];
      intros H; inversion H; subst.
    right. exists je, raw. pose proof (Unmarshal_int_err _ _ _ _ Hi). subst f'.
    repeat split; auto.
  - destruct (Strconv.Unquote raw) as [data [se|]] eqn:Hq.
    + intros H. inversion H. subst. left. exists se. repeat split.
    + destruct (Json.Unmarshal_int data 0) as [v [je|]] eqn:Hi; cbn [option_map];
        intros H; inversion H; subst.
      right. exists je, data. pose proof (Unmarshal_int_err _ _ _ _ Hi). subst f'.
      repeat split; auto.
Qed.

(** C6 as stated fails: on the bare literal [null] the call fails at
    [strconv.Unquote], and a target that held 7 still holds 7. *)
Lemma UnmarshalJSON_null_keeps_target :
  MaybeInt_UnmarshalJSON "null" 7 = (7, Some (StrconvError Strconv.ErrSyntax))
  /\ ~ (forall raw f f' e,
          MaybeInt_UnmarshalJSON raw f = (f', Some e) -> f' = 0).
Proof.
  assert (H : MaybeInt_UnmarshalJSON "null" 7
              = (7, Some (StrconvError Strconv.ErrSyntax))) by reflexivity.
  split; [exact H|].
  intros Hall. specialize (Hall _ _ _ _ H). discriminate Hall.
Qed.

(** C5, as amended.  [MaybeInt.UnmarshalJSON] returns an error on every
    input that is not valid JSON, and on every input that is not numeric
    text itself and whose contents between quotes are neither numeric
    text nor the literal [null]. *)
Theorem UnmarshalJSON_rejects (raw : string) (f : MaybeInt) :
  (Json.checkValid raw <> None ->
   exists e, snd (MaybeInt_UnmarshalJSON raw f) = Some e)
  /\ (int_text raw = false -> contents_accepted raw = false ->
      exists e, snd (MaybeInt_UnmarshalJSON raw f) = Some e).
Proof.
  split.
  - intros Hcv. destruct (Json.checkValid raw) as [e|] eqn:E; [|congruence].
    unfold MaybeInt_UnmarshalJSON, Json.Unmarshal_string_err. cbv beta zeta. rewrite E.
    rewrite (Unmarshal_int_invalid _ _ _ E). eexists. reflexivity.
  - intros Hraw Hacc. unfold contents_accepted in Hacc.
    unfold MaybeInt_UnmarshalJSON. cbv beta zeta.
    destruct (Json.Unmarshal_string_err raw) as [se|] eqn:Hs.
    + destruct (Json.Unmarshal_int raw 0) as [v [je|]] eqn:Hi; cbn [option_map snd].
      * eexists. reflexivity.
      * exfalso. destruct (Unmarshal_int_ok _ _ _ Hi) as [[Hn _] | [Hn _]].
        -- rewrite (Unmarshal_string_err_null _ _ _ Hi Hn) in Hs. discriminate Hs.
        -- congruence.
    + destruct (Strconv.Unquote raw) as [data [se|]] eqn:Hq.
      * eexists. reflexivity.
      * destruct (Json.Unmarshal_int data 0) as [v [je|]] eqn:Hi; cbn [option_map snd].
        -- eexists. reflexivity.
        -- exfalso. apply orb_false_iff in Hacc as [H1 H2].
           destruct (Unmarshal_int_ok _ _ _ Hi) as [[Hn _] | [Hn _]]; congruence.
Qed.

(** C5 as stated fails: [null] between quotes is no numeric text, and
    the call succeeds on it with a zero value. *)
Lemma UnmarshalJSON_quoted_null :
  int_text "null" = false
  /\ MaybeInt_UnmarshalJSON (quoted "null") 7 = (0, None).
Proof. split; reflexivity. Qed.

Lemma UnmarshalJSON_rejects_witness :
  exists e, snd (MaybeInt_UnmarshalJSON (quoted "abc") 7) = Some e.
Proof.
  apply (proj2 (UnmarshalJSON_rejects (quoted "abc") 7)); reflexivity.
Defined.

Lemma UnmarshalJSON_leading_zero_witness :
  MaybeInt_UnmarshalJSON (quoted "042") 7
  = (0, Some (JsonError (Json.Syntax
                 (Json.InvalidCharacter "4" "after top-level value" 2)))).
Proof. apply (UnmarshalJSON_leading_zero "4" "2" 7); reflexivity. Defined.

Lemma UnmarshalJSON_failure_witness :
  (exists se,
      JsonError (Json.Syntax
                   (Json.InvalidCharacter "a" "looking for beginning of value" 1))
      = StrconvError se
      /\ Json.Unmarshal_string_err (quoted "abc") = None
      /\ snd (Strconv.Unquote (quoted "abc")) = Some se
      /\ 0 = 7)
  \/ (exists je data,
         JsonError (Json.Syntax
                      (Json.InvalidCharacter "a" "looking for beginning of value" 1))
         = JsonError je
         /\ (data = quoted "abc" \/ Strconv.Unquote (quoted "abc") = (data, None))
         /\ Json.Unmarshal_int data 0 = (0, Some je)
         /\ 0 = 0).
Proof. apply (UnmarshalJSON_failure (quoted "abc") 7); reflexivity. Defined.

(** Beyond the range of [int] the digits are refused, bare or quoted. *)
Example UnmarshalJSON_out_of_range :
  MaybeInt_UnmarshalJSON "9223372036854775808" 7
  = (0, Some (JsonError
                (Json.UnmarshalTypeError "number 9223372036854775808" "int")))
  /\ MaybeInt_UnmarshalJSON (quoted "9223372036854775808") 7
     = (0, Some (JsonError
                   (Json.UnmarshalTypeError "number 9223372036854775808" "int"))).
Proof. split; reflexivity. Qed.

End DecoderFacts.

(** ** The operations *)

Module OperationFacts.

Section Runs.

Variable env : Env.

(** The three ways a run can go. *)
Lemma exec_cases (op : operation) (w : World env) :
  match answer env op w with
  | (inr e, w1) =>
      exec env op w
      = (empty_value op, Some (Wrap e (errMakeRequestError env)), w1,
         [template_event op])
  | (inl res, w1) =>
      match decode_error env op res with
      | Some e =>
          exec env op w
          = (empty_value op, Some (Wrap e (errUnmarshalError env)), w1,
             [template_event op; decoded res])
      | None =>
          exec env op w
          = (decoded_value env op res, None, w1,
             [template_event op; decoded res])
      end
  end.
Proof.
  unfold exec, answer, decode_error, decoded_value, template_event.
  destruct op; simpl;
    (destruct (makeRequest env _ _ _ w) as [[res|e] w1]; [|reflexivity]);
    simpl;
    match goal with
    | |- context [unmarshalDetail env res] =>
        destruct (unmarshalDetail env res) as [r [e|]]
    | |- context [unmarshalList env res] =>
        destruct (unmarshalList env res) as [r [e|]]
    end;
    reflexivity.
Qed.

(** C2.  When the transport answers with bytes and these decode as the
    envelope the operation expects, the operation returns no error and
    the result field of the decoded envelope as it is (nothing for
    Delete), whatever the [success] flag and the [errors] of the envelope
    are: neither is looked at. *)
Theorem well_formed_envelope_passes
  (op : operation) (w w1 : World env) (res : string) :
  answer env op w = (inl res, w1) ->
  decode_error env op res = None ->
  exec env op w
  = (decoded_value env op res, None, w1, [template_event op; decoded res]).
Proof.
  intros Ha Hd. pose proof (exec_cases op w) as H.
  rewrite Ha, Hd in H. exact H.
Qed.

(** C3.  An operation surfaces two kinds of error and no other.  When
    the transport returns an error, the operation returns it wrapped with
    [errMakeRequestError] and makes no call to the decoder: the request is
    the only call of the run.  When the transport returns bytes and the
    decoder fails on them, the operation returns the decoder's error
    wrapped with [errUnmarshalError].  Every error an operation returns is
    one of the two. *)
Theorem two_error_kinds (op : operation) (w : World env) :
  (forall e w1,
      answer env op w = (inr e, w1) ->
      exec env op w
      = (empty_value op, Some (Wrap e (errMakeRequestError env)), w1,
         [template_event op]))
  /\ (forall res e w1,
         answer env op w = (inl res, w1) ->
         decode_error env op res = Some e ->
         exec env op w
         = (empty_value op, Some (Wrap e (errUnmarshalError env)), w1,
            [template_event op; decoded res]))
  /\ (forall err,
         snd (fst (fst (exec env op w))) = Some err ->
         (exists e w1,
             answer env op w = (inr e, w1)
             /\ err = Wrap e (errMakeRequestError env))
         \/ (exists res e w1,
                answer env op w = (inl res, w1)
                /\ decode_error env op res = Some e
                /\ err = Wrap e (errUnmarshalError env))).
Proof.
  pose proof (exec_cases op w) as H. repeat split.
  - intros e w1 Ha. rewrite Ha in H. exact H.
  - intros res e w1 Ha Hd. rewrite Ha, Hd in H. exact H.
  - intros err Herr. destruct (answer env op w) as [[res|e] w1].
    + destruct (decode_error env op res) as [e|] eqn:Hd;
        rewrite H in Herr; cbn [fst snd] in Herr; [|discriminate Herr].
      inversion Herr. right. exists res, e, w1. auto.
    + rewrite H in Herr. cbn [fst snd] in Herr. inversion Herr.
      left. exists e, w1. auto.
Qed.

(** C7.  Every operation makes one request, the one of its row in the
    table: the method, the path made of the identifiers as they are given
    (plain concatenation, nothing escaped), and the rule as body for
    Create, Change and Update and no body for List, Get and Delete. *)
Theorem one_request_per_operation (op : operation) (w : World env) :
  filter is_request (snd (exec env op w)) = [template_event op].
Proof.
  pose proof (exec_cases op w) as H.
  destruct (answer env op w) as [[res|e] w1].
  - destruct (decode_error env op res); rewrite H; destruct op; reflexivity.
  - rewrite H. destruct op; reflexivity.
Qed.

(** C10.  An operation that returns an error returns the empty value
    with it: the zero [PageRule] for Create, Get, Change and Update, the
    empty slice for List. *)
Theorem error_means_empty_value
  (op : operation) (w : World env) (v : value) (e : error) :
  fst (fst (exec env op w)) = (v, Some e) -> v = empty_value op.
Proof.
  pose proof (exec_cases op w) as H.
  destruct (answer env op w) as [[res|e'] w1].
  - destruct (decode_error env op res); rewrite H; cbn [fst];
      intros E; inversion E; reflexivity.
  - rewrite H. cbn [fst]. intros E. inversion E. reflexivity.
Qed.

End Runs.

Lemma well_formed_envelope_passes_witness :
  PageRuleDetailResponse.Success failedEnvelope = false
  /\ exec refusingEnv (Get "023e105f4ecef8ad9ca31a8372d0c353" "9a7806061c88ada1") tt
     = (oneRule bypassRule, None, tt,
        [requested "GET"
           "/zones/023e105f4ecef8ad9ca31a8372d0c353/pagerules/9a7806061c88ada1"
           None;
         decoded "{}"]).
Proof.
  split; [reflexivity|].
  apply (well_formed_envelope_passes refusingEnv
           (Get "023e105f4ecef8ad9ca31a8372d0c353" "9a7806061c88ada1")
           tt tt "{}");
    reflexivity.
Defined.

Lemma two_error_kinds_witness :
  exec downEnv (List "023e105f4ecef8ad9ca31a8372d0c353") tt
  = (rules (slice_of []),
     Some (Wrap (Opaque "connection refused") "request failed"), tt,
     [requested "GET" "/zones/023e105f4ecef8ad9ca31a8372d0c353/pagerules" None])
  /\ exec garbledEnv (List "023e105f4ecef8ad9ca31a8372d0c353") tt
     = (rules (slice_of []),
        Some (Wrap (JsonError
                      (Json.Syntax
                         (Json.InvalidCharacter "<"
                            "looking for beginning of value" 1)))
                "response decode failed"), tt,
        [requested "GET" "/zones/023e105f4ecef8ad9ca31a8372d0c353/pagerules" None;
         decoded "<html>"]).
Proof.
  split.
  - apply (proj1 (two_error_kinds downEnv
                    (List "023e105f4ecef8ad9ca31a8372d0c353") tt)).
    reflexivity.
  - apply (proj1 (proj2 (two_error_kinds garbledEnv
                           (List "023e105f4ecef8ad9ca31a8372d0c353") tt))
             "<html>");
      reflexivity.
Defined.

Lemma error_means_empty_value_witness :
  fst (fst (exec downEnv (Create "023e105f4ecef8ad9ca31a8372d0c353" bypassRule) tt))
  = (oneRule PageRule.zero,
     Some (Wrap (Opaque "connection refused") "request failed"))
  /\ oneRule PageRule.zero
     = empty_value (Create "023e105f4ecef8ad9ca31a8372d0c353" bypassRule).
Proof.
  split; [reflexivity|].
  apply (error_means_empty_value downEnv
           (Create "023e105f4ecef8ad9ca31a8372d0c353" bypassRule) tt
           (oneRule PageRule.zero)
           (Wrap (Opaque "connection refused") "request failed")).
  reflexivity.
Defined.

End OperationFacts.

(** ** Encoding and decoding a rule *)

Module CodecFacts.
Import DecoderFacts.

(** C4.  What the encoder does with a rule that has an empty identifier
    and zero timestamps: the keys written are [targets], [actions],
    [priority] and [status], the identifier is left out, and both
    timestamps are written, their [omitempty] notwithstanding, a
    [time.Time] being a struct and a struct never empty. *)
Theorem zero_timestamps_are_sent {M : Marshaler Time}
  (r : PageRule.t) (z : JSON) :
  PageRule.ID r = "" ->
  PageRule.ModifiedOn r = zeroTime ->
  PageRule.CreatedOn r = zeroTime ->
  MarshalJSON zeroTime = inl z ->
  exists body,
    Marshal_PageRule r = inl body
    /\ keys body
       = ["targets"; "actions"; "priority"; "status";
          "modified_on"; "created_on"].
Proof.
  intros Hid Hm Hc Hz.
  unfold Marshal_PageRule, encode_struct, PageRule_fields.
  rewrite Hid, Hm, Hc.
  cbn [encode_fields omitEmpty fieldValue isEmptyValue encoding name
         String.length Nat.eqb andb].
  rewrite Hz. eexists. split; reflexivity.
Qed.

Lemma zero_timestamps_are_sent_witness :
  exists body,
    @Marshal_PageRule zeroTime_MarshalJSON bypassRule = inl body
    /\ keys body
       = ["targets"; "actions"; "priority"; "status";
          "modified_on"; "created_on"].
Proof.
  apply (@zero_timestamps_are_sent zeroTime_MarshalJSON bypassRule
           (JString zeroTimeText)); reflexivity.
Defined.

Lemma take_drop n : forall s, Strconv.take n s ++ Utf8.drop n s = s.
Proof.
  induction n as [|n IH]; intros s.
  - destruct s; reflexivity.
  - destruct s as [|c s]; [reflexivity|].
    cbn [Strconv.take Utf8.drop append]. rewrite IH. reflexivity.
Qed.

Lemma ToValidUTF8_fuel_valid fuel : forall s,
  Utf8.ValidString_fuel fuel s = true -> ToValidUTF8_fuel fuel s = s.
Proof.
  induction fuel as [|fuel IH]; intros s H.
  - destruct s; [reflexivity | discriminate H].
  - destruct s as [|c t]; [reflexivity|].
    cbn [Utf8.ValidString_fuel ToValidUTF8_fuel] in *.
    destruct (Utf8.DecodeRuneInString (String c t)) as [r size].
    destruct ((r =? Utf8.RuneError) && (size =? 1)%nat); [discriminate H|].
    rewrite (IH _ H). apply take_drop.
Qed.

Lemma ToValidUTF8_valid s : Utf8.ValidString s = true -> ToValidUTF8 s = s.
Proof. apply ToValidUTF8_fuel_valid. Qed.

(** Induction on an [interface{}] value, through its slices and maps. *)
Section AnyInduction.
Variable P : any -> Prop.
Hypothesis Hnil : P anyNil.
Hypothesis Hbool : forall b, P (anyBool b).
Hypothesis Hint : forall n, P (anyInt n).
Hypothesis Hfloat : forall l, P (anyFloat64 l).
Hypothesis Hstring : forall s, P (anyString s).
Hypothesis Hslice : forall elems, Forall P elems -> P (anySlice elems).
Hypothesis Hmap :
  forall entries, Forall (fun kv => P (snd kv)) entries -> P (anyMap entries).

Fixpoint any_nested_ind (v : any) : P v :=
  match v with
  | anyNil => Hnil
  | anyBool b => Hbool b
  | anyInt n => Hint n
  | anyFloat64 l => Hfloat l
  | anyString s => Hstring s
  | anySlice elems =>
      Hslice elems
        ((fix go (l : list any) : Forall P l :=
            match l with
            | [] => Forall_nil _
            | x :: r => Forall_cons x (any_nested_ind x) (go r)
            end) elems)
  | anyMap entries =>
      Hmap entries
        ((fix go (l : list (string * any)) : Forall (fun kv => P (snd kv)) l :=
            match l with
            | [] => Forall_nil _
            | x :: r => Forall_cons x (any_nested_ind (snd x)) (go r)
            end) entries)
  end.
End AnyInduction.

(** A key above all the keys of a map goes to its end. *)
Lemma map_set_last {A : Type} (k : string) (v : A) : forall m,
  forallb (fun k' => match String.compare k' k with Lt => true | _ => false end)
    (List.map fst m) = true ->
  map_set k v m = (m ++ [(k, v)])%list.
Proof.
  induction m as [|[k' v'] m IH]; intros H; [reflexivity|].
  cbn [List.map fst forallb] in H. apply andb_true_iff in H as [Hk Hm].
  cbn [map_set app]. rewrite String.compare_antisym.
  destruct (String.compare k' k); try discriminate Hk.
  cbn [CompOpp]. rewrite (IH Hm). reflexivity.
Qed.

Lemma sorted_by_key_from {A : Type} (l : list (string * A)) : forall acc,
  keys_increasing (List.map fst (acc ++ l)%list) = true ->
  fold_left (fun acc kv => map_set (fst kv) (snd kv) acc) l acc = (acc ++ l)%list.
Proof.
  induction l as [|[k v] l IH]; intros acc H.
  - cbn [fold_left]. rewrite app_nil_r. reflexivity.
  - cbn [fold_left fst snd].
    assert (Hlast : map_set k v acc = (acc ++ [(k, v)])%list).
    { apply map_set_last. clear IH. induction acc as [|[k' v'] acc IHacc].
      - reflexivity.
      - cbn [app List.map fst keys_increasing forallb] in H |- *.
        apply andb_true_iff in H as [H1 H2].
        rewrite (IHacc H2), andb_true_r.
        rewrite List.map_app, forallb_app in H1.
        apply andb_true_iff in H1 as [_ H1].
        cbn [List.map fst forallb] in H1.
        apply andb_true_iff in H1 as [H1 _]. exact H1. }
    rewrite Hlast, IH; rewrite <- app_assoc; [reflexivity | exact H].
Qed.

Lemma sorted_by_key_increasing {A : Type} (l : list (string * A)) :
  keys_increasing (List.map fst l) = true -> sorted_by_key l = l.
Proof. intros H. apply (sorted_by_key_from l []). exact H. Qed.

(** The decoder gives back a value that JSON has a form for. *)
Lemma decode_any_encode_any (v : any) :
  json_native v = true -> decode_any (encode_any v) = v.
Proof.
  induction v as [ | b | n | l | s | elems IH | entries IH ] using any_nested_ind;
    cbn [json_native encode_any decode_any encode_string]; intros H;
    try reflexivity; try discriminate H.
  - rewrite (ToValidUTF8_valid s H). reflexivity.
  - f_equal. induction IH as [|x r Hx Hr IHr]; [reflexivity|].
    cbn [forallb] in H. apply andb_true_iff in H as [H1 H2].
    cbn [List.map]. rewrite (Hx H1), (IHr H2). reflexivity.
  - apply andb_true_iff in H as [Hkeys Hall]. f_equal.
    assert (Hk : List.map fst
                   (List.map (fun kv => (fst kv, encode_any (snd kv))) entries)
                 = List.map fst entries).
    { rewrite List.map_map. reflexivity. }
    rewrite (sorted_by_key_increasing
               (List.map (fun kv => (fst kv, encode_any (snd kv))) entries))
      by (rewrite Hk; exact Hkeys).
    rewrite !List.map_map. cbn [fst snd].
    assert (Hm : List.map
                   (fun x => (ToValidUTF8 (fst x), decode_any (encode_any (snd x))))
                   entries = entries).
    { clear Hkeys Hk. induction IH as [|[k x] r Hx Hr IHr]; [reflexivity|].
      cbn [forallb fst snd] in Hall. apply andb_true_iff in Hall as [H1 H2].
      apply andb_true_iff in H1 as [H1 H1'].
      cbn [List.map fst snd]. cbn [snd] in Hx.
      rewrite (ToValidUTF8_valid k H1), (Hx H1'), (IHr H2). reflexivity. }
    rewrite Hm. apply sorted_by_key_increasing, Hkeys.
Qed.

Lemma num_char_copied c :
  num_char c = true ->
  (Bytes.code c <? Utf8.RuneSelf) = true
  /\ appendString_byte c = String c EmptyString.
Proof. ascii_cases c; vm_compute; intros H; try discriminate H; split; reflexivity. Qed.

Lemma appendString_fuel_num_text s : forall fuel,
  num_text s = true -> (String.length s <= fuel)%nat ->
  appendString_fuel fuel s = s.
Proof.
  induction s as [|c s IH]; intros fuel H Hf.
  - destruct fuel; reflexivity.
  - cbn [num_text] in H. apply andb_true_iff in H as [Hc Hs].
    destruct (num_char_copied c Hc) as [H1 H2].
    destruct fuel as [|fuel]; [cbn in Hf; lia|].
    cbn [appendString_fuel]. rewrite H1, H2.
    cbn [append]. rewrite IH; [reflexivity | exact Hs | cbn in Hf; lia].
Qed.

Lemma render_quoted_number s :
  num_text s = true -> render (JString s) = quoted s.
Proof.
  intros H. cbn [render]. unfold appendString.
  rewrite appendString_fuel_num_text; [reflexivity | exact H | lia].
Qed.

(** The priority, written either way, is read back. *)
Lemma decode_priority (p : Z) (asString : bool) (old : MaybeInt) :
  minInt <= p <= maxInt ->
  decode_Unmarshaler
    (if asString then JString (FormatInt p) else JNumber (FormatInt p)) old
  = (p, Continue None).
Proof.
  intros Hp. destruct (UnmarshalJSON_FormatInt p old Hp) as [Hbare Hquoted].
  unfold decode_Unmarshaler, UnmarshalJSON, MaybeInt_Unmarshaler.
  destruct asString.
  - rewrite (render_quoted_number _ (FormatInt_num_text p)), Hquoted. reflexivity.
  - cbn [render]. rewrite Hbare. reflexivity.
Qed.

Lemma decode_elems_encode {A : Type} (dec : JSON -> A -> A * status)
  (enc : A -> JSON) (zero : A) (l : list A) :
  Forall (fun a => dec (enc a) zero = (a, Continue None)) l ->
  decode_elems dec zero (List.map enc l) [] None = (l, Continue None).
Proof.
  induction 1 as [|a l Ha Hl IH]; [reflexivity|].
  cbn [List.map decode_elems]. rewrite Ha. cbn [saveError]. rewrite IH.
  reflexivity.
Qed.

Lemma decode_slice_encode {A : Type} (dec : JSON -> A -> A * status)
  (enc : A -> JSON) (zero : A) (type_ : string) (s : slice A) :
  Forall (fun a => dec (enc a) zero = (a, Continue None)) (elements s) ->
  decode_slice dec zero type_ (encode_slice enc s) nil_slice
  = (s, Continue None).
Proof.
  destruct s as [|l]; intros H; [reflexivity|].
  cbn [encode_slice decode_slice elements] in *.
  rewrite (decode_elems_encode dec enc zero l H). reflexivity.
Qed.

Lemma decode_target_encode (t : PageRuleTarget.t) :
  valid_target t = true ->
  decode_PageRuleTarget (encode_PageRuleTarget t) PageRuleTarget.zero
  = (t, Continue None).
Proof.
  destruct t as [tg [op v]]. unfold valid_target.
  cbn [PageRuleTarget.Target PageRuleTarget.Constraint PageRuleTarget.Operator
         PageRuleTarget.Value].
  intros H. apply andb_true_iff in H as [H H3]. apply andb_true_iff in H as [H1 H2].
  unfold encode_PageRuleTarget, encode_string.
  cbn [PageRuleTarget.Target PageRuleTarget.Constraint PageRuleTarget.Operator
         PageRuleTarget.Value].
  rewrite !ToValidUTF8_valid by assumption. reflexivity.
Qed.

Lemma decode_action_encode (a : PageRuleAction.t) :
  valid_action a = true ->
  decode_PageRuleAction (encode_PageRuleAction a) PageRuleAction.zero
  = (a, Continue None).
Proof.
  destruct a as [id v]. unfold valid_action.
  cbn [PageRuleAction.ID PageRuleAction.Value].
  intros H. apply andb_true_iff in H as [H1 H2].
  unfold encode_PageRuleAction, encode_string.
  cbn [PageRuleAction.ID PageRuleAction.Value].
  rewrite (ToValidUTF8_valid id H1).
  change (decode_PageRuleAction
            (JObject [("id", JString id); ("value", encode_any v)])
            PageRuleAction.zero)
    with (PageRuleAction.mk id (decode_any (encode_any v)), Continue None).
  rewrite (decode_any_encode_any v H2). reflexivity.
Qed.

Lemma forallb_Forall_eq {A : Type} (test : A -> bool) (P : A -> Prop) (l : list A) :
  (forall a, test a = true -> P a) -> forallb test l = true -> Forall P l.
Proof.
  intros HP H. apply Forall_forall. intros a Ha.
  apply HP. rewrite forallb_forall in H. apply H, Ha.
Qed.

Section RoundTrip.
Context {Time_Unmarshaler : Unmarshaler Time}.

Lemma decode_strings_written (l : list string) :
  decode_strings (JArray (List.map JString l)) nil_slice
  = (slice_of l, Continue None).
Proof.
  unfold decode_strings. cbn [decode_slice elements].
  rewrite (decode_elems_encode decode_string JString EmptyString l);
    [reflexivity|].
  apply Forall_forall. reflexivity.
Qed.

Lemma Unmarshal_detail_envelope (success : bool) (errors : list string)
  (result : JSON) (x : PageRule.t) (st : status) :
  decode_PageRule result PageRule.zero = (x, st) ->
  Unmarshal_PageRuleDetailResponse (detail_envelope success errors result)
  = (PageRuleDetailResponse.mk success (slice_of errors) (slice_of []) x,
     error_of st).
Proof.
  intros H. unfold Unmarshal_PageRuleDetailResponse, detail_envelope.
  unfold decode_PageRuleDetailResponse, decode_struct.
  cbn -[decode_PageRule decode_strings].
  rewrite (decode_strings_written errors).
  change (JArray []) with (JArray (List.map JString [])).
  rewrite (decode_strings_written []), H.
  destruct st; reflexivity.
Qed.

Lemma decode_server_rule (r : PageRule.t) (id : string) (quotedPriority : bool)
  (modified created : JSON) :
  minInt <= PageRule.Priority r <= maxInt ->
  forallb valid_target (elements (PageRule.Targets r)) = true ->
  forallb valid_action (elements (PageRule.Actions r)) = true ->
  Utf8.ValidString (PageRule.Status r) = true ->
  snd (UnmarshalJSON (render modified) zeroTime) = None ->
  snd (UnmarshalJSON (render created) zeroTime) = None ->
  decode_PageRule (server_rule id quotedPriority modified created r)
    PageRule.zero
  = (PageRule.mk id (PageRule.Targets r) (PageRule.Actions r)
       (PageRule.Priority r) (PageRule.Status r)
       (fst (UnmarshalJSON (render modified) zeroTime))
       (fst (UnmarshalJSON (render created) zeroTime)),
     Continue None).
Proof.
  intros Hp Ht Ha Hs Hm Hc.
  destruct r as [id0 targets actions priority st m0 c0].
  cbn [PageRule.Targets PageRule.Actions PageRule.Priority PageRule.Status] in *.
  unfold decode_PageRule, decode_struct, server_rule, encode_string.
  cbn [PageRule.Targets PageRule.Actions PageRule.Priority PageRule.Status].
  rewrite (ToValidUTF8_valid st Hs).
  assert (HT : decode_slice decode_PageRuleTarget PageRuleTarget.zero
                 "[]cloudflare.PageRuleTarget"
                 (encode_slice encode_PageRuleTarget targets) nil_slice
               = (targets, Continue None)).
  { apply decode_slice_encode.
    exact (forallb_Forall_eq _ _ _ decode_target_encode Ht). }
  assert (HA : decode_slice decode_PageRuleAction PageRuleAction.zero
                 "[]cloudflare.PageRuleAction"
                 (encode_slice encode_PageRuleAction actions) nil_slice
               = (actions, Continue None)).
  { apply decode_slice_encode.
    exact (forallb_Forall_eq _ _ _ decode_action_encode Ha). }
  pose proof (decode_priority priority quotedPriority 0 Hp) as HP.
  assert (HM : decode_Unmarshaler modified zeroTime
               = (fst (UnmarshalJSON (render modified) zeroTime), Continue None)).
  { unfold decode_Unmarshaler.
    destruct (UnmarshalJSON (render modified) zeroTime) as [t [e|]];
      [discriminate Hm | reflexivity]. }
  assert (HC : decode_Unmarshaler created zeroTime
               = (fst (UnmarshalJSON (render created) zeroTime), Continue None)).
  { unfold decode_Unmarshaler.
    destruct (UnmarshalJSON (render created) zeroTime) as [t [e|]];
      [discriminate Hc | reflexivity]. }
  cbn -[decode_slice decode_Unmarshaler encode_slice FormatInt].
  rewrite HT, HA, HP, HM, HC. reflexivity.
Qed.


End RoundTrip.



End CodecFacts.

(** ** Scenarios *)

(** The scenarios of the specification, on the tree of the response. *)

Example twenty_actions : List.length PageRuleActions = 20%nat.
Proof. reflexivity. Qed.

Example list_of_no_rules :
  @Unmarshal_PageRulesResponse zeroTime_UnmarshalJSON
    (JObject [("success", JBool true); ("errors", JArray []);
              ("messages", JArray []); ("result", JArray [])])
  = (PageRulesResponse.mk true (slice_of []) (slice_of []) (slice_of []), None).
Proof. reflexivity. Qed.

Example quoted_priority_five :
  PageRule.Priority
    (PageRuleDetailResponse.Result
       (fst (@Unmarshal_PageRuleDetailResponse zeroTime_UnmarshalJSON
               (detail_envelope true []
                  (JObject [("id", JString "9a7806061c88ada191ed06f989cc3dac");
                            ("priority", JString "5")])))))
  = 5.
Proof. reflexivity. Qed.

Example null_priority_is_refused :
  snd (@Unmarshal_PageRuleDetailResponse zeroTime_UnmarshalJSON
         (detail_envelope true [] (JObject [("priority", JNull)])))
  = Some (StrconvError Strconv.ErrSyntax).
Proof. reflexivity. Qed.

Example created_rule_carries_its_id :
  exec (mkEnv "request failed" "response decode failed" unit
          (fun _ _ _ w => (inl "{...}", w))
          (fun _ =>
             @Unmarshal_PageRuleDetailResponse zeroTime_UnmarshalJSON
               (detail_envelope true []
                  (server_rule "9a7806061c88ada191ed06f989cc3dac" false
                     JNull JNull bypassRule)))
          (fun _ => (PageRulesResponse.zero, None)))
    (Create "023e105f4ecef8ad9ca31a8372d0c353" bypassRule) tt
  = (oneRule
       (PageRule.mk "9a7806061c88ada191ed06f989cc3dac"
          (PageRule.Targets bypassRule) (PageRule.Actions bypassRule)
          1 "active" zeroTime zeroTime),
     None, tt,
     [requested "POST" "/zones/023e105f4ecef8ad9ca31a8372d0c353/pagerules"
        (Some bypassRule);
      decoded "{...}"]).
Proof. reflexivity. Qed.

(** ** What the flexible integer decoder accepts *)

Module AcceptanceFacts.
Import Bytes.
Import DecoderFacts.

Lemma space_char c :
  Json.isSpace c = true ->
  is_digit c = false /\ Ascii.eqb c "." = false /\ Ascii.eqb c "e" = false
  /\ Ascii.eqb c "E" = false /\ Ascii.eqb c "+" = false
  /\ Ascii.eqb c "-" = false.
Proof. ascii_cases c; vm_compute; intros H; try discriminate H; repeat split. Qed.

(** Spaces after the top-level value are accepted. *)
Lemma checkValid_from_spaces data : forall st et b,
  st = Json.stateEndValue \/ (st = Json.stateEndTop /\ et = true) ->
  spaces_only data = true ->
  Json.checkValid_from (Json.mkScanner st et [] None b) data = None.
Proof.
  induction data as [|c r IH]; intros st et b Hst H.
  - destruct Hst as [-> | [-> ->]]; [destruct et|]; reflexivity.
  - cbn [spaces_only] in H. apply andb_true_iff in H as [Hc Hr].
    cbn [Json.checkValid_from Json.step Json.endTop Json.parseState Json.err Json.bytes].
    assert (E : Json.run_step (Json.mkScanner st et [] None (b + 1)) c
                = (Json.mkScanner Json.stateEndTop true [] None (b + 1),
                   Json.scanEnd)).
    { destruct Hst as [-> | [-> ->]]; unfold Json.run_step; cbn [Json.step];
        unfold Json.do_stateEndValue; cbn [Json.parseState Json.err Json.bytes];
        unfold Json.do_stateEndTop; rewrite Hc; reflexivity. }
    rewrite E. apply IH; [right; split; reflexivity | exact Hr].
Qed.

(** The digits of an integer literal and the spaces after it are
    accepted. *)
Lemma checkValid_from_int_body (zero : bool) data : forall b,
  (if zero then spaces_only data else digits_then_spaces data) = true ->
  Json.checkValid_from
    (Json.mkScanner (if zero then Json.state0 else Json.state1) false [] None b)
    data = None.
Proof.
  induction data as [|c r IH]; intros b H; [destruct zero; reflexivity|].
  cbn [Json.checkValid_from Json.step Json.endTop Json.parseState Json.err Json.bytes].
  destruct (is_digit c) eqn:Hd.
  - destruct zero.
    + cbn [spaces_only] in H. apply andb_true_iff in H as [Hc _].
      destruct (space_char c Hc) as (Hd' & _). congruence.
    + cbn [digits_then_spaces] in H. rewrite Hd in H.
      unfold Json.run_step. cbn [Json.step]. rewrite Hd.
      exact (IH _ H).
  - assert (Hsp : spaces_only (String c r) = true).
    { destruct zero; [exact H|]. cbn [digits_then_spaces] in H.
      rewrite Hd in H. exact H. }
    cbn [spaces_only] in Hsp. apply andb_true_iff in Hsp as [Hc Hr].
    destruct (space_char c Hc) as (_ & H1 & H2 & H3 & _).
    assert (E : Json.run_step
                  (Json.mkScanner (if zero then Json.state0 else Json.state1)
                     false [] None (b + 1)) c
                = (Json.mkScanner Json.stateEndTop true [] None (b + 1),
                   Json.scanEnd)).
    { destruct zero; unfold Json.run_step; cbn [Json.step]; rewrite ?Hd;
        unfold Json.do_state0; rewrite H1, H2, H3; cbn [orb];
        unfold Json.do_stateEndValue; cbn [Json.parseState Json.err Json.bytes];
        unfold Json.do_stateEndTop; rewrite Hc; reflexivity. }
    rewrite E. apply checkValid_from_spaces; [right; split; reflexivity | exact Hr].
Qed.

(** Leading spaces are skipped. *)
Lemma checkValid_from_leading data : forall b,
  (forall b', Json.checkValid_from
                (Json.mkScanner Json.stateBeginValue false [] None b')
                (Json.skipSpace data) = None) ->
  Json.checkValid_from (Json.mkScanner Json.stateBeginValue false [] None b) data
  = None.
Proof.
  induction data as [|c r IH]; intros b H; [exact (H b)|].
  cbn [Json.skipSpace] in H. destruct (Json.isSpace c) eqn:Hc; [|exact (H b)].
  cbn [Json.checkValid_from Json.step Json.endTop Json.parseState Json.err Json.bytes].
  unfold Json.run_step. cbn [Json.step]. unfold Json.do_stateBeginValue.
  rewrite Hc. apply IH, H.
Qed.

Lemma first_digit c :
  is_digit c = true ->
  Json.isSpace c = false
  /\ Ascii.eqb c "{" = false /\ Ascii.eqb c "[" = false
  /\ Ascii.eqb c dquote = false /\ Ascii.eqb c "-" = false
  /\ Ascii.eqb c "+" = false /\ Ascii.eqb c "t" = false
  /\ Ascii.eqb c "f" = false /\ Ascii.eqb c "n" = false.
Proof. ascii_cases c; vm_compute; intros H; try discriminate H; repeat split. Qed.

Lemma digit19_digit c : is_digit19 c = true -> is_digit c = true.
Proof. ascii_cases c; vm_compute; intros H; try discriminate H; reflexivity. Qed.

(** The scanner on the digits of an integer, from the state the byte
    before them leaves: [stateBeginValue] or, after a minus sign,
    [stateNeg]. *)
Lemma checkValid_from_body (neg : bool) s : forall b,
  int_body s = true ->
  Json.checkValid_from
    (Json.mkScanner (if neg then Json.stateNeg else Json.stateBeginValue)
       false [] None b) s = None.
Proof.
  intros b H. destruct s as [|c r]; [discriminate H|].
  unfold int_body in H.
  cbn [Json.checkValid_from Json.step Json.endTop Json.parseState Json.err Json.bytes].
  destruct (Ascii.eqb c "0") eqn:E0.
  - apply Ascii.eqb_eq in E0. subst c.
    assert (E : Json.run_step
                  (Json.mkScanner
                     (if neg then Json.stateNeg else Json.stateBeginValue)
                     false [] None (b + 1)) "0"
                = (Json.mkScanner Json.state0 false [] None (b + 1),
                   if neg then Json.scanContinue else Json.scanBeginLiteral))
      by (destruct neg; reflexivity).
    rewrite E. destruct neg; exact (checkValid_from_int_body true r _ H).
  - apply andb_true_iff in H as [Hc Hr].
    destruct (digit19_first c Hc) as (_&H1&H2&H3&H4&H5&_&H6&H7&H8&H9).
    assert (E : Json.run_step
                  (Json.mkScanner
                     (if neg then Json.stateNeg else Json.stateBeginValue)
                     false [] None (b + 1)) c
                = (Json.mkScanner Json.state1 false [] None (b + 1),
                   if neg then Json.scanContinue else Json.scanBeginLiteral)).
    { destruct neg; unfold Json.run_step; cbn [Json.step].
      - rewrite E0, Hc. reflexivity.
      - unfold Json.do_stateBeginValue.
        rewrite H1, H2, H3, H4, H5, E0, H7, H8, H9, Hc. reflexivity. }
    rewrite E. destruct neg; exact (checkValid_from_int_body false r _ Hr).
Qed.

Lemma rescanNumber_body_tail (zero : bool) r :
  (if zero then spaces_only r else digits_then_spaces r) = true ->
  Json.rescanNumber r = digits_prefix r
  /\ all_digits (digits_prefix r) = true
  /\ (zero = true -> digits_prefix r = EmptyString).
Proof.
  induction r as [|c r IH]; intros H; [repeat split|].
  cbn [Json.rescanNumber digits_prefix all_digits].
  destruct (is_digit c) eqn:Hd.
  - destruct zero.
    + cbn [spaces_only] in H. apply andb_true_iff in H as [Hc _].
      destruct (space_char c Hc) as (Hd' & _). congruence.
    + cbn [digits_then_spaces] in H. rewrite Hd in H.
      destruct (IH H) as (E1 & E2 & _).
      cbn [orb all_digits]. rewrite E1, Hd, E2. repeat split. discriminate.
  - assert (Hsp : spaces_only (String c r) = true).
    { destruct zero; [exact H|]. cbn [digits_then_spaces] in H.
      rewrite Hd in H. exact H. }
    cbn [spaces_only] in Hsp. apply andb_true_iff in Hsp as [Hc _].
    destruct (space_char c Hc) as (_ & H1 & H2 & H3 & H4 & H5).
    rewrite H1, H2, H3, H4, H5. repeat split.
Qed.

Lemma int_body_digit c r : int_body (String c r) = true -> is_digit c = true.
Proof.
  unfold int_body. destruct (Ascii.eqb c "0") eqn:E.
  - apply Ascii.eqb_eq in E. subst c. reflexivity.
  - intros H. apply andb_true_iff in H as [H _]. apply digit19_digit, H.
Qed.

(** The literal [ParseInt] is given for an integer body and its value. *)
Lemma int_body_item c r :
  int_body (String c r) = true ->
  Json.rescanNumber r = digits_prefix r
  /\ all_digits (digits_prefix r) = true
  /\ (Ascii.eqb c "0" = true -> digits_prefix r = EmptyString)
  /\ (Ascii.eqb c "0" = false -> is_digit19 c = true).
Proof.
  unfold int_body. destruct (Ascii.eqb c "0") eqn:E; intros H.
  - destruct (rescanNumber_body_tail true r H) as (H1 & H2 & H3).
    repeat split; auto. discriminate.
  - apply andb_true_iff in H as [Hc Hr].
    destruct (rescanNumber_body_tail false r Hr) as (H1 & H2 & _).
    repeat split; auto. discriminate.
Qed.

Lemma checkValid_int_text data :
  int_text data = true -> Json.checkValid data = None.
Proof.
  unfold int_text. intros H.
  apply andb_true_iff in H as [H _]. apply andb_true_iff in H as [H _].
  unfold Json.checkValid, Json.reset. apply checkValid_from_leading. intros b.
  destruct (Json.skipSpace data) as [|c r]; [discriminate H|].
  destruct (Ascii.eqb c "-") eqn:Em.
  - apply Ascii.eqb_eq in Em. subst c.
    change (Json.checkValid_from
              (Json.mkScanner Json.stateBeginValue false [] None b)
              (String "-" r))
      with (Json.checkValid_from
              (Json.mkScanner Json.stateNeg false [] None (b + 1)) r).
    exact (checkValid_from_body true r _ H).
  - exact (checkValid_from_body false _ _ H).
Qed.

(** [json.Unmarshal] into an [int] and into a [string] on numeric text. *)
Lemma Unmarshal_int_text data v0 :
  int_text data = true ->
  Json.Unmarshal_int data v0 = (int_value data, None)
  /\ Json.Unmarshal_string_err data
     = Some (Json.UnmarshalTypeError "number" "string").
Proof.
  intros Htext. pose proof (checkValid_int_text data Htext) as Hcv.
  unfold int_text, int_value in *.
  unfold Json.Unmarshal_int, Json.Unmarshal_string_err. rewrite Hcv.
  apply andb_true_iff in Htext as [H Hmax]. apply andb_true_iff in H as [H Hmin].
  apply Z.leb_le in Hmin, Hmax.
  destruct (Json.skipSpace data) as [|c r]; [discriminate H|].
  destruct (Ascii.eqb c "-") eqn:Em.
  - apply Ascii.eqb_eq in Em. subst c.
    change (Ascii.eqb "-" "[") with false. change (Ascii.eqb "-" "{") with false.
    change (Ascii.eqb "-" "n") with false. change (Ascii.eqb "-" "t") with false.
    change (Ascii.eqb "-" "f") with false. change (Ascii.eqb "-" dquote) with false.
    cbn [orb]. split; [|reflexivity].
    destruct r as [|c r]; [discriminate H|].
    pose proof (int_body_digit c r H) as Hd.
    destruct (int_body_item c r H) as (E1 & E2 & E3 & E4).
    cbn [Json.rescanNumber digits_prefix] in *. rewrite Hd in *. cbn [orb].
    rewrite E1.
    destruct (Ascii.eqb c "0") eqn:E0.
    + apply Ascii.eqb_eq in E0. subst c. rewrite (E3 eq_refl). reflexivity.
    + rewrite (ParseInt_neg c (digits_prefix r) (E4 eq_refl) E2)
        by (unfold minInt in *; lia).
      reflexivity.
  - pose proof (int_body_digit c r H) as Hd.
    destruct (first_digit c Hd) as (F1&F2&F3&F4&F5&F6&F7&F8&F9).
    rewrite F2, F3, F4, F7, F8, F9. cbn [orb]. split; [|reflexivity].
    destruct (int_body_item c r H) as (E1 & E2 & E3 & E4).
    cbn [digits_prefix] in *. rewrite Hd in *. rewrite E1.
    destruct (Ascii.eqb c "0") eqn:E0.
    + apply Ascii.eqb_eq in E0. subst c. rewrite (E3 eq_refl). reflexivity.
    + rewrite (ParseInt_pos c (digits_prefix r) (E4 eq_refl) E2) by lia.
      reflexivity.
Qed.

(** Numeric text without quotes, with JSON spaces around it at most, is
    read by [MaybeInt.UnmarshalJSON] without error as the integer it
    writes, whatever the target held before. *)
Theorem bare_numeric_text_is_read (raw : string) (f : MaybeInt) :
  int_text raw = true ->
  MaybeInt_UnmarshalJSON raw f = (int_value raw, None).
Proof.
  intros H. destruct (Unmarshal_int_text raw 0 H) as [Hi Hs].
  unfold MaybeInt_UnmarshalJSON. cbv beta zeta. rewrite Hs, Hi. reflexivity.
Qed.

Lemma bare_numeric_text_is_read_witness :
  MaybeInt_UnmarshalJSON "  -120 " 7 = (-120, None).
Proof. apply (bare_numeric_text_is_read "  -120 " 7). reflexivity. Defined.

Lemma plain_char_facts c :
  plain_char c = true ->
  Ascii.eqb c dquote = false /\ Ascii.eqb c bslash = false
  /\ Ascii.eqb c lf = false /\ (code c <? 32) = false
  /\ Utf8.first (code c) = Utf8.fAscii.
Proof.
  ascii_cases c; vm_compute; intros H; try discriminate H; repeat split.
Qed.

Section PlainText.
Variable s : string.
Hypothesis Hs : plain_text s = true.

Lemma checkValid_from_plain t : forall b,
  plain_text t = true ->
  Json.checkValid_from (Json.mkScanner Json.stateInString false [] None b)
    (t ++ String dquote EmptyString) = None.
Proof.
  induction t as [|c t IH]; intros b H; [reflexivity|].
  cbn [plain_text] in H. apply andb_true_iff in H as [Hc Ht].
  destruct (plain_char_facts c Hc) as (Hq & Hb & _ & Hlt & _).
  cbn [append Json.checkValid_from Json.step Json.endTop Json.parseState
         Json.err Json.bytes].
  unfold Json.run_step. cbn [Json.step].
  rewrite Hq, Hb. cbn [Json.bytes]. rewrite Hlt.
  apply IH, Ht.
Qed.

Lemma Unmarshal_string_err_plain :
  Json.Unmarshal_string_err (quoted s) = None.
Proof.
  unfold Json.Unmarshal_string_err.
  assert (Hcv : Json.checkValid (quoted s) = None).
  { change (Json.checkValid (quoted s))
      with (Json.checkValid_from
              (Json.mkScanner Json.stateInString false [] None 1)
              (s ++ String dquote EmptyString)).
    apply checkValid_from_plain, Hs. }
  rewrite Hcv. reflexivity.
Qed.

Lemma index_plain_text t :
  plain_text t = true ->
  Strconv.index (t ++ String dquote EmptyString) dquote
  = Some (String.length t).
Proof.
  induction t as [|c t IH]; intros H; [reflexivity|].
  cbn [plain_text] in H. apply andb_true_iff in H as [Hc Ht].
  destruct (plain_char_facts c Hc) as (Hq & _).
  cbn [append Strconv.index String.length]. rewrite Hq, (IH Ht). reflexivity.
Qed.

Lemma contains_plain_text t :
  plain_text t = true ->
  contains t bslash = false /\ contains t lf = false.
Proof.
  induction t as [|c t IH]; intros H; [split; reflexivity|].
  cbn [plain_text] in H. apply andb_true_iff in H as [Hc Ht].
  destruct (plain_char_facts c Hc) as (_ & Hb & Hl & _).
  destruct (IH Ht) as [IH1 IH2].
  cbn [contains]. rewrite Hb, Hl, IH1, IH2. split; reflexivity.
Qed.

Lemma ValidString_fuel_plain_text t : forall fuel,
  plain_text t = true -> (String.length t <= fuel)%nat ->
  Utf8.ValidString_fuel fuel t = true.
Proof.
  induction t as [|c t IH]; intros fuel H Hf; [destruct fuel; reflexivity|].
  cbn [plain_text] in H. apply andb_true_iff in H as [Hc Ht].
  destruct (plain_char_facts c Hc) as (_ & _ & _ & _ & Hfirst).
  destruct fuel as [|fuel]; [cbn in Hf; lia|].
  cbn [Utf8.ValidString_fuel Utf8.DecodeRuneInString]. rewrite Hfirst.
  rewrite num_char_not_RuneError. cbn [andb Utf8.drop].
  apply IH; [exact Ht | cbn in Hf; lia].
Qed.

Lemma Unquote_plain : Strconv.Unquote (quoted s) = (s, None).
Proof.
  unfold Strconv.Unquote, Strconv.unquote, quoted.
  destruct (contains_plain_text s Hs) as [Hb Hl].
  assert (Hv : Utf8.ValidString s = true)
    by (apply ValidString_fuel_plain_text; [exact Hs | lia]).
  destruct (s ++ String dquote EmptyString) as [|c r] eqn:E.
  - destruct s; discriminate E.
  - rewrite <- E. rewrite (index_plain_text s Hs), take_app, drop_app.
    change (Ascii.eqb dquote bquote) with false.
    change (Ascii.eqb dquote dquote) with true.
    cbn [orb]. rewrite Hb, Hl, Hv. reflexivity.
Qed.
End PlainText.

(** The scanner on [null] and the spaces around it. *)
Lemma checkValid_null_text data :
  null_text data = true -> Json.checkValid data = None.
Proof.
  unfold null_text. intros H.
  unfold Json.checkValid, Json.reset. apply checkValid_from_leading. intros b.
  destruct (Json.skipSpace data) as [|c1 [|c2 [|c3 [|c4 r]]]]; try discriminate H.
  apply andb_true_iff in H as [H Hr]. apply andb_true_iff in H as [H H4].
  apply andb_true_iff in H as [H H3]. apply andb_true_iff in H as [H1 H2].
  apply Ascii.eqb_eq in H1, H2, H3, H4. subst.
  change (Json.checkValid_from
            (Json.mkScanner Json.stateBeginValue false [] None b)
            (String "n" (String "u" (String "l" (String "l" r)))))
    with (Json.checkValid_from
            (Json.mkScanner Json.stateEndValue false [] None (b + 1 + 1 + 1 + 1))
            r).
  apply checkValid_from_spaces; [left; reflexivity | exact Hr].
Qed.

Lemma Unmarshal_int_null_text data v0 :
  null_text data = true -> Json.Unmarshal_int data v0 = (v0, None).
Proof.
  intros H. pose proof (checkValid_null_text data H) as Hcv.
  unfold Json.Unmarshal_int. rewrite Hcv. unfold null_text in H.
  destruct (Json.skipSpace data) as [|c1 [|c2 [|c3 [|c4 r]]]]; try discriminate H.
  apply andb_true_iff in H as [H _]. apply andb_true_iff in H as [H _].
  apply andb_true_iff in H as [H _]. apply andb_true_iff in H as [H _].
  apply Ascii.eqb_eq in H. subst c1. reflexivity.
Qed.

(** A string literal of plain printable ASCII is unquoted and its
    contents are read once more as JSON: numeric text gives its integer,
    and the literal [null] gives zero, both without error and with the
    spaces the contents may have around them. *)
Theorem quoted_text_is_unquoted_then_read (s : string) (f : MaybeInt) :
  plain_text s = true ->
  (int_text s = true ->
   MaybeInt_UnmarshalJSON (quoted s) f = (int_value s, None))
  /\ (null_text s = true -> MaybeInt_UnmarshalJSON (quoted s) f = (0, None)).
Proof.
  intros Hs.
  assert (E : MaybeInt_UnmarshalJSON (quoted s) f
              = (fst (Json.Unmarshal_int s 0),
                 option_map JsonError (snd (Json.Unmarshal_int s 0)))).
  { unfold MaybeInt_UnmarshalJSON. cbv beta zeta.
    rewrite (Unmarshal_string_err_plain s Hs), (Unquote_plain s Hs).
    destruct (Json.Unmarshal_int s 0); reflexivity. }
  rewrite E. split; intros H.
  - destruct (Unmarshal_int_text s 0 H) as [-> _]. reflexivity.
  - rewrite (Unmarshal_int_null_text s 0 H). reflexivity.
Qed.

Lemma quoted_text_is_unquoted_then_read_witness :
  MaybeInt_UnmarshalJSON (quoted " 42 ") 7 = (42, None)
  /\ MaybeInt_UnmarshalJSON (quoted " null") 7 = (0, None).
Proof.
  split.
  - apply (proj1 (quoted_text_is_unquoted_then_read " 42 " 7 eq_refl)).
    reflexivity.
  - apply (proj2 (quoted_text_is_unquoted_then_read " null" 7 eq_refl)).
    reflexivity.
Defined.

Lemma int_text_range s :
  int_text s = true -> minInt <= int_value s <= maxInt.
Proof.
  unfold int_text. intros H.
  apply andb_true_iff in H as [H Hmax]. apply andb_true_iff in H as [_ Hmin].
  apply Z.leb_le in Hmin, Hmax. lia.
Qed.

Lemma UnmarshalJSON_success_cases (raw : string) (f f' : MaybeInt) :
  MaybeInt_UnmarshalJSON raw f = (f', None) ->
  (int_text raw = true /\ f' = int_value raw)
  \/ (exists data,
         Json.Unmarshal_string_err raw = None
         /\ Strconv.Unquote raw = (data, None)
         /\ ((int_text data = true /\ f' = int_value data)
             \/ (null_text data = true /\ f' = 0))).
Proof.
  unfold MaybeInt_UnmarshalJSON. cbv beta zeta.
  destruct (Json.Unmarshal_string_err raw) as [se|] eqn:Hs.
  - destruct (Json.Unmarshal_int raw 0) as [v [je|]] eqn:Hi; cbn [option_map];
      intros H; inversion H; subst.
    destruct (Unmarshal_int_ok _ _ _ Hi) as [[Hn _] | [Hn Hv]].
    + rewrite (Unmarshal_string_err_null _ _ _ Hi Hn) in Hs. discriminate Hs.
    + left. split; assumption.
  - destruct (Strconv.Unquote raw) as [data [se|]] eqn:Hq; [discriminate|].
    destruct (Json.Unmarshal_int data 0) as [v [je|]] eqn:Hi; cbn [option_map];
      intros H; inversion H; subst.
    right. exists data. repeat split.
    destruct (Unmarshal_int_ok _ _ _ Hi) as [[Hn Hv] | [Hn Hv]]; auto.
Qed.

(** When [MaybeInt.UnmarshalJSON] succeeds, the value it leaves is an
    [int], and it is the same whatever the target held before: the old
    value plays no part in a call that succeeds. *)
Theorem success_is_fresh_and_in_range (raw : string) (f f' : MaybeInt) :
  MaybeInt_UnmarshalJSON raw f = (f', None) ->
  minInt <= f' <= maxInt
  /\ forall g, MaybeInt_UnmarshalJSON raw g = (f', None).
Proof.
  intros H. split.
  - destruct (UnmarshalJSON_success_cases raw f f' H)
      as [[Ht ->] | (data & _ & _ & [[Ht ->] | [_ ->]])].
    + apply int_text_range, Ht.
    + apply int_text_range, Ht.
    + unfold minInt, maxInt. lia.
  - revert H. unfold MaybeInt_UnmarshalJSON. cbv beta zeta.
    destruct (Json.Unmarshal_string_err raw); [intros H g; exact H|].
    destruct (Strconv.Unquote raw) as [data [se|]]; [discriminate|].
    intros H g. exact H.
Qed.

Lemma success_is_fresh_and_in_range_witness :
  minInt <= 42 <= maxInt
  /\ forall g, MaybeInt_UnmarshalJSON (quoted "42") g = (42, None).
Proof. apply (success_is_fresh_and_in_range (quoted "42") 7 42). reflexivity. Defined.

End AcceptanceFacts.

(** ** Objects into structs *)

Module EnvelopeFacts.
Import DecoderFacts.
Import OperationFacts.
Import CodecFacts.

Lemma decode_members_app {A : Type} (dec : string -> JSON -> A -> A * status)
  (l1 l2 : list (string * JSON)) : forall a saved,
  decode_members dec (l1 ++ l2)%list a saved
  = match decode_members dec l1 a saved with
    | (a', Abort e) => (a', Abort e)
    | (a', Continue s) => decode_members dec l2 a' s
    end.
Proof.
  induction l1 as [|[k j] l1 IH]; intros a saved; [reflexivity|].
  cbn [app decode_members].
  destruct (dec k j a) as [a' [s|e]]; [apply IH | reflexivity].
Qed.

Lemma decode_members_goes_on {A : Type}
  (dec : string -> JSON -> A -> A * status) (l : list (string * JSON)) :
  Forall (fun m => forall a, exists s, snd (dec (fst m) (snd m) a) = Continue s) l ->
  forall a saved, exists s, snd (decode_members dec l a saved) = Continue s.
Proof.
  induction 1 as [|[k j] l Hm Hl IH]; intros a saved.
  - exists saved. reflexivity.
  - cbn [decode_members]. cbn [fst snd] in Hm.
    destruct (Hm a) as [s Hs]. destruct (dec k j a) as [a' st].
    cbn [snd] in Hs. subst st. apply IH.
Qed.

Lemma decode_string_goes_on : goes_on decode_string.
Proof. intros j a. destruct j; eexists; reflexivity. Qed.

Lemma decode_struct_goes_on {A : Type}
  (dec : string -> JSON -> A -> A * status) (type_ : string) :
  (forall k, goes_on (dec k)) -> goes_on (decode_struct dec type_).
Proof.
  intros H j a. destruct j; try (eexists; reflexivity).
  cbn [decode_struct]. apply decode_members_goes_on.
  apply Forall_forall. intros m _ a'. apply H.
Qed.

Lemma into_goes_on {A B : Type} (r : B * status) (set : B -> A) :
  (exists s, snd r = Continue s) -> exists s, snd (into r set) = Continue s.
Proof. intros H. exact H. Qed.

Lemma decode_elems_goes_on {A : Type} (dec : JSON -> A -> A * status) (zero : A) :
  goes_on dec ->
  forall js old saved, exists s,
    snd (decode_elems dec zero js old saved) = Continue s.
Proof.
  intros H js. induction js as [|j js IH]; intros old saved.
  - exists saved. reflexivity.
  - cbn [decode_elems].
    destruct old as [|o old'].
    + destruct (H j zero) as [s Hs]. destruct (dec j zero) as [a st].
      cbn [snd] in Hs. subst st.
      destruct (IH [] (saveError saved s)) as [s' Hs'].
      destruct (decode_elems dec zero js [] (saveError saved s)) as [rest st].
      exists s'. exact Hs'.
    + destruct (H j o) as [s Hs]. destruct (dec j o) as [a st].
      cbn [snd] in Hs. subst st.
      destruct (IH old' (saveError saved s)) as [s' Hs'].
      destruct (decode_elems dec zero js old' (saveError saved s)) as [rest st].
      exists s'. exact Hs'.
Qed.

Lemma decode_slice_goes_on {A : Type} (dec : JSON -> A -> A * status)
  (zero : A) (type_ : string) :
  goes_on dec -> goes_on (decode_slice dec zero type_).
Proof.
  intros H j old. destruct j; try (eexists; reflexivity).
  cbn [decode_slice].
  destruct (decode_elems_goes_on dec zero H elems (elements old) None) as [s Hs].
  destruct (decode_elems dec zero elems (elements old) None) as [l st].
  exists s. exact Hs.
Qed.

Lemma decode_constraint_goes_on : goes_on decode_constraint.
Proof.
  apply decode_struct_goes_on. intros k j c.
  destruct (field_of_key ["operator"; "value"] k) as [[|[|n]]|];
    try (eexists; reflexivity); apply into_goes_on, decode_string_goes_on.
Qed.

Lemma decode_PageRuleTarget_goes_on : goes_on decode_PageRuleTarget.
Proof.
  apply decode_struct_goes_on. intros k j t.
  destruct (field_of_key ["target"; "constraint"] k) as [[|[|n]]|];
    try (eexists; reflexivity); apply into_goes_on;
    [apply decode_string_goes_on | apply decode_constraint_goes_on].
Qed.

Lemma decode_PageRuleAction_goes_on : goes_on decode_PageRuleAction.
Proof.
  apply decode_struct_goes_on. intros k j a.
  destruct (field_of_key ["id"; "value"] k) as [[|[|n]]|];
    try (eexists; reflexivity); apply into_goes_on, decode_string_goes_on.
Qed.

Section RuleFields.
Context {Time_Unmarshaler : Unmarshaler Time}.

Lemma null_priority (p : MaybeInt) :
  decode_Unmarshaler JNull p = (p, Abort (StrconvError Strconv.ErrSyntax)).
Proof. reflexivity. Qed.

(** A member that names no field with a method does not end the
    decoding of a rule. *)
Lemma decode_PageRule_field_goes_on (key : string) (j : JSON) (r : PageRule.t) :
  names_field PageRule_keys 3 key = false ->
  names_field PageRule_keys 5 key = false ->
  names_field PageRule_keys 6 key = false ->
  exists s, snd (decode_PageRule_field key j r) = Continue s.
Proof.
  unfold names_field, decode_PageRule_field, PageRule_keys.
  destruct r as [id targets actions priority st modified created].
  destruct (field_of_key
              ["id"; "targets"; "actions"; "priority"; "status";
               "modified_on"; "created_on"] key)
    as [[|[|[|[|[|[|[|n]]]]]]]|];
    cbn [Nat.eqb]; intros H3 H5 H6; try discriminate;
    try (eexists; reflexivity); apply into_goes_on.
  - apply decode_string_goes_on.
  - apply decode_slice_goes_on, decode_PageRuleTarget_goes_on.
  - apply decode_slice_goes_on, decode_PageRuleAction_goes_on.
  - apply decode_string_goes_on.
Qed.

Lemma no_method_field_goes_on (pre : list (string * JSON)) :
  no_method_field pre = true ->
  forall r saved, exists s,
    snd (decode_members decode_PageRule_field pre r saved) = Continue s.
Proof.
  unfold no_method_field, absent. intros H.
  apply andb_true_iff in H as [H H6]. apply andb_true_iff in H as [H3 H5].
  apply decode_members_goes_on. apply Forall_forall. intros m Hm r.
  rewrite forallb_forall in H3, H5, H6.
  apply decode_PageRule_field_goes_on.
  - apply negb_true_iff, H3, Hm.
  - apply negb_true_iff, H5, Hm.
  - apply negb_true_iff, H6, Hm.
Qed.

Lemma decode_PageRule_null_priority (key : string)
  (pre post : list (string * JSON)) (old : PageRule.t) :
  names_field PageRule_keys 3 key = true ->
  no_method_field pre = true ->
  snd (decode_PageRule (JObject (pre ++ (key, JNull) :: post)%list) old)
  = Abort (StrconvError Strconv.ErrSyntax).
Proof.
  intros Hkey Hpre. unfold decode_PageRule, decode_struct.
  rewrite decode_members_app.
  destruct (no_method_field_goes_on pre Hpre old None) as [s Hs].
  destruct (decode_members decode_PageRule_field pre old None) as [r st].
  cbn [snd] in Hs. subst st.
  cbn [decode_members].
  assert (E : decode_PageRule_field key JNull r
              = (r, Abort (StrconvError Strconv.ErrSyntax))).
  { unfold names_field, PageRule_keys in Hkey. unfold decode_PageRule_field.
    destruct r as [id targets actions priority st modified created].
    destruct (field_of_key
                ["id"; "targets"; "actions"; "priority"; "status";
                 "modified_on"; "created_on"] key)
      as [[|[|[|[|[|[|[|n]]]]]]]|]; try discriminate Hkey.
    rewrite null_priority. reflexivity. }
  rewrite E. reflexivity.
Qed.

(** A rule whose priority is the bare literal [null] makes the decoding
    of the whole detail envelope fail with [strconv.ErrSyntax], whatever
    the other members of the rule after it are: the decoder hands [null]
    to [MaybeInt.UnmarshalJSON] as it does any other value, and the
    method's error ends the decoding. *)
Theorem null_priority_fails_the_response (success : bool)
  (errors : list string) (key : string) (pre post : list (string * JSON)) :
  names_field PageRule_keys 3 key = true ->
  no_method_field pre = true ->
  snd (Unmarshal_PageRuleDetailResponse
         (detail_envelope success errors
            (JObject (pre ++ (key, JNull) :: post)%list)))
  = Some (StrconvError Strconv.ErrSyntax).
Proof.
  intros Hkey Hpre.
  pose proof (decode_PageRule_null_priority key pre post PageRule.zero
                Hkey Hpre) as H.
  destruct (decode_PageRule (JObject (pre ++ (key, JNull) :: post)%list)
              PageRule.zero) as [x st] eqn:E.
  cbn [snd] in H. subst st.
  rewrite (Unmarshal_detail_envelope success errors _ _ _ E). reflexivity.
Qed.

End RuleFields.

Lemma null_priority_fails_the_response_witness :
  snd (@Unmarshal_PageRuleDetailResponse zeroTime_UnmarshalJSON
         (detail_envelope true []
            (JObject [("id", JString "9a7806061c88ada191ed06f989cc3dac");
                      ("status", JString "active");
                      ("Priority", JNull);
                      ("targets", JArray [])])))
  = Some (StrconvError Strconv.ErrSyntax).
Proof.
  apply (@null_priority_fails_the_response zeroTime_UnmarshalJSON true []
           "Priority"
           [("id", JString "9a7806061c88ada191ed06f989cc3dac");
            ("status", JString "active")]
           [("targets", JArray [])]);
    reflexivity.
Defined.




Section Members.
Context {Time_Unmarshaler : Unmarshaler Time}.




End Members.




Section Results.
Context {Time_Unmarshaler : Unmarshaler Time}.


End Results.


Lemma decode_elems_map {A B : Type} (dec : JSON -> A -> A * status)
  (enc : B -> JSON) (back : B -> A) (zero : A) (l : list B) :
  Forall (fun b => dec (enc b) zero = (back b, Continue None)) l ->
  decode_elems dec zero (List.map enc l) [] None
  = (List.map back l, Continue None).
Proof.
  induction 1 as [|b l Hb Hl IH]; [reflexivity|].
  cbn [List.map decode_elems]. rewrite Hb. cbn [saveError]. rewrite IH.
  reflexivity.
Qed.

Section Lists.
Context {Time_Unmarshaler : Unmarshaler Time}.

Lemma decode_listed (e : listed) :
  readable e = true ->
  decode_PageRule (listed_json e) PageRule.zero
  = (read_back e, Continue None).
Proof.
  unfold readable. cbv zeta. intros H.
  repeat (apply andb_true_iff in H as [H ?]).
  apply Z.leb_le in H. 
  match goal with Hle : (_ <=? maxInt) = true |- _ => apply Z.leb_le in Hle end.
  unfold listed_json, read_back. cbv zeta.
  apply decode_server_rule; try assumption; try lia.
  - destruct (snd (UnmarshalJSON (render (listedModified e)) zeroTime));
      [discriminate | reflexivity].
  - destruct (snd (UnmarshalJSON (render (listedCreated e)) zeroTime));
      [discriminate | reflexivity].
Qed.

Lemma Unmarshal_list_envelope (success : bool) (errors : list string)
  (result : JSON) (x : slice PageRule.t) (st : status) :
  decode_slice decode_PageRule PageRule.zero "[]cloudflare.PageRule"
    result nil_slice = (x, st) ->
  Unmarshal_PageRulesResponse (list_envelope success errors result)
  = (PageRulesResponse.mk success (slice_of errors) (slice_of []) x,
     error_of st).
Proof.
  intros H. unfold Unmarshal_PageRulesResponse, list_envelope.
  unfold decode_PageRulesResponse, decode_struct.
  cbn -[decode_PageRule decode_strings decode_slice].
  rewrite (decode_strings_written errors).
  change (JArray []) with (JArray (List.map JString [])).
  rewrite (decode_strings_written []), H.
  destruct st; reflexivity.
Qed.

(** The list envelope a server writes around any number of readable
    rules decodes without error to these rules, as many and in the same
    order, each with the identifier, the priority (bare or quoted) and
    the timestamps the server wrote; an empty array gives the empty
    slice, not [nil]. *)
Theorem list_envelope_round_trip (entries : list listed)
  (success : bool) (errors : list string) :
  forallb readable entries = true ->
  Unmarshal_PageRulesResponse
    (list_envelope success errors (JArray (List.map listed_json entries)))
  = (PageRulesResponse.mk success (slice_of errors) (slice_of [])
       (slice_of (List.map read_back entries)),
     None).
Proof.
  intros H.
  apply (Unmarshal_list_envelope success errors _ _ (Continue None)).
  cbn [decode_slice elements].
  rewrite (decode_elems_map decode_PageRule listed_json read_back);
    [reflexivity|].
  apply Forall_forall. intros e He. apply decode_listed.
  rewrite forallb_forall in H. exact (H e He).
Qed.

End Lists.

Lemma list_envelope_round_trip_witness :
  @Unmarshal_PageRulesResponse zeroTime_UnmarshalJSON
    (list_envelope true []
       (JArray (List.map listed_json
                  [mkListed "9a78" true JNull JNull bypassRule;
                   mkListed "9a79" false JNull JNull bypassRule])))
  = (PageRulesResponse.mk true (slice_of []) (slice_of [])
       (slice_of (List.map (@read_back zeroTime_UnmarshalJSON)
                    [mkListed "9a78" true JNull JNull bypassRule;
                     mkListed "9a79" false JNull JNull bypassRule])),
     None).
Proof.
  apply (@list_envelope_round_trip zeroTime_UnmarshalJSON). reflexivity.
Defined.

Section Bodies.
Context {Time_Marshaler : Marshaler Time}.

(** The body of a rule, by what the two timestamps are written as. *)
Lemma Marshal_PageRule_cases (r : PageRule.t) :
  match MarshalJSON (PageRule.ModifiedOn r), MarshalJSON (PageRule.CreatedOn r) with
  | inr e, _ => Marshal_PageRule r = inr e
  | inl m, inr e => Marshal_PageRule r = inr e
  | inl m, inl c =>
      Marshal_PageRule r
      = inl (JObject
               ((if String.eqb (PageRule.ID r) "" then []
                 else [("id", encode_string (PageRule.ID r))])
                ++ [("targets",
                     encode_slice encode_PageRuleTarget (PageRule.Targets r));
                    ("actions",
                     encode_slice encode_PageRuleAction (PageRule.Actions r));
                    ("priority", JNumber (FormatInt (PageRule.Priority r)));
                    ("status", encode_string (PageRule.Status r));
                    ("modified_on", m);
                    ("created_on", c)])%list)
  end.
Proof.
  unfold Marshal_PageRule, encode_struct, PageRule_fields.
  destruct r as [id targets actions priority st modified created].
  cbn [PageRule.ID PageRule.Targets PageRule.Actions PageRule.Priority
         PageRule.Status PageRule.ModifiedOn PageRule.CreatedOn].
  cbn [encode_fields omitEmpty fieldValue isEmptyValue encoding name andb].
  destruct (MarshalJSON modified) as [m|e], (MarshalJSON created) as [c|e'];
    destruct id; reflexivity.
Qed.

(** The keys of the body written for a rule: [id] exactly when the
    identifier is not empty, and the six others always, in the order of
    the fields. *)
Theorem request_body_keys (r : PageRule.t) (body : JSON) :
  Marshal_PageRule r = inl body ->
  keys body
  = ((if String.eqb (PageRule.ID r) "" then [] else ["id"])
     ++ ["targets"; "actions"; "priority"; "status";
         "modified_on"; "created_on"])%list.
Proof.
  intros H. pose proof (Marshal_PageRule_cases r) as C.
  destruct (MarshalJSON (PageRule.ModifiedOn r)) as [m|e];
    [|rewrite C in H; discriminate H].
  destruct (MarshalJSON (PageRule.CreatedOn r)) as [c|e];
    [|rewrite C in H; discriminate H].
  rewrite C in H. injection H as <-.
  destruct (String.eqb (PageRule.ID r) ""); reflexivity.
Qed.


Context {Time_Unmarshaler : Unmarshaler Time}.

(** The body written for a rule decodes to that very rule, into the zero
    rule and without error, when the strings of the rule are valid
    UTF-8, its action values are values JSON has a form for, and its
    timestamps are read back from what they are written as.  An empty
    identifier, left out of the body, comes back empty. *)
Theorem request_body_is_read_back (r : PageRule.t) (body : JSON) :
  Marshal_PageRule r = inl body ->
  Utf8.ValidString (PageRule.ID r) = true ->
  minInt <= PageRule.Priority r <= maxInt ->
  forallb valid_target (elements (PageRule.Targets r)) = true ->
  forallb valid_action (elements (PageRule.Actions r)) = true ->
  Utf8.ValidString (PageRule.Status r) = true ->
  (forall m, MarshalJSON (PageRule.ModifiedOn r) = inl m ->
             UnmarshalJSON (render m) zeroTime = (PageRule.ModifiedOn r, None)) ->
  (forall c, MarshalJSON (PageRule.CreatedOn r) = inl c ->
             UnmarshalJSON (render c) zeroTime = (PageRule.CreatedOn r, None)) ->
  decode_PageRule body PageRule.zero = (r, Continue None).
Proof.
  intros H Hid Hp Ht Ha Hs Hm Hc.
  pose proof (Marshal_PageRule_cases r) as C.
  destruct (MarshalJSON (PageRule.ModifiedOn r)) as [m|e];
    [|rewrite C in H; discriminate H].
  destruct (MarshalJSON (PageRule.CreatedOn r)) as [c|e];
    [|rewrite C in H; discriminate H].
  rewrite C in H. injection H as <-.
  specialize (Hm m eq_refl). specialize (Hc c eq_refl).
  assert (E : decode_PageRule
                (JObject
                   ((if String.eqb (PageRule.ID r) "" then []
                     else [("id", encode_string (PageRule.ID r))])
                    ++ [("targets",
                         encode_slice encode_PageRuleTarget (PageRule.Targets r));
                        ("actions",
                         encode_slice encode_PageRuleAction (PageRule.Actions r));
                        ("priority", JNumber (FormatInt (PageRule.Priority r)));
                        ("status", encode_string (PageRule.Status r));
                        ("modified_on", m);
                        ("created_on", c)])%list)
                PageRule.zero
              = decode_PageRule (server_rule (PageRule.ID r) false m c r)
                  PageRule.zero).
  { unfold server_rule. destruct (String.eqb (PageRule.ID r) "") eqn:Eid.
    - apply String.eqb_eq in Eid. rewrite Eid. reflexivity.
    - unfold encode_string. rewrite (ToValidUTF8_valid _ Hid). reflexivity. }
  rewrite E.
  rewrite (decode_server_rule r (PageRule.ID r) false m c Hp Ht Ha Hs);
    [| rewrite Hm; reflexivity | rewrite Hc; reflexivity].
  rewrite Hm, Hc. destruct r; reflexivity.
Qed.

End Bodies.

Lemma request_body_keys_witness :
  keys (JObject
          [("id", JString "9a78");
           ("targets", JNull); ("actions", JNull);
           ("priority", JNumber "0"); ("status", JString "");
           ("modified_on", JString zeroTimeText);
           ("created_on", JString zeroTimeText)])
  = ["id"; "targets"; "actions"; "priority"; "status";
     "modified_on"; "created_on"].
Proof.
  apply (@request_body_keys zeroTime_MarshalJSON
           (PageRule.mk "9a78" nil_slice nil_slice 0 "" zeroTime zeroTime)).
  reflexivity.
Defined.

Lemma request_body_is_read_back_witness :
  exists body,
    @Marshal_PageRule zeroTime_MarshalJSON bypassRule = inl body
    /\ @decode_PageRule zeroTime_UnmarshalJSON body PageRule.zero
       = (bypassRule, Continue None).
Proof.
  eexists. split; [reflexivity|].
  apply (@request_body_is_read_back zeroTime_MarshalJSON zeroTime_UnmarshalJSON
           bypassRule);
    try reflexivity.
  - split; discriminate.
  - intros m H. injection H as <-. reflexivity.
  - intros c H. injection H as <-. reflexivity.
Defined.

Lemma find_index_Some (test : string -> bool) (names : list string) :
  forall i, find_index test names = Some i ->
            exists n, nth_error names i = Some n /\ test n = true.
Proof.
  induction names as [|n names IH]; intros i H; [discriminate H|].
  cbn [find_index] in H. destruct (test n) eqn:T.
  - injection H as <-. exists n. split; [reflexivity | exact T].
  - destruct (find_index test names) as [j|]; [|discriminate H].
    injection H as <-. exact (IH j eq_refl).
Qed.

Lemma find_index_None (test : string -> bool) (names : list string) :
  find_index test names = None -> forall n, In n names -> test n = false.
Proof.
  induction names as [|m names IH]; intros H n Hn; [destruct Hn|].
  cbn [find_index] in H. destruct (test m) eqn:T; [discriminate H|].
  destruct (find_index test names); [discriminate H|].
  destruct Hn as [<-|Hn]; [exact T | exact (IH eq_refl n Hn)].
Qed.

(** Among names that differ beyond the case of their letters, a key
    finds the name it is equal to but for case. *)
Lemma field_of_key_fold (names : list string) :
  NoDup (List.map foldName names) ->
  forall i name key,
    nth_error names i = Some name ->
    foldName key = foldName name ->
    field_of_key names key = Some i.
Proof.
  intros ND i name key Hi Hf.
  assert (U : forall j n, nth_error names j = Some n ->
                          foldName n = foldName key -> j = i).
  { intros j n Hj Hn.
    apply (proj1 (NoDup_nth_error (List.map foldName names)) ND).
    - rewrite length_map. apply nth_error_Some. rewrite Hj. discriminate.
    - rewrite !nth_error_map, Hj, Hi. cbn. rewrite Hn, Hf. reflexivity. }
  unfold field_of_key.
  destruct (find_index (String.eqb key) names) as [j|] eqn:E1.
  - apply find_index_Some in E1 as [n [Hj Hn]]. apply String.eqb_eq in Hn.
    subst n. rewrite (U j key Hj eq_refl). reflexivity.
  - destruct (find_index (fun n => String.eqb (foldName n) (foldName key)) names)
      as [j|] eqn:E2.
    + apply find_index_Some in E2 as [n [Hj Hn]]. apply String.eqb_eq in Hn.
      rewrite (U j n Hj Hn). reflexivity.
    + pose proof (find_index_None _ _ E2 name (nth_error_In _ _ Hi)) as F.
      cbv beta in F. rewrite Hf, String.eqb_refl in F. discriminate F.
Qed.

Lemma PageRule_keys_fold : NoDup (List.map foldName PageRule_keys).
Proof.
  repeat constructor; cbn; intros H;
    repeat (destruct H as [H|H]; [discriminate H|]); exact H.
Qed.

Lemma envelope_keys_fold : NoDup (List.map foldName envelope_keys).
Proof.
  repeat constructor; cbn; intros H;
    repeat (destruct H as [H|H]; [discriminate H|]); exact H.
Qed.

(** A key names the field whose name it is equal to but for the case of
    its letters, for every field of a rule and of the envelopes. *)
Theorem keys_match_whatever_the_case (i : nat) (name key : string) :
  foldName key = foldName name ->
  (nth_error PageRule_keys i = Some name ->
   field_of_key PageRule_keys key = Some i)
  /\ (nth_error envelope_keys i = Some name ->
      field_of_key envelope_keys key = Some i).
Proof.
  intros Hf. split; intros Hi.
  - exact (field_of_key_fold _ PageRule_keys_fold i name key Hi Hf).
  - exact (field_of_key_fold _ envelope_keys_fold i name key Hi Hf).
Qed.

Lemma keys_match_whatever_the_case_witness :
  field_of_key PageRule_keys "Modified_ON" = Some 5%nat.
Proof.
  apply (proj1 (keys_match_whatever_the_case 5 "modified_on" "Modified_ON"
                  eq_refl)).
  reflexivity.
Defined.



Section Mismatch.
Context {Time_Unmarshaler : Unmarshaler Time}.





End Mismatch.



Section Answers.
Context {Time_Unmarshaler : Unmarshaler Time}.
Variable env : Env.

(** Create, Get, Change and Update return, without error, the rule a
    server wrote into the detail envelope of its answer, with the
    identifier and the timestamps the server gave it, whatever the
    [success] flag and the [errors] of that envelope. *)
Theorem rule_operation_returns_the_rule_written
  (op : operation) (w w1 : World env) (res : string)
  (e : listed) (success : bool) (errors : list string) :
  returns_a_rule op = true ->
  answer env op w = (inl res, w1) ->
  unmarshalDetail env res
  = Unmarshal_PageRuleDetailResponse
      (detail_envelope success errors (listed_json e)) ->
  readable e = true ->
  exec env op w
  = (oneRule (read_back e), None, w1, [template_event op; decoded res]).
Proof.
  intros Hop Ha Hd He.
  pose proof (exec_cases env op w) as H. rewrite Ha in H.
  rewrite (Unmarshal_detail_envelope success errors _ _ _ (decode_listed e He))
    in Hd.
  unfold decode_error, decoded_value in H.
  destruct op; try discriminate Hop; rewrite Hd in H; exact H.
Qed.

(** List returns, without error, the rules a server wrote into the list
    envelope of its answer, as many and in the same order. *)
Theorem list_operation_returns_the_rules_written
  (zoneID : string) (w w1 : World env) (res : string)
  (entries : list listed) (success : bool) (errors : list string) :
  answer env (List zoneID) w = (inl res, w1) ->
  unmarshalList env res
  = Unmarshal_PageRulesResponse
      (list_envelope success errors (JArray (List.map listed_json entries))) ->
  forallb readable entries = true ->
  exec env (List zoneID) w
  = (rules (slice_of (List.map read_back entries)), None, w1,
     [template_event (List zoneID); decoded res]).
Proof.
  intros Ha Hd He.
  pose proof (exec_cases env (List zoneID) w) as H. rewrite Ha in H.
  assert (E : Unmarshal_PageRulesResponse
                (list_envelope success errors
                   (JArray (List.map listed_json entries)))
              = (PageRulesResponse.mk success (slice_of errors) (slice_of [])
                   (slice_of (List.map read_back entries)), None)).
  { apply (Unmarshal_list_envelope success errors _ _ (Continue None)).
    cbn [decode_slice elements].
    rewrite (decode_elems_map decode_PageRule listed_json read_back);
      [reflexivity|].
    apply Forall_forall. intros x Hx. apply decode_listed.
    rewrite forallb_forall in He. exact (He x Hx). }
  rewrite E in Hd. unfold decode_error, decoded_value in H.
  rewrite Hd in H. exact H.
Qed.

End Answers.

Lemma rule_operation_returns_the_rule_written_witness :
  exec (mkEnv "request failed" "response decode failed" unit
          (fun _ _ _ w => (inl "{...}", w))
          (fun _ =>
             @Unmarshal_PageRuleDetailResponse zeroTime_UnmarshalJSON
               (detail_envelope false ["rule limit reached"]
                  (listed_json (mkListed "9a78" true JNull JNull bypassRule))))
          (fun _ => (PageRulesResponse.zero, None)))
    (Update "023e" "9a78" bypassRule) tt
  = (oneRule (@read_back zeroTime_UnmarshalJSON
                (mkListed "9a78" true JNull JNull bypassRule)),
     None, tt,
     [template_event (Update "023e" "9a78" bypassRule); decoded "{...}"]).
Proof.
  apply (@rule_operation_returns_the_rule_written zeroTime_UnmarshalJSON
           (mkEnv "request failed" "response decode failed" unit
              (fun _ _ _ w => (inl "{...}", w))
              (fun _ =>
                 @Unmarshal_PageRuleDetailResponse zeroTime_UnmarshalJSON
                   (detail_envelope false ["rule limit reached"]
                      (listed_json (mkListed "9a78" true JNull JNull bypassRule))))
              (fun _ => (PageRulesResponse.zero, None)))
           (Update "023e" "9a78" bypassRule) tt tt "{...}"
           (mkListed "9a78" true JNull JNull bypassRule)
           false ["rule limit reached"]);
    reflexivity.
Defined.

Lemma list_operation_returns_the_rules_written_witness :
  exec (mkEnv "request failed" "response decode failed" unit
          (fun _ _ _ w => (inl "{...}", w))
          (fun _ => (PageRuleDetailResponse.zero, None))
          (fun _ =>
             @Unmarshal_PageRulesResponse zeroTime_UnmarshalJSON
               (list_envelope true []
                  (JArray (List.map listed_json
                             [mkListed "9a78" true JNull JNull bypassRule;
                              mkListed "9a79" false JNull JNull bypassRule])))))
    (List "023e") tt
  = (rules (slice_of (List.map (@read_back zeroTime_UnmarshalJSON)
                        [mkListed "9a78" true JNull JNull bypassRule;
                         mkListed "9a79" false JNull JNull bypassRule])),
     None, tt,
     [template_event (List "023e"); decoded "{...}"]).
Proof.
  apply (@list_operation_returns_the_rules_written zeroTime_UnmarshalJSON
           (mkEnv "request failed" "response decode failed" unit
              (fun _ _ _ w => (inl "{...}", w))
              (fun _ => (PageRuleDetailResponse.zero, None))
              (fun _ =>
                 @Unmarshal_PageRulesResponse zeroTime_UnmarshalJSON
                   (list_envelope true []
                      (JArray (List.map listed_json
                                 [mkListed "9a78" true JNull JNull bypassRule;
                                  mkListed "9a79" false JNull JNull bypassRule])))))
           "023e" tt tt "{...}"
           [mkListed "9a78" true JNull JNull bypassRule;
            mkListed "9a79" false JNull JNull bypassRule]
           true []);
    reflexivity.
Defined.

End EnvelopeFacts.

(** ** The paths of the requests *)

Module RequestFacts.

Lemma split_at_slash (z1 : string) : forall z2 t1 t2,
  slash_free z1 = true -> slash_free z2 = true ->
  z1 ++ String "/" t1 = z2 ++ String "/" t2 -> z1 = z2 /\ t1 = t2.
Proof.
  induction z1 as [|c z1 IH]; intros [|d z2] t1 t2 H1 H2 E; cbn in *.
  - injection E as <-. split; reflexivity.
  - injection E as <- _. discriminate H2.
  - injection E as -> _. discriminate H1.
  - injection E as <- E.
    apply andb_true_iff in H1 as [_ H1]. apply andb_true_iff in H2 as [_ H2].
    destruct (IH z2 t1 t2 H1 H2 E) as [<- <-]. split; reflexivity.
Qed.

Lemma request_uri_perform (c1 c2 : string) (op : operation) :
  request_uri (perform c1 c2 op)
  = "/zones/" ++ zone_of op ++ "/pagerules"
     ++ match rule_of op with
        | Some ruleID => "/" ++ ruleID
        | None => ""
        end.
Proof. destruct op; reflexivity. Qed.

(** Two operations that ask for the same path are called with the same
    zone and the same rule (or both with none), as long as neither zone
    identifier has a slash in it. *)
Theorem slash_free_zones_are_told_apart (c1 c2 d1 d2 : string)
  (op1 op2 : operation) :
  slash_free (zone_of op1) = true ->
  slash_free (zone_of op2) = true ->
  request_uri (perform c1 c2 op1) = request_uri (perform d1 d2 op2) ->
  zone_of op1 = zone_of op2 /\ rule_of op1 = rule_of op2.
Proof.
  intros H1 H2. rewrite !request_uri_perform.
  cbn [String.append]. intros E.
  injection E as E.
  change ("/pagerules" ++ ?x) with (String "/" ("pagerules" ++ x)) in E.
  apply (split_at_slash _ _ _ _ H1 H2) in E as [Ez E].
  split; [exact Ez|].
  cbn [String.append] in E.
  destruct (rule_of op1) as [r1|], (rule_of op2) as [r2|]; cbn in E.
  - injection E as <-. reflexivity.
  - discriminate E.
  - discriminate E.
  - reflexivity.
Qed.

Lemma slash_free_zones_are_told_apart_witness :
  zone_of (Get "023e" "9a78") = zone_of (Delete "023e" "9a78")
  /\ rule_of (Get "023e" "9a78") = rule_of (Delete "023e" "9a78").
Proof.
  apply (slash_free_zones_are_told_apart "a" "b" "c" "d"
           (Get "023e" "9a78") (Delete "023e" "9a78"));
    reflexivity.
Defined.

Lemma append_assoc_ (a b c : string) : (a ++ b) ++ c = a ++ b ++ c.
Proof. induction a as [|x a IH]; cbn; [reflexivity | rewrite IH; reflexivity]. Qed.

(** The identifiers are pasted into the path as they are: a rule
    identifier [b/pagerules/c] in zone [a] asks for the same path as the
    rule [c] in a zone [a/pagerules/b]. *)
Theorem identifiers_are_not_escaped (c1 c2 d1 d2 a b c : string)
  (op1 op2 : operation) :
  zone_of op1 = a ->
  rule_of op1 = Some (b ++ "/pagerules/" ++ c) ->
  zone_of op2 = a ++ "/pagerules/" ++ b ->
  rule_of op2 = Some c ->
  request_uri (perform c1 c2 op1) = request_uri (perform d1 d2 op2).
Proof.
  intros Z1 R1 Z2 R2. rewrite !request_uri_perform, Z1, R1, Z2, R2.
  rewrite !append_assoc_. reflexivity.
Qed.

Lemma identifiers_are_not_escaped_witness :
  request_uri
    (perform "a" "b" (Delete "023e" "9a78/pagerules/77"))
  = request_uri
      (perform "a" "b" (Delete "023e/pagerules/9a78" "77")).
Proof.
  apply (identifiers_are_not_escaped "a" "b" "a" "b" "023e" "9a78" "77"
           (Delete "023e" "9a78/pagerules/77")
           (Delete "023e/pagerules/9a78" "77"));
    reflexivity.
Defined.

End RequestFacts.
